(** * EBD attendance API (src/app.py): a shallow embedding and its properties

    The Flask handlers of [src/app.py] are embedded as functions over
    - [json]: the Python values that [request.get_json()] can produce
      (strings are byte strings, digits are the ASCII ones);
    - [outcome]: what a request ends in (a JSON response with its status, an
      [abort] that the framework renders, or an exception nobody caught,
      which the framework answers with status 500);
    - [db]: the committed rows of the four tables that the models declare,
      with the columns, defaults, nullability, uniqueness and foreign keys
      of the declarations.

    A handler works on session objects ([Classe.obj], [Aluno.obj],
    [Frequencia.obj]): the loaded row and the attributes assigned since.
    Only [db.session.commit()] writes, and the session is discarded with the
    request, so a handler that returns before its commit leaves [db] as it
    was.  The time of the request ([datetime.utcnow]) is an argument.

    Names follow the source ([historico_frequencia], [atualizar_aluno],
    [to_dict], ...); a handler here is the body under [@jwt_required()], the
    decorator is [jwt_required].  The libraries the source calls (the
    database driver, werkzeug's password hashing, the token codec) are
    interfaces ([Dbapi], [Werkzeug], [Jwt]) that the theorems quantify
    over. *)

From Stdlib Require Import ZArith List String Ascii Bool Lia DecimalString.
Import ListNotations.
Local Open Scope string_scope.
Local Open Scope Z_scope.

(** ** Python values *)

(** A Python [float]: a finite one is the dyadic rational [m * 2^e]. *)
Inductive pyfloat : Type :=
| FNan
| FInf (negative : bool)
| FFin (m e : Z).

(** What [json.loads] yields: [None], [bool], [int], [float], [str], [list]
    and [dict] (insertion-ordered, looked up by key). *)
#[warnings="-register-all"]
Inductive json : Type :=
| JNull
| JBool (b : bool)
| JInt (z : Z)
| JFloat (f : pyfloat)
| JStr (s : string)
| JList (l : list json)
| JDict (d : list (string * json)).

(** Exceptions of the Python runtime and of the libraries that the handlers
    can meet. *)
Inductive exn : Type :=
| TypeError (msg : string)
| AttributeError (msg : string)
| KeyError (key : string)
| ValueError (msg : string)
| LookupError (msg : string)
| IntegrityError (msg : string)
| DataError (msg : string).

Definition str_exn (e : exn) : string :=
  match e with
  | TypeError m | AttributeError m | ValueError m | LookupError m
  | IntegrityError m | DataError m => m
  | KeyError k => "'" ++ k ++ "'"
  end.

(** A computation that may raise. *)
Inductive result (A : Type) : Type :=
| Ok (a : A)
| Raise (e : exn).
Arguments Ok {A} a.
Arguments Raise {A} e.

Definition rbind {A B} (r : result A) (k : A -> result B) : result B :=
  match r with Ok a => k a | Raise e => Raise e end.

Fixpoint assoc (k : string) (d : list (string * json)) : option json :=
  match d with
  | [] => None
  | (k', v) :: d' => if String.eqb k k' then Some v else assoc k d'
  end.

(** [bool(v)]. *)
Definition float_is_zero (f : pyfloat) : bool :=
  match f with FFin m _ => m =? 0 | _ => false end.

Definition truthy (v : json) : bool :=
  match v with
  | JNull => false
  | JBool b => b
  | JInt z => negb (z =? 0)
  | JFloat f => negb (float_is_zero f)
  | JStr s => negb (String.eqb s "")
  | JList l => match l with [] => false | _ => true end
  | JDict d => match d with [] => false | _ => true end
  end.

(** [f == n] for a float [f] and an int [n]: Python compares the exact
    mathematical values. *)
Definition float_eq_int (f : pyfloat) (n : Z) : bool :=
  match f with
  | FFin m e => if 0 <=? e then n =? m * 2 ^ e else n * 2 ^ (- e) =? m
  | _ => false
  end.

(** [v == n] for an int [n] ([True == 1] and [7.0 == 7] hold in Python). *)
Definition py_eq_int (v : json) (n : Z) : bool :=
  match v with
  | JInt z => z =? n
  | JBool b => (if b then 1 else 0) =? n
  | JFloat f => float_eq_int f n
  | _ => false
  end.

(** [v == s] for a str [s]. *)
Definition py_eq_str (v : json) (s : string) : bool :=
  match v with JStr s' => String.eqb s' s | _ => false end.

Definition type_name (v : json) : string :=
  match v with
  | JNull => "NoneType" | JBool _ => "bool" | JInt _ => "int"
  | JFloat _ => "float" | JStr _ => "str" | JList _ => "list"
  | JDict _ => "dict"
  end.

Definition is_substring (k s : string) : bool :=
  match index 0 k s with Some _ => true | None => false end.

(** [k in v]: key membership for a dict, element membership for a list,
    substring for a str, [TypeError] otherwise. *)
Definition py_in (k : string) (v : json) : result bool :=
  match v with
  | JDict d => Ok (match assoc k d with Some _ => true | None => false end)
  | JList l => Ok (existsb (fun x => py_eq_str x k) l)
  | JStr s => Ok (is_substring k s)
  | _ => Raise (TypeError ("argument of type '" ++ type_name v ++ "' is not iterable"))
  end.

(** [v[k]] for a str key [k]. *)
Definition py_getitem (v : json) (k : string) : result json :=
  match v with
  | JDict d => match assoc k d with Some x => Ok x | None => Raise (KeyError k) end
  | JList _ => Raise (TypeError "list indices must be integers or slices, not str")
  | JStr _ => Raise (TypeError "string indices must be integers, not 'str'")
  | _ => Raise (TypeError ("'" ++ type_name v ++ "' object is not subscriptable"))
  end.

(** [v.get(k, dflt)]: only a dict has the method. *)
Definition py_get_default (v : json) (k : string) (dflt : json) : result json :=
  match v with
  | JDict d => Ok (match assoc k d with Some x => x | None => dflt end)
  | _ => Raise (AttributeError ("'" ++ type_name v ++ "' object has no attribute 'get'"))
  end.

Definition py_get (v : json) (k : string) : result json :=
  py_get_default v k JNull.

(** [all(field in data for field in fields)]: stops at the first [False]. *)
Fixpoint all_in (fields : list string) (data : json) : result bool :=
  match fields with
  | [] => Ok true
  | f :: fs =>
      rbind (py_in f data) (fun b => if b then all_in fs data else Ok false)
  end.

(** ** Calendar dates and [datetime.strptime(s, '%Y-%m-%d')] *)

Record date : Type := mkDate { year : Z; month : Z; day : Z }.

Definition is_leap (y : Z) : bool :=
  ((y mod 4 =? 0) && negb (y mod 100 =? 0)) || (y mod 400 =? 0).

Definition days_in_month (y m : Z) : Z :=
  if m =? 2 then (if is_leap y then 29 else 28)
  else if (m =? 4) || (m =? 6) || (m =? 9) || (m =? 11) then 30
  else 31.

Definition valid_date (d : date) : bool :=
  (1 <=? year d) && (year d <=? 9999) &&
  (1 <=? month d) && (month d <=? 12) &&
  (1 <=? day d) && (day d <=? days_in_month (year d) (month d)).

Definition date_eqb (a b : date) : bool :=
  (year a =? year b) && (month a =? month b) && (day a =? day b).

(** Order of the calendar (what [BETWEEN] compares). *)
Definition date_leb (a b : date) : bool :=
  (year a <? year b) ||
  ((year a =? year b) &&
   ((month a <? month b) || ((month a =? month b) && (day a <=? day b)))).

Definition date_ltb (a b : date) : bool := date_leb a b && negb (date_eqb a b).

(** [d + timedelta(days=1)] and [d - timedelta(days=1)] inside a year range
    that [date] supports. *)
Definition tomorrow (d : date) : date :=
  if day d <? days_in_month (year d) (month d)
  then mkDate (year d) (month d) (day d + 1)
  else if month d <? 12 then mkDate (year d) (month d + 1) 1
  else mkDate (year d + 1) 1 1.

Definition yesterday (d : date) : date :=
  if 1 <? day d then mkDate (year d) (month d) (day d - 1)
  else if 1 <? month d
       then mkDate (year d) (month d - 1) (days_in_month (year d) (month d - 1))
       else mkDate (year d - 1) 12 31.

(** [d.toordinal()]: the number of the day, 0001-01-01 being day 1. *)
Definition leap_day (y : Z) : Z := if is_leap y then 1 else 0.

Definition days_before_year (y : Z) : Z :=
  let p := y - 1 in 365 * p + p / 4 - p / 100 + p / 400.

Definition days_before_month (y m : Z) : Z :=
  match m with
  | 1 => 0 | 2 => 31 | 3 => 59 | 4 => 90 | 5 => 120 | 6 => 151
  | 7 => 181 | 8 => 212 | 9 => 243 | 10 => 273 | 11 => 304 | _ => 334
  end + (if (2 <? m) && is_leap y then 1 else 0).

Definition toordinal (d : date) : Z :=
  days_before_year (year d) + days_before_month (year d) (month d) + day d.

Definition is_digit (c : ascii) : bool :=
  let n := Z.of_nat (nat_of_ascii c) in (48 <=? n) && (n <=? 57).

Definition digit_val (c : ascii) : Z := Z.of_nat (nat_of_ascii c) - 48.

Definition in_range (lo hi : Z) (c : ascii) : bool :=
  let n := digit_val c in is_digit c && (lo <=? n) && (n <=? hi).

(** One alternative of a directive's regular expression: the value it reads
    and the rest of the input. *)
Definition alt : Type := string -> option (Z * string).

Definition two_chars (p1 p2 : ascii -> bool) : alt := fun s =>
  match s with
  | String a (String b rest) =>
      if p1 a && p2 b then Some (10 * digit_val a + digit_val b, rest) else None
  | _ => None
  end.

Definition one_char (p : ascii -> bool) : alt := fun s =>
  match s with
  | String a rest => if p a then Some (digit_val a, rest) else None
  | _ => None
  end.

Definition space_then (p : ascii -> bool) : alt := fun s =>
  match s with
  | String a (String b rest) =>
      if Ascii.eqb a " "%char && p b then Some (digit_val b, rest) else None
  | _ => None
  end.

(** [%m] is [1[0-2]|0[1-9]|[1-9]]. *)
Definition alts_m : list alt :=
  [ two_chars (in_range 1 1) (in_range 0 2);
    two_chars (in_range 0 0) (in_range 1 9);
    one_char (in_range 1 9) ].

(** [%d] is [3[0-1]|[1-2]\d|0[1-9]|[1-9]| [1-9]]. *)
Definition alts_d : list alt :=
  [ two_chars (in_range 3 3) (in_range 0 1);
    two_chars (in_range 1 2) is_digit;
    two_chars (in_range 0 0) (in_range 1 9);
    one_char (in_range 1 9);
    space_then (in_range 1 9) ].

(** Ordered choice with backtracking into the continuation, as the regular
    expression engine does. *)
Fixpoint first_match {A} (alts : list alt) (s : string)
  (k : Z -> string -> option A) : option A :=
  match alts with
  | [] => None
  | a :: more =>
      match a s with
      | Some (v, rest) =>
          match k v rest with
          | Some r => Some r
          | None => first_match more s k
          end
      | None => first_match more s k
      end
  end.

Definition dash (s : string) : option string :=
  match s with
  | String c rest => if Ascii.eqb c "-"%char then Some rest else None
  | _ => None
  end.

(** [%Y] is [\d\d\d\d]. *)
Definition read_Y (s : string) : option (Z * string) :=
  match s with
  | String a (String b (String c (String d rest))) =>
      if is_digit a && is_digit b && is_digit c && is_digit d
      then Some (1000 * digit_val a + 100 * digit_val b
                 + 10 * digit_val c + digit_val d, rest)
      else None
  | _ => None
  end.

(** The match of [%Y-%m-%d] against a prefix of the input: the fields and the
    unconverted rest. *)
Definition match_format (s : string) : option (date * string) :=
  match read_Y s with
  | Some (y, s1) =>
      match dash s1 with
      | Some s2 =>
          first_match alts_m s2 (fun m s3 =>
            match dash s3 with
            | Some s4 =>
                first_match alts_d s4 (fun d s5 => Some (mkDate y m d, s5))
            | None => None
            end)
      | None => None
      end
  | None => None
  end.

Definition strptime_str (s : string) : result date :=
  match match_format s with
  | None =>
      Raise (ValueError ("time data '" ++ s ++ "' does not match format '%Y-%m-%d'"))
  | Some (d, rest) =>
      if negb (String.eqb rest "")
      then Raise (ValueError ("unconverted data remains: " ++ rest))
      else if valid_date d then Ok d
      else if year d =? 0 then Raise (ValueError "year 0 is out of range")
      else Raise (ValueError "day is out of range for month")
  end.

(** [datetime.strptime(v, '%Y-%m-%d')] on whatever the request carried (the
    result is always at midnight, so only its date is kept). *)
Definition strptime (v : json) : result date :=
  match v with
  | JStr s => strptime_str s
  | _ => Raise (TypeError ("strptime() argument 1 must be str, not " ++ type_name v))
  end.

Definition string_of_Z (z : Z) : string :=
  NilZero.string_of_int (Z.to_int z).

Definition pad2 (z : Z) : string :=
  if z <? 10 then "0" ++ string_of_Z z else string_of_Z z.

(** [d.strftime('%Y-%m-%d')]. *)
Definition strftime (d : date) : string :=
  string_of_Z (year d) ++ "-" ++ pad2 (month d) ++ "-" ++ pad2 (day d).

(** ** [int(s)] on a query parameter *)

Definition is_space (c : ascii) : bool :=
  let n := Z.of_nat (nat_of_ascii c) in
  ((9 <=? n) && (n <=? 13)) || (n =? 32).

Fixpoint lstrip (s : string) : string :=
  match s with
  | String c rest => if is_space c then lstrip rest else s
  | EmptyString => s
  end.

Fixpoint all_space (s : string) : bool :=
  match s with
  | String c rest => is_space c && all_space rest
  | EmptyString => true
  end.

(** Digits with single underscores between them, then optional trailing
    white space; [acc] is the value read so far and [prev_digit] tells whether
    the previous character was a digit. *)
Fixpoint read_digits (s : string) (acc : Z) (prev_digit : bool) : option Z :=
  match s with
  | EmptyString => if prev_digit then Some acc else None
  | String c rest =>
      if is_digit c then read_digits rest (10 * acc + digit_val c) true
      else if Ascii.eqb c "_"%char
           then (if prev_digit
                 then match rest with
                      | String c' _ => if is_digit c' then read_digits rest acc false else None
                      | EmptyString => None
                      end
                 else None)
      else if prev_digit && all_space s then Some acc
      else None
  end.

Definition py_int (s : string) : result Z :=
  let bad := Raise (ValueError ("invalid literal for int() with base 10: '" ++ s ++ "'")) in
  match lstrip s with
  | String c rest =>
      if Ascii.eqb c "-"%char
      then match read_digits rest 0 false with Some z => Ok (- z) | None => bad end
      else if Ascii.eqb c "+"%char
      then match read_digits rest 0 false with Some z => Ok z | None => bad end
      else match read_digits (String c rest) 0 false with Some z => Ok z | None => bad end
  | EmptyString => bad
  end.

(** ** The tables (the models of the source) *)

Module User.
Record t : Type := mk
  { id : Z; username : string; password_hash : string; created_at : Z }.

Definition to_dict (u : t) : json :=
  JDict [("id", JInt (id u)); ("username", JStr (username u))].
End User.

Module Classe.
Record t : Type := mk
  { id : Z; nome : string; professor : string;
    created_at : Z; updated_at : Z }.

Definition to_dict (c : t) : json :=
  JDict [("id", JInt (id c)); ("nome", JStr (nome c));
         ("professor", JStr (professor c))].

(** The instance in the session: the loaded row and the attributes
    assigned since, which the next flush compares with the row. *)
Record obj : Type := mkObj
  { row : t; new_nome : option json; new_professor : option json }.

Definition load (r : t) : obj := mkObj r None None.
Definition set_nome (v : json) (o : obj) : obj :=
  mkObj (row o) (Some v) (new_professor o).
Definition set_professor (v : json) (o : obj) : obj :=
  mkObj (row o) (new_nome o) (Some v).
End Classe.

(** [db.Enum('MATRICULADO', 'DESMATRICULADO', name='status_aluno')]. *)
Inductive status_aluno : Type := MATRICULADO | DESMATRICULADO.

Definition status_label (s : status_aluno) : string :=
  match s with
  | MATRICULADO => "MATRICULADO"
  | DESMATRICULADO => "DESMATRICULADO"
  end.

Definition json_of_status (s : option status_aluno) : json :=
  match s with Some x => JStr (status_label x) | None => JNull end.

Definition json_of_int (z : option Z) : json :=
  match z with Some x => JInt x | None => JNull end.

Module Aluno.
(** [status] has no [nullable=False]: the column admits NULL. *)
Record t : Type := mk
  { id : Z; nome : string; data_nascimento : date;
    status : option status_aluno; classe_id : Z;
    created_at : Z; updated_at : Z }.

Definition to_dict (a : t) : json :=
  JDict [("id", JInt (id a)); ("nome", JStr (nome a));
         ("data_nascimento", JStr (strftime (data_nascimento a)));
         ("status", json_of_status (status a));
         ("classe_id", JInt (classe_id a))].

Record obj : Type := mkObj
  { row : t; new_nome : option json; new_data_nascimento : option date;
    new_classe_id : option json; new_status : option json }.

Definition load (r : t) : obj := mkObj r None None None None.
Definition set_nome (v : json) (o : obj) : obj :=
  mkObj (row o) (Some v) (new_data_nascimento o) (new_classe_id o) (new_status o).
Definition set_data_nascimento (d : date) (o : obj) : obj :=
  mkObj (row o) (new_nome o) (Some d) (new_classe_id o) (new_status o).
Definition set_classe_id (v : json) (o : obj) : obj :=
  mkObj (row o) (new_nome o) (new_data_nascimento o) (Some v) (new_status o).
Definition set_status (v : json) (o : obj) : obj :=
  mkObj (row o) (new_nome o) (new_data_nascimento o) (new_classe_id o) (Some v).
End Aluno.

Module Frequencia.
Record t : Type := mk
  { id : Z; classe_id : Z; data : date;
    total_biblia : option Z; total_present : option Z;
    total_absent : option Z; total_visitors : option Z;
    total_general : option Z; presencas : json;
    created_at : Z; updated_at : Z }.

Definition to_dict (f : t) : list (string * json) :=
  [("id", JInt (id f)); ("classe_id", JInt (classe_id f));
   ("data", JStr (strftime (data f)));
   ("total_biblia", json_of_int (total_biblia f));
   ("total_present", json_of_int (total_present f));
   ("total_absent", json_of_int (total_absent f));
   ("total_visitors", json_of_int (total_visitors f));
   ("total_general", json_of_int (total_general f));
   ("presencas", presencas f)].

Record obj : Type := mkObj
  { row : t; new_classe_id : option json; new_data : option date;
    new_total_biblia : option json; new_total_present : option json;
    new_total_absent : option json; new_total_visitors : option json;
    new_total_general : option json; new_presencas : option json }.

Definition load (r : t) : obj := mkObj r None None None None None None None None.
Definition set_classe_id (v : json) (o : obj) : obj :=
  mkObj (row o) (Some v) (new_data o) (new_total_biblia o) (new_total_present o)
    (new_total_absent o) (new_total_visitors o) (new_total_general o) (new_presencas o).
Definition set_data (d : date) (o : obj) : obj :=
  mkObj (row o) (new_classe_id o) (Some d) (new_total_biblia o) (new_total_present o)
    (new_total_absent o) (new_total_visitors o) (new_total_general o) (new_presencas o).
Definition set_total_biblia (v : json) (o : obj) : obj :=
  mkObj (row o) (new_classe_id o) (new_data o) (Some v) (new_total_present o)
    (new_total_absent o) (new_total_visitors o) (new_total_general o) (new_presencas o).
Definition set_total_present (v : json) (o : obj) : obj :=
  mkObj (row o) (new_classe_id o) (new_data o) (new_total_biblia o) (Some v)
    (new_total_absent o) (new_total_visitors o) (new_total_general o) (new_presencas o).
Definition set_total_absent (v : json) (o : obj) : obj :=
  mkObj (row o) (new_classe_id o) (new_data o) (new_total_biblia o) (new_total_present o)
    (Some v) (new_total_visitors o) (new_total_general o) (new_presencas o).
Definition set_total_visitors (v : json) (o : obj) : obj :=
  mkObj (row o) (new_classe_id o) (new_data o) (new_total_biblia o) (new_total_present o)
    (new_total_absent o) (Some v) (new_total_general o) (new_presencas o).
Definition set_total_general (v : json) (o : obj) : obj :=
  mkObj (row o) (new_classe_id o) (new_data o) (new_total_biblia o) (new_total_present o)
    (new_total_absent o) (new_total_visitors o) (Some v) (new_presencas o).
Definition set_presencas (v : json) (o : obj) : obj :=
  mkObj (row o) (new_classe_id o) (new_data o) (new_total_biblia o) (new_total_present o)
    (new_total_absent o) (new_total_visitors o) (new_total_general o) (Some v).
End Frequencia.

(** The committed state of the database: the rows of the four tables in the
    order a table scan returns them, and the last value of each id sequence. *)
Record db : Type := mkDb
  { users : list User.t; classes : list Classe.t;
    alunos : list Aluno.t; frequencias : list Frequencia.t;
    users_seq : Z; classes_seq : Z; alunos_seq : Z; frequencias_seq : Z }.

(** What a request ends in: a JSON response, an [abort] that the framework
    renders (404), or an exception that no handler caught (a 500 page). *)
Inductive outcome : Type :=
| Response (status : Z) (body : json)
| Abort (status : Z)
| Unhandled (e : exn).

Definition status_code (o : outcome) : Z :=
  match o with
  | Response st _ => st
  | Abort st => st
  | Unhandled _ => 500
  end.

Definition view : Type := db -> outcome * db.

(** The control flow of a handler body before its commit: go on with a value,
    [return] a response early, [abort], or raise. *)
Inductive flow (A : Type) : Type :=
| Go (a : A)
| Return (status : Z) (body : json)
| Aborted (status : Z)
| Throw (e : exn).
Arguments Go {A} a.
Arguments Return {A} status body.
Arguments Aborted {A} status.
Arguments Throw {A} e.

Definition fbind {A B} (m : flow A) (k : A -> flow B) : flow B :=
  match m with
  | Go a => k a
  | Return st b => Return st b
  | Aborted st => Aborted st
  | Throw e => Throw e
  end.

Declare Scope flow_scope.
Delimit Scope flow_scope with flow.
Notation "x <- m ;; k" := (fbind m (fun x => k))
  (at level 61, m at next level, right associativity) : flow_scope.
Local Open Scope flow_scope.

(** An expression outside any [try]: its exception leaves the handler. *)
Definition eval {A} (r : result A) : flow A :=
  match r with Ok a => Go a | Raise e => Throw e end.

Definition msg (m : string) : json := JDict [("msg", JStr m)].

(** [try: ... except Exception as e: return jsonify({'msg': 'Formato de data
    inválido', 'error': str(e)}), 400]. *)
Definition try_formato {A} (r : result A) : flow A :=
  match r with
  | Ok a => Go a
  | Raise e =>
      Return 400 (JDict [("msg", JStr "Formato de data inválido");
                         ("error", JStr (str_exn e))])
  end.

(** A handler that never reaches [db.session.commit()] leaves the database
    as it found it: the session is discarded with the request. *)
Definition no_commit {A} (m : flow A) (s : db) (k : A -> outcome * db) : outcome * db :=
  match m with
  | Go a => k a
  | Return st b => (Response st b, s)
  | Aborted st => (Abort st, s)
  | Throw e => (Unhandled e, s)
  end.

Definition get_or_404 {A} (idf : A -> Z) (rows : list A) (i : Z) : flow A :=
  match find (fun r => idf r =? i) rows with
  | Some r => Go r
  | None => Aborted 404
  end.

(** Replace the row with primary key [i]. *)
Definition update_row {A} (idf : A -> Z) (i : Z) (r : A) (rows : list A) : list A :=
  map (fun x => if idf x =? i then r else x) rows.

(** ** External collaborators *)

(** The database driver and server: how a Python value that is not [None] is
    adapted to a column ([None] when the statement is rejected). *)
Class Dbapi : Type :=
  { bind_varchar : Z -> json -> option string;
    bind_integer : json -> option Z;
    bind_json : json -> option json;
    (** a value compared with a VARCHAR column in a WHERE clause *)
    param_varchar : json -> option string }.

(** [werkzeug.security]. *)
Class Werkzeug : Type :=
  { generate_password_hash : json -> result string;
    check_password_hash : string -> json -> result bool }.

(** A driver that accepts exactly the JSON type of the column. *)
Definition strict_dbapi : Dbapi :=
  {| bind_varchar := fun n v =>
       match v with
       | JStr s => if Z.of_nat (String.length s) <=? n then Some s else None
       | _ => None
       end;
     bind_integer := fun v =>
       match v with
       | JInt z => if (- 2 ^ 31 <=? z) && (z <? 2 ^ 31) then Some z else None
       | _ => None
       end;
     bind_json := fun v => Some v;
     param_varchar := fun v => match v with JStr s => Some s | _ => None end |}.

(** A toy password hash (the identity on strings), for concrete runs. *)
Definition plain_werkzeug : Werkzeug :=
  {| generate_password_hash := fun v =>
       match v with
       | JStr s => Ok s
       | _ => Raise (AttributeError "object has no attribute 'encode'")
       end;
     check_password_hash := fun h v =>
       match v with
       | JStr s => Ok (String.eqb h s)
       | _ => Raise (AttributeError "object has no attribute 'encode'")
       end |}.

(** ** The unit of work: what [db.session.commit()] writes *)

Definition with_users (s : db) (l : list User.t) (q : Z) : db :=
  mkDb l (classes s) (alunos s) (frequencias s)
       q (classes_seq s) (alunos_seq s) (frequencias_seq s).
Definition with_classes (s : db) (l : list Classe.t) (q : Z) : db :=
  mkDb (users s) l (alunos s) (frequencias s)
       (users_seq s) q (alunos_seq s) (frequencias_seq s).
Definition with_alunos (s : db) (l : list Aluno.t) (q : Z) : db :=
  mkDb (users s) (classes s) l (frequencias s)
       (users_seq s) (classes_seq s) q (frequencias_seq s).
Definition with_frequencias (s : db) (l : list Frequencia.t) (q : Z) : db :=
  mkDb (users s) (classes s) (alunos s) l
       (users_seq s) (classes_seq s) (alunos_seq s) q.

Definition not_null : exn := IntegrityError "null value violates not-null constraint".
Definition duplicate_key : exn := IntegrityError "duplicate key value violates unique constraint".
Definition foreign_key : exn := IntegrityError "violates foreign key constraint".
Definition cannot_adapt : exn := DataError "invalid input value for the column type".

Definition class_exists (s : db) (i : Z) : bool :=
  existsb (fun c => Classe.id c =? i) (classes s).

(** An attribute is part of the UPDATE only when its new value differs
    (Python [==], here [eq]) from the loaded one. *)
Definition changed {A} (eq : json -> A -> bool) (n : option json) (old : A)
  : option json :=
  match n with
  | Some v => if eq v old then None else Some v
  | None => None
  end.

Definition py_eq_opt_int (v : json) (old : option Z) : bool :=
  match old with
  | Some z => py_eq_int v z
  | None => match v with JNull => true | _ => false end
  end.

Definition py_eq_status (v : json) (old : option status_aluno) : bool :=
  match old with
  | Some st => py_eq_str v (status_label st)
  | None => match v with JNull => true | _ => false end
  end.

Definition changed_str : option json -> string -> option json := changed py_eq_str.
Definition changed_int : option json -> Z -> option json := changed py_eq_int.
Definition changed_opt_int : option json -> option Z -> option json :=
  changed py_eq_opt_int.
Definition changed_status : option json -> option status_aluno -> option json :=
  changed py_eq_status.

(** The Enum type: [None] goes through as NULL, a str that is not a label is
    refused by the server, anything else by the type itself. *)
Definition bind_status (v : json) : result (option status_aluno) :=
  match v with
  | JNull => Ok None
  | JStr s =>
      if String.eqb s "MATRICULADO" then Ok (Some MATRICULADO)
      else if String.eqb s "DESMATRICULADO" then Ok (Some DESMATRICULADO)
      else Raise (DataError "invalid input value for enum status_aluno")
  | _ => Raise (LookupError "is not among the defined enum values")
  end.

Definition is_some {A} (o : option A) : bool :=
  match o with Some _ => true | None => false end.

Section UnitOfWork.
Context {D : Dbapi}.

(** A NOT NULL VARCHAR(n) column. *)
Definition col_varchar (n : Z) (v : json) : result string :=
  match v with
  | JNull => Raise not_null
  | _ => match bind_varchar n v with
         | Some s => Ok s
         | None => Raise cannot_adapt
         end
  end.

(** A NOT NULL INTEGER column. *)
Definition col_integer (v : json) : result Z :=
  match v with
  | JNull => Raise not_null
  | _ => match bind_integer v with
         | Some z => Ok z
         | None => Raise cannot_adapt
         end
  end.

(** A nullable INTEGER column in an UPDATE. *)
Definition col_opt_integer (v : json) : result (option Z) :=
  match v with
  | JNull => Ok None
  | _ => match bind_integer v with
         | Some z => Ok (Some z)
         | None => Raise cannot_adapt
         end
  end.

(** A nullable INTEGER column with [default=0] in an INSERT: a [None]
    attribute is left out of the statement and the default applies. *)
Definition col_default0 (v : json) : result (option Z) :=
  match v with
  | JNull => Ok (Some 0)
  | _ => col_opt_integer v
  end.

Definition col_json (v : json) : result json :=
  match bind_json v with
  | Some x => Ok x
  | None => Raise cannot_adapt
  end.

(** The value of a column after the UPDATE: the old one when the column is
    not set. *)
Definition upd {A} (col : json -> result A) (p : option json) (old : A) : result A :=
  match p with Some v => col v | None => Ok old end.

Definition insert_user (uname : json) (hash : string) (now : Z) (s : db)
  : result User.t * db :=
  match rbind (col_varchar 80 uname) (fun u =>
        rbind (col_varchar 128 (JStr hash)) (fun h => Ok (u, h))) with
  | Raise e => (Raise e, s)
  | Ok (u, h) =>
      let i := users_seq s + 1 in
      if existsb (fun x => (User.id x =? i) || String.eqb (User.username x) u) (users s)
      then (Raise duplicate_key, with_users s (users s) i)
      else let r := User.mk i u h now in
           (Ok r, with_users s (users s ++ [r]) i)
  end.

Definition insert_classe (nome professor : json) (now : Z) (s : db)
  : result Classe.t * db :=
  match rbind (col_varchar 255 nome) (fun n =>
        rbind (col_varchar 255 professor) (fun p => Ok (n, p))) with
  | Raise e => (Raise e, s)
  | Ok (n, p) =>
      let i := classes_seq s + 1 in
      if existsb (fun x => (Classe.id x =? i) || String.eqb (Classe.nome x) n) (classes s)
      then (Raise duplicate_key, with_classes s (classes s) i)
      else let r := Classe.mk i n p now now in
           (Ok r, with_classes s (classes s ++ [r]) i)
  end.

Definition update_classe (o : Classe.obj) (now : Z) (s : db)
  : result Classe.t * db :=
  let r := Classe.row o in
  let p_nome := changed_str (Classe.new_nome o) (Classe.nome r) in
  let p_professor := changed_str (Classe.new_professor o) (Classe.professor r) in
  if negb (is_some p_nome || is_some p_professor) then (Ok r, s)
  else
    match rbind (upd (col_varchar 255) p_nome (Classe.nome r)) (fun n =>
          rbind (upd (col_varchar 255) p_professor (Classe.professor r)) (fun p =>
          Ok (n, p))) with
    | Raise e => (Raise e, s)
    | Ok (n, p) =>
        if is_some p_nome &&
           existsb (fun x => negb (Classe.id x =? Classe.id r)
                             && String.eqb (Classe.nome x) n) (classes s)
        then (Raise duplicate_key, s)
        else let r' := Classe.mk (Classe.id r) n p (Classe.created_at r) now in
             (Ok r', with_classes s (update_row Classe.id (Classe.id r) r' (classes s))
                                  (classes_seq s))
    end.

(** [status] is not given by the constructor call of the source: the column
    default applies. *)
Definition insert_aluno (nome : json) (nasc : date) (classe_id : json)
  (now : Z) (s : db) : result Aluno.t * db :=
  match rbind (col_varchar 255 nome) (fun n =>
        rbind (col_integer classe_id) (fun c => Ok (n, c))) with
  | Raise e => (Raise e, s)
  | Ok (n, c) =>
      let i := alunos_seq s + 1 in
      if existsb (fun x => Aluno.id x =? i) (alunos s)
      then (Raise duplicate_key, with_alunos s (alunos s) i)
      else if negb (class_exists s c)
      then (Raise foreign_key, with_alunos s (alunos s) i)
      else let r := Aluno.mk i n nasc (Some MATRICULADO) c now now in
           (Ok r, with_alunos s (alunos s ++ [r]) i)
  end.

Definition update_aluno (o : Aluno.obj) (now : Z) (s : db)
  : result Aluno.t * db :=
  let r := Aluno.row o in
  let p_nome := changed_str (Aluno.new_nome o) (Aluno.nome r) in
  let p_classe := changed_int (Aluno.new_classe_id o) (Aluno.classe_id r) in
  let p_status := changed_status (Aluno.new_status o) (Aluno.status r) in
  if negb (is_some p_nome || is_some (Aluno.new_data_nascimento o)
           || is_some p_classe || is_some p_status) then (Ok r, s)
  else
    match rbind (upd (col_varchar 255) p_nome (Aluno.nome r)) (fun n =>
          rbind (upd col_integer p_classe (Aluno.classe_id r)) (fun c =>
          rbind (upd bind_status p_status (Aluno.status r)) (fun st =>
          Ok (n, c, st)))) with
    | Raise e => (Raise e, s)
    | Ok (n, c, st) =>
        if is_some p_classe && negb (class_exists s c)
        then (Raise foreign_key, s)
        else
          let d := match Aluno.new_data_nascimento o with
                   | Some d => d
                   | None => Aluno.data_nascimento r
                   end in
          let r' := Aluno.mk (Aluno.id r) n d st c (Aluno.created_at r) now in
          (Ok r', with_alunos s (update_row Aluno.id (Aluno.id r) r' (alunos s))
                              (alunos_seq s))
    end.

Definition insert_frequencia (classe_id : json) (dia : date)
  (biblia present absent visitors general presencas : json)
  (now : Z) (s : db) : result Frequencia.t * db :=
  match rbind (col_integer classe_id) (fun c =>
        rbind (col_default0 biblia) (fun tb =>
        rbind (col_default0 present) (fun tp =>
        rbind (col_default0 absent) (fun ta =>
        rbind (col_default0 visitors) (fun tv =>
        rbind (col_default0 general) (fun tg =>
        rbind (col_json presencas) (fun ps =>
        Ok (Frequencia.mk (frequencias_seq s + 1) c dia tb tp ta tv tg ps now now)))))))) with
  | Raise e => (Raise e, s)
  | Ok r =>
      let i := frequencias_seq s + 1 in
      if existsb (fun x => Frequencia.id x =? i) (frequencias s)
      then (Raise duplicate_key, with_frequencias s (frequencias s) i)
      else if negb (class_exists s (Frequencia.classe_id r))
      then (Raise foreign_key, with_frequencias s (frequencias s) i)
      else (Ok r, with_frequencias s (frequencias s ++ [r]) i)
  end.

(** An assigned [data] is a [datetime], never equal to the loaded [date],
    and the JSON column is written whenever it was assigned. *)
Definition update_frequencia (o : Frequencia.obj) (now : Z) (s : db)
  : result Frequencia.t * db :=
  let r := Frequencia.row o in
  let p_classe := changed_int (Frequencia.new_classe_id o) (Frequencia.classe_id r) in
  let p_tb := changed_opt_int (Frequencia.new_total_biblia o) (Frequencia.total_biblia r) in
  let p_tp := changed_opt_int (Frequencia.new_total_present o) (Frequencia.total_present r) in
  let p_ta := changed_opt_int (Frequencia.new_total_absent o) (Frequencia.total_absent r) in
  let p_tv := changed_opt_int (Frequencia.new_total_visitors o) (Frequencia.total_visitors r) in
  let p_tg := changed_opt_int (Frequencia.new_total_general o) (Frequencia.total_general r) in
  if negb (is_some p_classe || is_some (Frequencia.new_data o)
           || is_some p_tb || is_some p_tp || is_some p_ta || is_some p_tv
           || is_some p_tg || is_some (Frequencia.new_presencas o)) then (Ok r, s)
  else
    let dia := match Frequencia.new_data o with
               | Some d => d
               | None => Frequencia.data r
               end in
    match rbind (upd col_integer p_classe (Frequencia.classe_id r)) (fun c =>
          rbind (upd col_opt_integer p_tb (Frequencia.total_biblia r)) (fun tb =>
          rbind (upd col_opt_integer p_tp (Frequencia.total_present r)) (fun tp =>
          rbind (upd col_opt_integer p_ta (Frequencia.total_absent r)) (fun ta =>
          rbind (upd col_opt_integer p_tv (Frequencia.total_visitors r)) (fun tv =>
          rbind (upd col_opt_integer p_tg (Frequencia.total_general r)) (fun tg =>
          rbind (upd col_json (Frequencia.new_presencas o) (Frequencia.presencas r)) (fun ps =>
          Ok (Frequencia.mk (Frequencia.id r) c dia tb tp ta tv tg ps
                (Frequencia.created_at r) now)))))))) with
    | Raise e => (Raise e, s)
    | Ok r' =>
        if is_some p_classe && negb (class_exists s (Frequencia.classe_id r'))
        then (Raise foreign_key, s)
        else (Ok r', with_frequencias s
                       (update_row Frequencia.id (Frequencia.id r) r' (frequencias s))
                       (frequencias_seq s))
    end.

(** [User.query.filter_by(username=v).first()]. *)
Definition find_user (v : json) (s : db) : result (option User.t) :=
  match v with
  | JNull => Ok None
  | _ => match param_varchar v with
         | Some u => Ok (find (fun x => String.eqb (User.username x) u) (users s))
         | None => Raise cannot_adapt
         end
  end.
End UnitOfWork.

(** [commit] followed by [return jsonify(obj.to_dict()), status]. *)
Definition committed {A} (status : Z) (to_dict : A -> json)
  (w : result A * db) : outcome * db :=
  match w with
  | (Ok r, s') => (Response status (to_dict r), s')
  | (Raise e, s') => (Unhandled e, s')
  end.

(** ** The handlers *)

Definition dq : string := String (ascii_of_nat 34) EmptyString.

(** [value if cond else leave]: the body of [if 'k' in data: obj.k = data['k']]. *)
Definition assign_if_present {O} (k : string) (data : json)
  (set : json -> O -> O) (o : O) : flow O :=
  b <- eval (py_in k data) ;;
  if (b : bool) then v <- eval (py_getitem data k) ;; Go (set v o) else Go o.

(** The same where the value goes through [strptime] inside a [try]. *)
Definition assign_date_if_present {O} (k : string) (data : json)
  (set : date -> O -> O) (o : O) : flow O :=
  b <- eval (py_in k data) ;;
  if (b : bool)
  then d <- try_formato (rbind (py_getitem data k) strptime) ;; Go (set d o)
  else Go o.

Section Handlers.
Context {D : Dbapi} {W : Werkzeug}.

(** [not data or not data.get(a) or not data.get(b)]. *)
Definition missing2 (data : json) (a b : string) : flow bool :=
  if negb (truthy data) then Go true
  else
    x <- eval (py_get data a) ;;
    if negb (truthy x) then Go true
    else y <- eval (py_get data b) ;; Go (negb (truthy y)).

Definition register (data : json) (now : Z) : view := fun s =>
  no_commit
    (m <- missing2 data "username" "password" ;;
     if (m : bool) then Return 400 (msg "Username e password são obrigatórios")
     else
       uname <- eval (py_getitem data "username") ;;
       found <- eval (find_user uname s) ;;
       if is_some (found : option User.t) then Return 400 (msg "Username já existe")
       else
         pw <- eval (py_getitem data "password") ;;
         h <- eval (generate_password_hash pw) ;;
         Go (uname, h))
    s
    (fun '(uname, h) => committed 201 User.to_dict (insert_user uname h now s)).

Definition listar_classes : view := fun s =>
  (Response 200 (JList (map Classe.to_dict (classes s))), s).

Definition criar_classe (data : json) (now : Z) : view := fun s =>
  no_commit
    (m <- missing2 data "nome" "professor" ;;
     if (m : bool)
     then Return 400 (msg ("Campos " ++ dq ++ "nome" ++ dq ++ " e " ++ dq
                           ++ "professor" ++ dq ++ " são obrigatórios"))
     else
       n <- eval (py_getitem data "nome") ;;
       p <- eval (py_getitem data "professor") ;;
       Go (n, p))
    s
    (fun '(n, p) => committed 201 Classe.to_dict (insert_classe n p now s)).

Definition atualizar_classe (classe_id : Z) (data : json) (now : Z) : view := fun s =>
  no_commit
    (row <- get_or_404 Classe.id (classes s) classe_id ;;
     classe <- assign_if_present "nome" data Classe.set_nome (Classe.load row) ;;
     assign_if_present "professor" data Classe.set_professor classe)
    s
    (fun classe => committed 200 Classe.to_dict (update_classe classe now s)).

Definition listar_alunos : view := fun s =>
  (Response 200 (JList (map Aluno.to_dict (alunos s))), s).

Definition criar_aluno (data : json) (now : Z) : view := fun s =>
  no_commit
    (ok <- eval (all_in ["nome"; "data_nascimento"; "classe_id"] data) ;;
     if negb ok then Return 400 (msg "Campos obrigatórios ausentes")
     else
       try_formato
         (rbind (py_getitem data "nome") (fun n =>
          rbind (rbind (py_getitem data "data_nascimento") strptime) (fun d =>
          rbind (py_getitem data "classe_id") (fun c =>
          Ok (n, d, c))))))
    s
    (fun '(n, d, c) => committed 201 Aluno.to_dict (insert_aluno n d c now s)).

Definition atualizar_aluno (aluno_id : Z) (data : json) (now : Z) : view := fun s =>
  no_commit
    (row <- get_or_404 Aluno.id (alunos s) aluno_id ;;
     aluno <- assign_if_present "nome" data Aluno.set_nome (Aluno.load row) ;;
     aluno <- assign_date_if_present "data_nascimento" data
                Aluno.set_data_nascimento aluno ;;
     aluno <- assign_if_present "classe_id" data Aluno.set_classe_id aluno ;;
     assign_if_present "status" data Aluno.set_status aluno)
    s
    (fun aluno => committed 200 Aluno.to_dict (update_aluno aluno now s)).

Definition deletar_classe (classe_id : Z) : view := fun s =>
  no_commit (get_or_404 Classe.id (classes s) classe_id) s
    (fun classe =>
       if existsb (fun a => Aluno.classe_id a =? Classe.id classe) (alunos s)
          || existsb (fun f => Frequencia.classe_id f =? Classe.id classe) (frequencias s)
       then (Unhandled foreign_key, s)
       else (Response 200 (msg "Classe deletada"),
             with_classes s
               (filter (fun c => negb (Classe.id c =? Classe.id classe)) (classes s))
               (classes_seq s))).

Definition deletar_aluno (aluno_id : Z) : view := fun s =>
  no_commit (get_or_404 Aluno.id (alunos s) aluno_id) s
    (fun aluno =>
       (Response 200 (msg "Aluno deletado"),
        with_alunos s
          (filter (fun a => negb (Aluno.id a =? Aluno.id aluno)) (alunos s))
          (alunos_seq s))).

Definition frequencia_json (f : Frequencia.t) : json := JDict (Frequencia.to_dict f).

Definition listar_frequencias : view := fun s =>
  (Response 200 (JList (map frequencia_json (frequencias s))), s).

Definition registrar_frequencia (data : json) (now : Z) : view := fun s =>
  no_commit
    (ok <- eval (all_in ["classe_id"; "data"] data) ;;
     if negb ok
     then Return 400 (msg ("Campos " ++ dq ++ "classe_id" ++ dq ++ " e " ++ dq
                           ++ "data" ++ dq ++ " são obrigatórios"))
     else
       try_formato
         (rbind (py_getitem data "classe_id") (fun c =>
          rbind (rbind (py_getitem data "data") strptime) (fun d =>
          rbind (py_get_default data "total_biblia" (JInt 0)) (fun tb =>
          rbind (py_get_default data "total_present" (JInt 0)) (fun tp =>
          rbind (py_get_default data "total_absent" (JInt 0)) (fun ta =>
          rbind (py_get_default data "total_visitors" (JInt 0)) (fun tv =>
          rbind (py_get_default data "total_general" (JInt 0)) (fun tg =>
          rbind (py_get_default data "presencas" (JList [])) (fun ps =>
          (* the constructor call ends the try; add and commit follow it *)
          Ok (insert_frequencia c d tb tp ta tv tg ps now)))))))))))
    s
    (fun nova_frequencia => committed 201 frequencia_json (nova_frequencia s)).

Definition atualizar_frequencia (frequencia_id : Z) (data : json) (now : Z) : view :=
  fun s =>
  no_commit
    (row <- get_or_404 Frequencia.id (frequencias s) frequencia_id ;;
     f <- assign_if_present "classe_id" data Frequencia.set_classe_id
            (Frequencia.load row) ;;
     f <- assign_date_if_present "data" data Frequencia.set_data f ;;
     f <- assign_if_present "total_biblia" data Frequencia.set_total_biblia f ;;
     f <- assign_if_present "total_present" data Frequencia.set_total_present f ;;
     f <- assign_if_present "total_absent" data Frequencia.set_total_absent f ;;
     f <- assign_if_present "total_visitors" data Frequencia.set_total_visitors f ;;
     f <- assign_if_present "total_general" data Frequencia.set_total_general f ;;
     assign_if_present "presencas" data Frequencia.set_presencas f)
    s
    (fun f => committed 200 frequencia_json (update_frequencia f now s)).

Definition deletar_frequencia (frequencia_id : Z) : view := fun s =>
  no_commit (get_or_404 Frequencia.id (frequencias s) frequencia_id) s
    (fun f =>
       (Response 200 (msg "Frequência deletada"),
        with_frequencias s
          (filter (fun x => negb (Frequencia.id x =? Frequencia.id f)) (frequencias s))
          (frequencias_seq s))).
End Handlers.

(** ** Reports (the read-only handlers) *)

(** [request.args.get(k)]: the first value of the key, or [None]. *)
Fixpoint args_get (k : string) (args : list (string * string)) : option string :=
  match args with
  | [] => None
  | (k', v) :: rest => if String.eqb k k' then Some v else args_get k rest
  end.

Definition json_of_arg (a : option string) : json :=
  match a with Some s => JStr s | None => JNull end.

(** [Frequencia.data.between(start_date, end_date)]. *)
Definition between (start_date end_date : date) (f : Frequencia.t) : bool :=
  date_leb start_date (Frequencia.data f) && date_leb (Frequencia.data f) end_date.

Definition relatorio_semanal (args : list (string * string)) : view := fun s =>
  let data_inicio := args_get "data_inicio" args in
  let data_fim := args_get "data_fim" args in
  no_commit
    (try_formato
       (rbind (strptime (json_of_arg data_inicio)) (fun start_date =>
        rbind (strptime (json_of_arg data_fim)) (fun end_date =>
        Ok (start_date, end_date)))))
    s
    (fun '(start_date, end_date) =>
       (Response 200
          (JList (map frequencia_json
                    (filter (between start_date end_date) (frequencias s)))), s)).

Definition falsy_arg (a : option string) : bool :=
  match a with Some s => String.eqb s "" | None => true end.

Definition arg_text (a : option string) : string :=
  match a with Some s => s | None => "" end.

Definition relatorio_mensal (args : list (string * string)) : view := fun s =>
  let mes := args_get "mes" args in
  let ano := args_get "ano" args in
  no_commit
    (if falsy_arg mes || falsy_arg ano
     then Return 400 (msg ("Parâmetros " ++ dq ++ "mes" ++ dq ++ " e " ++ dq
                           ++ "ano" ++ dq ++ " são obrigatórios"))
     else
       m <- eval (py_int (arg_text mes)) ;;
       a <- eval (py_int (arg_text ano)) ;;
       Go (m, a))
    s
    (fun '(m, a) =>
       (Response 200
          (JList (map frequencia_json
                    (filter (fun f => (month (Frequencia.data f) =? m)
                                      && (year (Frequencia.data f) =? a))
                            (frequencias s)))), s)).

(** [hoje] is [datetime.utcnow()]. *)
Definition listar_aniversariantes (hoje : date) : view := fun s =>
  (Response 200
     (JList (map Aluno.to_dict
               (filter (fun a => (month (Aluno.data_nascimento a) =? month hoje)
                                 && (day (Aluno.data_nascimento a) =? day hoje))
                       (alunos s)))), s).

Definition is_list (v : json) : bool :=
  match v with JList _ => true | _ => false end.

(** The inner loop of [historico_frequencia]: the first [presenca] with
    [presenca.get('aluno_id') == aluno_id], where the loop breaks. *)
Fixpoint scan_presencas (l : list json) (aluno_id : Z) : result (option json) :=
  match l with
  | [] => Ok None
  | presenca :: rest =>
      rbind (py_get presenca "aluno_id") (fun v =>
        if py_eq_int v aluno_id then Ok (Some presenca)
        else scan_presencas rest aluno_id)
  end.

(** [record = freq.to_dict(); record['presenca'] = presenca]. *)
Definition history_record (freq : Frequencia.t) (presenca : json) : json :=
  JDict (Frequencia.to_dict freq ++ [("presenca", presenca)]).

(** The outer loop, with the list [historico] built so far. *)
Fixpoint scan_frequencias (fs : list Frequencia.t) (aluno_id : Z)
  (historico : list json) : result (list json) :=
  match fs with
  | [] => Ok historico
  | freq :: rest =>
      if truthy (Frequencia.presencas freq) && is_list (Frequencia.presencas freq)
      then
        match Frequencia.presencas freq with
        | JList l =>
            rbind (scan_presencas l aluno_id) (fun found =>
              match found with
              | Some presenca =>
                  scan_frequencias rest aluno_id
                    (historico ++ [history_record freq presenca])
              | None => scan_frequencias rest aluno_id historico
              end)
        | _ => scan_frequencias rest aluno_id historico
        end
      else scan_frequencias rest aluno_id historico
  end.

Definition historico_frequencia (aluno_id : Z) : view := fun s =>
  match scan_frequencias (frequencias s) aluno_id [] with
  | Ok historico => (Response 200 (JList historico), s)
  | Raise e => (Unhandled e, s)
  end.

(** ** Session tokens ([flask_jwt_extended] over PyJWT) *)

(** The registered claims of an access token. *)
Record claims : Type := mkClaims { sub : Z; iat : Z; nbf : Z; exp : Z }.

(** The signed compact serialization and its inverse under a key ([None] for a
    malformed token or a signature that does not verify). *)
Class Jwt : Type :=
  { jwt_encode : claims -> string -> string;
    jwt_decode : string -> string -> option claims }.

Inductive verified : Type :=
| Identity (who : Z)
| ExpiredToken
| ImmatureToken
| InvalidToken.

Section Session.
Context {D : Dbapi} {W : Werkzeug} {J : Jwt}.
(** [app.config['JWT_SECRET_KEY']]. *)
Variable JWT_SECRET_KEY : string.

(** [timedelta(hours=1)] in seconds. *)
Definition one_hour : Z := 3600.

Definition access_claims (who expires_delta now : Z) : claims :=
  mkClaims who now now (now + expires_delta).

Definition create_access_token (who expires_delta now : Z) : string :=
  jwt_encode (access_claims who expires_delta now) JWT_SECRET_KEY.

(** Signature first, then the time claims: a token is expired once
    [exp <= now]. *)
Definition decode_token (token : string) (now : Z) : verified :=
  match jwt_decode token JWT_SECRET_KEY with
  | None => InvalidToken
  | Some c =>
      if now <? nbf c then ImmatureToken
      else if exp c <=? now then ExpiredToken
      else Identity (sub c)
  end.

Definition login (data : json) (now : Z) : view := fun s =>
  no_commit
    (m <- missing2 data "username" "password" ;;
     if (m : bool) then Return 400 (msg "Username e password são obrigatórios")
     else
       uname <- eval (py_getitem data "username") ;;
       user <- eval (find_user uname s) ;;
       match (user : option User.t) with
       | Some u =>
           pw <- eval (py_getitem data "password") ;;
           ok <- eval (check_password_hash (User.password_hash u) pw) ;;
           if (ok : bool)
           then
             let token := create_access_token (User.id u) one_hour now in
             Return 200 (JDict [("access_token", JStr token)])
           else Return 401 (msg "Credenciais inválidas")
       | None => Return 401 (msg "Credenciais inválidas")
       end)
    s
    (fun r : outcome * db => r).

Definition bearer (header : string) : option string :=
  if prefix "Bearer " header
  then Some (substring 7 (String.length header - 7) header)
  else None.

(** [@jwt_required()]: the view runs only with a verified identity. *)
Definition jwt_required (authorization : option string) (now : Z)
  (f : Z -> view) : view := fun s =>
  match authorization with
  | None => (Response 401 (msg "Missing Authorization Header"), s)
  | Some header =>
      match bearer header with
      | None => (Response 422 (msg "Bad Authorization header"), s)
      | Some token =>
          match decode_token token now with
          | Identity who => f who s
          | ExpiredToken => (Response 401 (msg "Token has expired"), s)
          | ImmatureToken => (Response 422 (msg "The token is not yet valid (nbf)"), s)
          | InvalidToken => (Response 422 (msg "Signature verification failed"), s)
          end
      end
  end.

Definition protected (authorization : option string) (now : Z) : view :=
  jwt_required authorization now (fun current_user s =>
    (Response 200 (msg ("Usuário logado: " ++ string_of_Z current_user)), s)).
End Session.

(** A toy codec for concrete runs: the key and the four claims in decimal,
    separated by dots. *)
Fixpoint split_dot (s : string) (cur : string) : list string :=
  match s with
  | EmptyString => [cur]
  | String c rest =>
      if Ascii.eqb c "."%char then cur :: split_dot rest ""
      else split_dot rest (cur ++ String c EmptyString)
  end.

Definition toy_jwt : Jwt :=
  {| jwt_encode := fun c k =>
       k ++ "." ++ string_of_Z (sub c) ++ "." ++ string_of_Z (iat c) ++ "."
         ++ string_of_Z (nbf c) ++ "." ++ string_of_Z (exp c);
     jwt_decode := fun t k =>
       match split_dot t "" with
       | [k'; a; b; c; d] =>
           if String.eqb k k'
           then match py_int a, py_int b, py_int c, py_int d with
                | Ok a', Ok b', Ok c', Ok d' => Some (mkClaims a' b' c' d')
                | _, _, _, _ => None
                end
           else None
       | _ => None
       end |}.

(** ** Definitions that the properties are stated with *)

(** *** Parsing *)

Definition int_fails (s : string) : bool :=
  match py_int s with Ok _ => false | Raise _ => true end.

(** *** Per-student history *)

(** The history as the specification words it: for each record whose log
    holds an entry with the student's id, the record paired with the first
    such entry. *)
Definition entry_matches (student_id : Z) (entry : json) : bool :=
  match entry with
  | JDict d =>
      match assoc "aluno_id" d with
      | Some v => py_eq_int v student_id
      | None => false
      end
  | _ => false
  end.

Definition log_entries (f : Frequencia.t) : list json :=
  match Frequencia.presencas f with JList l => l | _ => [] end.

Definition history_for_student (records : list Frequencia.t) (student_id : Z)
  : list json :=
  flat_map (fun r =>
              match find (entry_matches student_id) (log_entries r) with
              | Some e => [history_record r e]
              | None => []
              end) records.

Definition is_dict (v : json) : bool :=
  match v with JDict _ => true | _ => false end.

(** A log is a sequence of mappings (whatever else the column holds is not a
    log at all). *)
Definition entries_are_dicts (f : Frequencia.t) : bool :=
  forallb is_dict (log_entries f).

(** Concrete data for the examples. *)
Module Sample.
Definition kids : Classe.t := Classe.mk 1 "Kids A" "Maria" 0 0.

Definition ana : Aluno.t :=
  Aluno.mk 1 "Ana" (mkDate 2015 3 15) (Some MATRICULADO) 1 0 0.

Definition entry (aluno_id : Z) (tag : string) : json :=
  JDict [("aluno_id", JInt aluno_id); ("nota", JStr tag)].

Definition freq (i : Z) (d : date) (log : json) : Frequencia.t :=
  Frequencia.mk i 1 d (Some 0) (Some 0) (Some 0) (Some 0) (Some 0) log 0 0.

(** One record with the student twice, one without the student, one whose
    log is null and one whose log is a mapping instead of a list. *)
Definition f1 : Frequencia.t :=
  freq 1 (mkDate 2024 1 7) (JList [entry 3 "x"; entry 7 "first"; entry 7 "second"]).
Definition f2 : Frequencia.t := freq 2 (mkDate 2024 1 14) (JList [entry 3 "y"]).
Definition f3 : Frequencia.t := freq 3 (mkDate 2024 1 21) JNull.
Definition f4 : Frequencia.t := freq 4 (mkDate 2024 1 28) (entry 7 "not a list").

Definition store : db := mkDb [] [kids] [ana] [f1; f2; f3; f4] 0 1 1 4.
End Sample.

Definition bob : User.t := User.mk 1 "bob" "segredo" 0.
Definition store_bob : db := mkDb [bob] [] [] [] 1 0 0 0.

Definition credentials (uname pw : string) : list (string * json) :=
  [("username", JStr uname); ("password", JStr pw)].

(** *** Requests that write *)

(** The create and update requests of the API. *)
Inductive operation : Type :=
| PostRegister (data : json)
| PostClasses (data : json)
| PutClasses (classe_id : Z) (data : json)
| PostAlunos (data : json)
| PutAlunos (aluno_id : Z) (data : json)
| PostFrequencias (data : json)
| PutFrequencias (frequencia_id : Z) (data : json).

Section Requests.
Context {D : Dbapi} {W : Werkzeug}.

Definition run (op : operation) (now : Z) : view :=
  match op with
  | PostRegister data => register data now
  | PostClasses data => criar_classe data now
  | PutClasses i data => atualizar_classe i data now
  | PostAlunos data => criar_aluno data now
  | PutAlunos i data => atualizar_aluno i data now
  | PostFrequencias data => registrar_frequencia data now
  | PutFrequencias i data => atualizar_frequencia i data now
  end.

End Requests.

(** Both fields of the body are present and truthy. *)
Definition has_credentials (d : list (string * json)) (uname pw : json) : Prop :=
  assoc "username" d = Some uname /\ truthy uname = true /\
  assoc "password" d = Some pw /\ truthy pw = true.

(** *** Partial updates *)

(** The columns of a class, by the name a request body would use. *)
Inductive classe_column : Type :=
| col_id | col_nome | col_professor | col_created_at | col_updated_at.

Definition column_name (c : classe_column) : string :=
  match c with
  | col_id => "id" | col_nome => "nome" | col_professor => "professor"
  | col_created_at => "created_at" | col_updated_at => "updated_at"
  end.

Definition column_value (c : classe_column) (r : Classe.t) : json :=
  match c with
  | col_id => JInt (Classe.id r)
  | col_nome => JStr (Classe.nome r)
  | col_professor => JStr (Classe.professor r)
  | col_created_at => JInt (Classe.created_at r)
  | col_updated_at => JInt (Classe.updated_at r)
  end.

Definition find_classe (i : Z) (s : db) : option Classe.t :=
  find (fun r => Classe.id r =? i) (classes s).

Definition find_aluno (i : Z) (s : db) : option Aluno.t :=
  find (fun r => Aluno.id r =? i) (alunos s).

Definition find_frequencia (i : Z) (s : db) : option Frequencia.t :=
  find (fun r => Frequencia.id r =? i) (frequencias s).

(** The frame property in the words of the specification, for classes: after
    an update, every field that the input does not name has its prior
    value. *)
Definition absent_fields_keep_their_value (D : Dbapi) : Prop :=
  forall (classe_id : Z) (d : list (string * json)) (now : Z) (s : db)
         (row row' : Classe.t),
    find_classe classe_id s = Some row ->
    find_classe classe_id (snd (atualizar_classe classe_id (JDict d) now s)) = Some row' ->
    forall c, assoc (column_name c) d = None -> column_value c row' = column_value c row.

(** A field across a successful update: absent from the input it keeps its
    value; present, the stored value is the input's (equal to it as Python
    compares, or what the column makes of it). *)
Definition field_frame {A} (eq : json -> A -> bool) (col : json -> result A)
  (p : option json) (old new : A) : Prop :=
  (p = None -> new = old)
  /\ (forall v, p = Some v -> eq v new = true \/ col v = Ok new).

(** A date field: the assigned date, or the prior one. *)
Definition date_frame (p : option date) (old new : date) : Prop :=
  new = match p with Some d => d | None => old end.

(** The update time: the prior one, or the time of the commit. *)
Definition refreshed (now old new : Z) : Prop := new = old \/ new = now.

(** The date that the body of a PUT assigns under key [k], if any. *)
Definition parsed_date (k : string) (d : list (string * json)) (dia : option date)
  : Prop :=
  match assoc k d with
  | None => dia = None
  | Some v => exists x, strptime v = Ok x /\ dia = Some x
  end.

Section Frames.
Context {D : Dbapi}.

(** The session objects once the body of a PUT on a mapping has run. *)
Definition classe_after (row : Classe.t) (d : list (string * json)) : Classe.obj :=
  Classe.mkObj row (assoc "nome" d) (assoc "professor" d).

Definition aluno_after (row : Aluno.t) (d : list (string * json))
  (nasc : option date) : Aluno.obj :=
  Aluno.mkObj row (assoc "nome" d) nasc (assoc "classe_id" d) (assoc "status" d).

Definition frequencia_after (row : Frequencia.t) (d : list (string * json))
  (dia : option date) : Frequencia.obj :=
  Frequencia.mkObj row (assoc "classe_id" d) dia (assoc "total_biblia" d)
    (assoc "total_present" d) (assoc "total_absent" d)
    (assoc "total_visitors" d) (assoc "total_general" d) (assoc "presencas" d).

(** What a successful flush leaves of a class, ... *)
Definition classe_frame (o : Classe.obj) (now : Z) (r' : Classe.t) : Prop :=
  let r := Classe.row o in
  Classe.id r' = Classe.id r
  /\ Classe.created_at r' = Classe.created_at r
  /\ field_frame py_eq_str (col_varchar 255) (Classe.new_nome o)
       (Classe.nome r) (Classe.nome r')
  /\ field_frame py_eq_str (col_varchar 255) (Classe.new_professor o)
       (Classe.professor r) (Classe.professor r')
  /\ refreshed now (Classe.updated_at r) (Classe.updated_at r').

(** ... of a student, ... *)
Definition aluno_frame (o : Aluno.obj) (now : Z) (r' : Aluno.t) : Prop :=
  let r := Aluno.row o in
  Aluno.id r' = Aluno.id r
  /\ Aluno.created_at r' = Aluno.created_at r
  /\ field_frame py_eq_str (col_varchar 255) (Aluno.new_nome o)
       (Aluno.nome r) (Aluno.nome r')
  /\ date_frame (Aluno.new_data_nascimento o)
       (Aluno.data_nascimento r) (Aluno.data_nascimento r')
  /\ field_frame py_eq_int col_integer (Aluno.new_classe_id o)
       (Aluno.classe_id r) (Aluno.classe_id r')
  /\ field_frame py_eq_status bind_status (Aluno.new_status o)
       (Aluno.status r) (Aluno.status r')
  /\ refreshed now (Aluno.updated_at r) (Aluno.updated_at r').

(** ... and of an attendance record. *)
Definition frequencia_frame (o : Frequencia.obj) (now : Z) (r' : Frequencia.t) : Prop :=
  let r := Frequencia.row o in
  Frequencia.id r' = Frequencia.id r
  /\ Frequencia.created_at r' = Frequencia.created_at r
  /\ field_frame py_eq_int col_integer (Frequencia.new_classe_id o)
       (Frequencia.classe_id r) (Frequencia.classe_id r')
  /\ date_frame (Frequencia.new_data o) (Frequencia.data r) (Frequencia.data r')
  /\ field_frame py_eq_opt_int col_opt_integer (Frequencia.new_total_biblia o)
       (Frequencia.total_biblia r) (Frequencia.total_biblia r')
  /\ field_frame py_eq_opt_int col_opt_integer (Frequencia.new_total_present o)
       (Frequencia.total_present r) (Frequencia.total_present r')
  /\ field_frame py_eq_opt_int col_opt_integer (Frequencia.new_total_absent o)
       (Frequencia.total_absent r) (Frequencia.total_absent r')
  /\ field_frame py_eq_opt_int col_opt_integer (Frequencia.new_total_visitors o)
       (Frequencia.total_visitors r) (Frequencia.total_visitors r')
  /\ field_frame py_eq_opt_int col_opt_integer (Frequencia.new_total_general o)
       (Frequencia.total_general r) (Frequencia.total_general r')
  /\ field_frame (fun _ _ => false) col_json (Frequencia.new_presencas o)
       (Frequencia.presencas r) (Frequencia.presencas r')
  /\ refreshed now (Frequencia.updated_at r) (Frequencia.updated_at r').

End Frames.

(** *** Every route *)

(** The routes of the application and what a request to each carries. *)
Inductive endpoint : Type :=
| EpRegister (data : json)
| EpLogin (data : json)
| EpProtected
| EpListarClasses
| EpCriarClasse (data : json)
| EpAtualizarClasse (classe_id : Z) (data : json)
| EpDeletarClasse (classe_id : Z)
| EpListarAlunos
| EpCriarAluno (data : json)
| EpAtualizarAluno (aluno_id : Z) (data : json)
| EpDeletarAluno (aluno_id : Z)
| EpListarFrequencias
| EpRegistrarFrequencia (data : json)
| EpAtualizarFrequencia (frequencia_id : Z) (data : json)
| EpDeletarFrequencia (frequencia_id : Z)
| EpRelatorioSemanal (args : list (string * string))
| EpRelatorioMensal (args : list (string * string))
| EpListarAniversariantes
| EpHistoricoFrequencia (aluno_id : Z).

(** The routes that only read: every GET, and the login. *)
Definition reads_only (e : endpoint) : bool :=
  match e with
  | EpLogin _ | EpProtected | EpListarClasses | EpListarAlunos
  | EpListarFrequencias | EpRelatorioSemanal _ | EpRelatorioMensal _
  | EpListarAniversariantes | EpHistoricoFrequencia _ => true
  | _ => false
  end.

Definition is_update (e : endpoint) : bool :=
  match e with
  | EpAtualizarClasse _ _ | EpAtualizarAluno _ _ | EpAtualizarFrequencia _ _ => true
  | _ => false
  end.

Definition is_create (e : endpoint) : bool :=
  match e with
  | EpRegister _ | EpCriarClasse _ | EpCriarAluno _ | EpRegistrarFrequencia _ => true
  | _ => false
  end.

Definition is_delete (e : endpoint) : bool :=
  match e with
  | EpDeletarClasse _ | EpDeletarAluno _ | EpDeletarFrequencia _ => true
  | _ => false
  end.

(** The routes without [@jwt_required()]. *)
Definition is_public (e : endpoint) : bool :=
  match e with
  | EpRegister _ | EpLogin _ => true
  | _ => false
  end.

Section Routes.
Context {D : Dbapi} {W : Werkzeug} {J : Jwt}.
Variable key : string.

(** A request: its Authorization header, the time it arrives at ([now] in
    seconds, [hoje] as a date) and the route it asks for.  Every route but
    /register and /login is under [@jwt_required()]. *)
Definition route (authorization : option string) (now : Z) (hoje : date)
  (e : endpoint) : view :=
  let guarded (v : view) := jwt_required key authorization now (fun _ => v) in
  match e with
  | EpRegister data => register data now
  | EpLogin data => login key data now
  | EpProtected => protected key authorization now
  | EpListarClasses => guarded listar_classes
  | EpCriarClasse data => guarded (criar_classe data now)
  | EpAtualizarClasse i data => guarded (atualizar_classe i data now)
  | EpDeletarClasse i => guarded (deletar_classe i)
  | EpListarAlunos => guarded listar_alunos
  | EpCriarAluno data => guarded (criar_aluno data now)
  | EpAtualizarAluno i data => guarded (atualizar_aluno i data now)
  | EpDeletarAluno i => guarded (deletar_aluno i)
  | EpListarFrequencias => guarded listar_frequencias
  | EpRegistrarFrequencia data => guarded (registrar_frequencia data now)
  | EpAtualizarFrequencia i data => guarded (atualizar_frequencia i data now)
  | EpDeletarFrequencia i => guarded (deletar_frequencia i)
  | EpRelatorioSemanal args => guarded (relatorio_semanal args)
  | EpRelatorioMensal args => guarded (relatorio_mensal args)
  | EpListarAniversariantes => guarded (listar_aniversariantes hoje)
  | EpHistoricoFrequencia i => guarded (historico_frequencia i)
  end.

(** A request as the application receives it. *)
Record request : Type := mkRequest
  { req_authorization : option string; req_now : Z; req_hoje : date;
    req_endpoint : endpoint }.

(** The database after a sequence of requests, served one after the other. *)
Definition after (requests : list request) (s : db) : db :=
  fold_left
    (fun s r =>
       snd (route (req_authorization r) (req_now r) (req_hoje r) (req_endpoint r) s))
    requests s.

End Routes.

(** The database that [db.create_all()] leaves on first start. *)
Definition empty_db : db := mkDb [] [] [] [] 0 0 0 0.

(** The body of the 400 that a [try] around a date parse returns. *)
Definition formato_invalido (e : exn) : json :=
  JDict [("msg", JStr "Formato de data inválido"); ("error", JStr (str_exn e))].

(** *** What the tables keep *)

(** A table with a serial primary key: no id twice, and no id beyond the
    last value of the sequence. *)
Definition table_ok {A} (idf : A -> Z) (rows : list A) (seq : Z) : Prop :=
  NoDup (map idf rows) /\ Forall (fun r => idf r <= seq) rows.

(** Primary keys and the two [unique=True] columns. *)
Definition keys_ok (s : db) : Prop :=
  table_ok User.id (users s) (users_seq s)
  /\ NoDup (map User.username (users s))
  /\ table_ok Classe.id (classes s) (classes_seq s)
  /\ NoDup (map Classe.nome (classes s))
  /\ table_ok Aluno.id (alunos s) (alunos_seq s)
  /\ table_ok Frequencia.id (frequencias s) (frequencias_seq s).

(** The two foreign keys: every student and every attendance record belongs
    to a class of the table. *)
Definition refs_ok (s : db) : Prop :=
  Forall (fun a => class_exists s (Aluno.classe_id a) = true) (alunos s)
  /\ Forall (fun f => class_exists s (Frequencia.classe_id f) = true) (frequencias s).

(** The same rows in every table (the sequences may differ). *)
Definition same_rows (s s' : db) : Prop :=
  users s' = users s /\ classes s' = classes s
  /\ alunos s' = alunos s /\ frequencias s' = frequencias s.

(** A body that is neither a mapping, a list nor a string. *)
Definition is_scalar (v : json) : bool :=
  match v with
  | JNull | JBool _ | JInt _ | JFloat _ => true
  | _ => false
  end.

(** A driver whose WHERE parameters and stored values agree on text: what it
    stores for a value is what it compares that value with, and a string is
    stored as it is. *)
Definition text_coherent (D : Dbapi) : Prop :=
  (forall n v u, @bind_varchar D n v = Some u -> @param_varchar D v = Some u)
  /\ (forall n t u, @bind_varchar D n (JStr t) = Some u -> u = t).

(** A password hash that verifies the password it was made from. *)
Definition hash_verifies (W : Werkzeug) : Prop :=
  forall pw h, @generate_password_hash W pw = Ok h ->
               @check_password_hash W h pw = Ok true.

(** The dates whose year [strftime] writes with four digits. *)
Definition four_digit_year (d : date) : bool :=
  (1000 <=? year d) && (year d <=? 9999).

(** The years from [lo], [n] of them. *)
Definition years_from (lo : nat) (n : nat) : list Z := map Z.of_nat (seq lo n).

(** [string_of_Z y] is four digits that read back as [y]. *)
Definition reads_back (y : Z) : bool :=
  match string_of_Z y with
  | String a (String b (String c (String d EmptyString))) =>
      is_digit a && is_digit b && is_digit c && is_digit d
      && (1000 * digit_val a + 100 * digit_val b + 10 * digit_val c + digit_val d =? y)
  | _ => false
  end.

(** * Properties *)

(** ** Parsing dates and integers: concrete runs *)

Example strptime_ok : strptime (JStr "2024-02-29") = Ok (mkDate 2024 2 29).
Proof. reflexivity. Qed.
Example strptime_short : strptime (JStr "2024-3-5") = Ok (mkDate 2024 3 5).
Proof. reflexivity. Qed.
Example strptime_bad_day : strptime (JStr "2023-02-29")
  = Raise (ValueError "day is out of range for month").
Proof. reflexivity. Qed.
Example strptime_rest : strptime (JStr "2023-02-123")
  = Raise (ValueError "unconverted data remains: 3").
Proof. reflexivity. Qed.
Example strftime_ex : strftime (mkDate 2024 3 5) = "2024-03-05".
Proof. reflexivity. Qed.
Example py_int_ex : py_int " -1_2 " = Ok (-12).
Proof. reflexivity. Qed.
Example py_int_ex2 : py_int "12a" = Raise (ValueError "invalid literal for int() with base 10: '12a'").
Proof. reflexivity. Qed.

(** The same inputs through the parsers, as the interpreter answers them. *)
Example strptime_runs :
  strptime (JStr "2024-1-05") = Ok (mkDate 2024 1 5)
  /\ strptime (JStr "2024-01- 5") = Ok (mkDate 2024 1 5)
  /\ strptime (JStr "2024-01-3") = Ok (mkDate 2024 1 3)
  /\ strptime (JStr "2024-10-32") = Raise (ValueError "unconverted data remains: 2")
  /\ strptime (JStr "2024-01-39") = Raise (ValueError "unconverted data remains: 9")
  /\ strptime (JStr "2024-01-05 ") = Raise (ValueError "unconverted data remains:  ")
  /\ strptime (JStr "2024-13-01")
     = Raise (ValueError "time data '2024-13-01' does not match format '%Y-%m-%d'")
  /\ strptime (JStr "2024-012-1")
     = Raise (ValueError "time data '2024-012-1' does not match format '%Y-%m-%d'")
  /\ strptime (JStr "2024-10-00")
     = Raise (ValueError "time data '2024-10-00' does not match format '%Y-%m-%d'")
  /\ strptime (JStr " 2024-01-05")
     = Raise (ValueError "time data ' 2024-01-05' does not match format '%Y-%m-%d'")
  /\ strptime (JStr "0000-01-01") = Raise (ValueError "year 0 is out of range")
  /\ strptime JNull
     = Raise (TypeError "strptime() argument 1 must be str, not NoneType").
Proof. repeat split. Qed.

Example py_int_runs :
  py_int "1_2_3" = Ok 123 /\ py_int "0012" = Ok 12 /\ py_int "+5" = Ok 5
  /\ forallb int_fails ["5 _"; "1__2"; "_1"; "1 2"; "+ 5"; "++5"; "1_"; "- 5"; ""; " "; "abc"]
     = true.
Proof. repeat split. Qed.

Example toy_roundtrip :
  @jwt_decode toy_jwt (@jwt_encode toy_jwt (mkClaims 7 100 100 3700) "k") "k"
  = Some (mkClaims 7 100 100 3700).
Proof. reflexivity. Qed.

(** ** Per-student history *)

Lemma scan_presencas_find (l : list json) (aluno_id : Z) :
  forallb is_dict l = true ->
  scan_presencas l aluno_id = Ok (find (entry_matches aluno_id) l).
Proof.
  induction l as [|p l IH]; simpl; intros H; [reflexivity|].
  apply andb_prop in H as [Hp Hl].
  destruct p; try discriminate Hp. simpl.
  destruct (assoc "aluno_id" d) as [v|]; simpl.
  - destruct (py_eq_int v aluno_id); [reflexivity | now apply IH].
  - now apply IH.
Qed.

Lemma log_not_list (f : Frequencia.t) :
  truthy (Frequencia.presencas f) && is_list (Frequencia.presencas f) = false ->
  log_entries f = [].
Proof.
  unfold log_entries. destruct (Frequencia.presencas f) as [| | | | |l|]; try reflexivity.
  destruct l; [reflexivity | discriminate].
Qed.

Lemma scan_frequencias_spec (fs : list Frequencia.t) (aluno_id : Z) :
  forallb entries_are_dicts fs = true ->
  forall historico,
    scan_frequencias fs aluno_id historico
    = Ok (historico ++ history_for_student fs aluno_id)%list.
Proof.
  induction fs as [|f fs IH]; simpl; intros H historico.
  - now rewrite app_nil_r.
  - apply andb_prop in H as [Hf Hfs].
    destruct (truthy (Frequencia.presencas f) && is_list (Frequencia.presencas f))
      eqn:E.
    + unfold entries_are_dicts, log_entries in *.
      destruct (Frequencia.presencas f) as [| | | | |l|];
        try (simpl in E; rewrite ?andb_false_r in E; discriminate E).
      rewrite (scan_presencas_find _ _ Hf). simpl.
      destruct (find (entry_matches aluno_id) l).
      * rewrite IH by assumption. now rewrite <- app_assoc.
      * rewrite IH by assumption. reflexivity.
    + rewrite (log_not_list _ E). simpl. now apply IH.
Qed.

(** Without the assumption on the entries: the scan either raises the
    [AttributeError] of [presenca.get] on an entry that is not a mapping, or
    yields the history of the specification. *)
Lemma scan_presencas_ok (l : list json) (aluno_id : Z) :
  (exists m, scan_presencas l aluno_id = Raise (AttributeError m))
  \/ scan_presencas l aluno_id = Ok (find (entry_matches aluno_id) l).
Proof.
  induction l as [|p l IH]; simpl; [now right|].
  destruct p; simpl; try (left; eexists; reflexivity).
  destruct (assoc "aluno_id" d) as [v|]; simpl; [|exact IH].
  destruct (py_eq_int v aluno_id); [now right | exact IH].
Qed.

Lemma scan_frequencias_ok (fs : list Frequencia.t) (aluno_id : Z) :
  forall historico,
    (exists m, scan_frequencias fs aluno_id historico = Raise (AttributeError m))
    \/ scan_frequencias fs aluno_id historico
       = Ok (historico ++ history_for_student fs aluno_id)%list.
Proof.
  induction fs as [|f fs IH]; simpl; intros historico.
  - right. now rewrite app_nil_r.
  - destruct (truthy (Frequencia.presencas f) && is_list (Frequencia.presencas f))
      eqn:E.
    + unfold log_entries.
      destruct (Frequencia.presencas f) as [| | | | |l|];
        try (simpl in E; rewrite ?andb_false_r in E; discriminate E).
      destruct (scan_presencas_ok l aluno_id) as [[m Hm]|Hok].
      * left. exists m. now rewrite Hm.
      * rewrite Hok. simpl. destruct (find (entry_matches aluno_id) l).
        -- destruct (IH (historico ++ [history_record f j])%list) as [[m Hm]|H].
           ++ left. now exists m.
           ++ right. rewrite H. now rewrite <- app_assoc.
        -- simpl. apply IH.
    + rewrite (log_not_list _ E). simpl. apply IH.
Qed.

(** A record whose log is not a list takes no part in the scan, whatever the
    other records hold. *)
Lemma scan_frequencias_skip (pre post : list Frequencia.t) (r : Frequencia.t)
  (aluno_id : Z) :
  is_list (Frequencia.presencas r) = false ->
  forall historico,
    scan_frequencias (pre ++ r :: post) aluno_id historico
    = scan_frequencias (pre ++ post) aluno_id historico.
Proof.
  intros Hr. induction pre as [|f pre IH]; simpl; intros historico.
  - rewrite Hr, andb_false_r. reflexivity.
  - destruct (truthy (Frequencia.presencas f) && is_list (Frequencia.presencas f));
      [|apply IH].
    destruct (Frequencia.presencas f); try apply IH.
    destruct (scan_presencas l aluno_id) as [[p|]|e]; simpl; try apply IH.
    reflexivity.
Qed.


(** Two entries for student 7 in one record: one history element, holding
    the first of the two. *)
Example historico_duplicates :
  historico_frequencia 7 Sample.store
  = (Response 200 (JList [history_record Sample.f1 (Sample.entry 7 "first")]),
     Sample.store).
Proof. reflexivity. Qed.


(** C10. A record whose attendance-log is null, absent or anything that is
    not a list is skipped: the history is the one of the remaining records,
    the record itself never raises, and where the remaining logs are
    sequences of mappings the answer is the 200 response built from them. *)
Theorem historico_frequencia_skips_non_list
  (s : db) (pre post : list Frequencia.t) (r : Frequencia.t) (aluno_id : Z) :
  frequencias s = (pre ++ r :: post)%list ->
  is_list (Frequencia.presencas r) = false ->
  historico_frequencia aluno_id s
  = (fst (historico_frequencia aluno_id
            (with_frequencias s (pre ++ post)%list (frequencias_seq s))), s)
  /\ (forallb entries_are_dicts (pre ++ post)%list = true ->
      historico_frequencia aluno_id s
      = (Response 200 (JList (history_for_student (pre ++ post)%list aluno_id)), s)).
Proof.
  intros Hs Hr. unfold historico_frequencia. rewrite Hs.
  rewrite (scan_frequencias_skip pre post r aluno_id Hr). simpl. split.
  - destruct (scan_frequencias (pre ++ post) aluno_id []); reflexivity.
  - intros H. now rewrite (scan_frequencias_spec _ _ H).
Qed.

(** The sample store without its record whose log is null. *)
Lemma historico_frequencia_skips_non_list_witness :
  historico_frequencia 7 Sample.store
  = (Response 200 (JList (history_for_student [Sample.f1; Sample.f2; Sample.f4] 7)),
     Sample.store).
Proof.
  apply (historico_frequencia_skips_non_list Sample.store
           [Sample.f1; Sample.f2] [Sample.f4] Sample.f3 7);
    reflexivity.
Defined.

(** Where no record has a list for a log the history is empty. *)
Lemma historico_frequencia_no_lists (s : db) (aluno_id : Z) :
  forallb (fun f => negb (is_list (Frequencia.presencas f))) (frequencias s) = true ->
  historico_frequencia aluno_id s = (Response 200 (JList []), s).
Proof.
  intros H. unfold historico_frequencia.
  assert (G : forall h, scan_frequencias (frequencias s) aluno_id h = Ok h).
  { induction (frequencias s) as [|f fs IH]; simpl; intros h; [reflexivity|].
    simpl in H. apply andb_prop in H as [Hf Hfs].
    apply negb_true_iff in Hf. rewrite Hf, andb_false_r. now apply IH. }
  now rewrite G.
Qed.

(** ** Faults that leave a handler *)

(** [int(mes)] is outside any [try]: whenever a present parameter is not an
    integer literal, the [ValueError] leaves the handler. *)
Lemma relatorio_mensal_int_raises (args : list (string * string)) (s : db)
  (mes ano : string) (e : exn) :
  args_get "mes" args = Some mes -> mes <> "" ->
  args_get "ano" args = Some ano -> ano <> "" ->
  py_int mes = Raise e ->
  relatorio_mensal args s = (Unhandled e, s).
Proof.
  intros Hm Hm' Ha Ha' He. unfold relatorio_mensal. rewrite Hm, Ha. simpl.
  apply String.eqb_neq in Hm', Ha'. rewrite Hm', Ha'. simpl.
  now rewrite He.
Qed.

(** The sibling report catches the same kind of error. *)
Lemma relatorio_semanal_bad_date (s : db) :
  relatorio_semanal [("data_inicio", "abc"); ("data_fim", "2024-01-31")] s
  = (Response 400
       (JDict [("msg", JStr "Formato de data inválido");
               ("error", JStr "time data 'abc' does not match format '%Y-%m-%d'")]),
     s).
Proof. reflexivity. Qed.

(** A JSON body [null] reaches ['nome' in data] of the update handlers, which
    raises; the create handler of the same entity checks [not data] first. *)
Lemma atualizar_classe_null_body {D : Dbapi} (now : Z) :
  atualizar_classe 1 JNull now Sample.store
  = (Unhandled (TypeError "argument of type 'NoneType' is not iterable"),
     Sample.store).
Proof. reflexivity. Qed.

Lemma criar_classe_null_body {D : Dbapi} (now : Z) (s : db) :
  fst (criar_classe JNull now s)
  = Response 400 (msg ("Campos " ++ dq ++ "nome" ++ dq ++ " e " ++ dq
                       ++ "professor" ++ dq ++ " são obrigatórios")).
Proof. reflexivity. Qed.

(** C2. GET /relatorios/mensal?mes=abc&ano=2024: the handler does not answer
    with a validation error; the [ValueError] of [int('abc')] is not caught
    and the request ends as an unhandled fault (status 500), in every state
    of the database. *)
Theorem relatorio_mensal_non_numeric_unhandled (s : db) :
  relatorio_mensal [("mes", "abc"); ("ano", "2024")] s
  = (Unhandled (ValueError "invalid literal for int() with base 10: 'abc'"), s)
  /\ status_code (fst (relatorio_mensal [("mes", "abc"); ("ano", "2024")] s)) = 500.
Proof. split; reflexivity. Qed.

(** ** Validation failures persist nothing *)

Section Atomicity.
Context {D : Dbapi} {W : Werkzeug}.

Lemma committed_status {A} (st : Z) (f : A -> json) (w : result A * db) :
  status_code (fst (committed st f w)) = st
  \/ status_code (fst (committed st f w)) = 500.
Proof. destruct w as [[r|e] s']; simpl; auto. Qed.

(** Every exit of a handler before its commit hands the database back. *)
Lemma no_commit_400 {A} (m : flow A) (s : db) (k : A -> outcome * db) :
  (forall a, status_code (fst (k a)) <> 400) ->
  status_code (fst (no_commit m s k)) = 400 ->
  snd (no_commit m s k) = s.
Proof.
  intros Hk. destruct m as [a| | |]; simpl; try reflexivity.
  intros H. now apply Hk in H.
Qed.

Lemma run_400_unchanged (op : operation) (now : Z) (s : db) :
  status_code (fst (run op now s)) = 400 -> snd (run op now s) = s.
Proof.
  destruct op; simpl;
    (apply no_commit_400; intros a;
     repeat match goal with p : (_ * _)%type |- _ => destruct p end;
     match goal with
     | |- status_code (fst (committed ?st ?f ?w)) <> 400 =>
         destruct (committed_status st f w) as [E|E]; rewrite E; lia
     end).
Qed.

Lemma atualizar_aluno_bad_date (aluno_id : Z) (d : list (string * json))
  (v : json) (e : exn) (now : Z) (s : db) (row : Aluno.t) :
  find_aluno aluno_id s = Some row ->
  assoc "data_nascimento" d = Some v ->
  strptime v = Raise e ->
  atualizar_aluno aluno_id (JDict d) now s
  = (Response 400 (JDict [("msg", JStr "Formato de data inválido");
                          ("error", JStr (str_exn e))]), s).
Proof.
  intros Hrow Hv He. unfold find_aluno in Hrow.
  unfold atualizar_aluno, get_or_404. rewrite Hrow. simpl.
  unfold assign_if_present, assign_date_if_present. simpl.
  destruct (assoc "nome" d); simpl; rewrite Hv; simpl; rewrite He; reflexivity.
Qed.

(** C3. A PUT /alunos/{id} whose 'data_nascimento' does not parse is
    answered with 400 and the database is the one before the request, so
    every field of the student (also 'nome', when the body carried it) is
    unchanged; and no create or update request that ends in 400 changes
    the database. *)
Theorem validation_failure_persists_nothing (aluno_id : Z)
  (d : list (string * json)) (v : json) (e : exn) (now : Z) (s : db)
  (row : Aluno.t) :
  find_aluno aluno_id s = Some row ->
  assoc "data_nascimento" d = Some v ->
  strptime v = Raise e ->
  status_code (fst (atualizar_aluno aluno_id (JDict d) now s)) = 400
  /\ snd (atualizar_aluno aluno_id (JDict d) now s) = s
  /\ find_aluno aluno_id (snd (atualizar_aluno aluno_id (JDict d) now s)) = Some row
  /\ (forall op t s0, status_code (fst (run op t s0)) = 400 -> snd (run op t s0) = s0).
Proof.
  intros Hrow Hv He.
  rewrite (atualizar_aluno_bad_date aluno_id d v e now s row Hrow Hv He). simpl.
  repeat split; try assumption. intros op t s0. apply run_400_unchanged.
Qed.
End Atomicity.

(** A PUT that names 'nome' and a date in the wrong format. *)
Lemma validation_failure_persists_nothing_witness :
  snd (@atualizar_aluno strict_dbapi 1
         (JDict [("nome", JStr "Bia"); ("data_nascimento", JStr "15/03/2015")])
         10 Sample.store) = Sample.store.
Proof.
  apply (@validation_failure_persists_nothing strict_dbapi plain_werkzeug 1
           [("nome", JStr "Bia"); ("data_nascimento", JStr "15/03/2015")]
           (JStr "15/03/2015")
           (ValueError "time data '15/03/2015' does not match format '%Y-%m-%d'")
           10 Sample.store Sample.ana);
    reflexivity.
Defined.

(** ** Login and the session token *)

Lemma substring_all (t : string) : substring 0 (String.length t) t = t.
Proof. induction t as [|c t IH]; simpl; [reflexivity | now rewrite IH]. Qed.

Lemma bearer_header (token : string) : bearer ("Bearer " ++ token) = Some token.
Proof.
  unfold bearer. simpl.
  replace (prefix "" token) with true by (destruct token; reflexivity).
  now rewrite Nat.sub_0_r, substring_all.
Qed.

Section LoginProperties.
Context {D : Dbapi} {W : Werkzeug} {J : Jwt}.
Variable key : string.

Lemma missing2_present (d : list (string * json)) (uname pw : json) :
  has_credentials d uname pw ->
  missing2 (JDict d) "username" "password" = Go false
  /\ py_getitem (JDict d) "username" = Ok uname
  /\ py_getitem (JDict d) "password" = Ok pw.
Proof.
  intros (Hu & Tu & Hp & Tp). unfold missing2. simpl.
  destruct d as [|kv d]; [discriminate Hu|].
  rewrite Hu, Hp. simpl. rewrite Tu, Tp. auto.
Qed.

(** The token of a successful login, and when it verifies. *)
Lemma decode_created_token (who now t : Z) :
  jwt_decode (create_access_token key who one_hour now) key
  = Some (access_claims who one_hour now) ->
  (now <= t < now + 3600 ->
   decode_token key (create_access_token key who one_hour now) t = Identity who)
  /\ (now + 3600 <= t ->
      decode_token key (create_access_token key who one_hour now) t = ExpiredToken).
Proof.
  intros H. unfold decode_token. rewrite H. unfold one_hour. simpl. split; intros Ht.
  - destruct (Z.ltb_spec t now); [lia|].
    destruct (Z.leb_spec (now + 3600) t); [lia|]. reflexivity.
  - destruct (Z.ltb_spec t now); [lia|].
    destruct (Z.leb_spec (now + 3600) t); [|lia]. reflexivity.
Qed.

(** C5. The token that a successful login issues for a user encodes that
    user's id and the expiry [now + 3600] s; presented at any time before
    the expiry it verifies to the user's id (and /protected answers with
    it), and from the expiry on it is rejected as expired. *)
Theorem login_token_expires_in_one_hour (d : list (string * json))
  (uname pw : json) (u : User.t) (now : Z) (s : db) :
  has_credentials d uname pw ->
  find_user uname s = Ok (Some u) ->
  check_password_hash (User.password_hash u) pw = Ok true ->
  jwt_decode (jwt_encode (access_claims (User.id u) one_hour now) key) key
  = Some (access_claims (User.id u) one_hour now) ->
  exists token,
    login key (JDict d) now s
    = (Response 200 (JDict [("access_token", JStr token)]), s)
    /\ jwt_decode token key = Some (mkClaims (User.id u) now now (now + 3600))
    /\ (forall t, now <= t < now + 3600 ->
          decode_token key token t = Identity (User.id u)
          /\ protected key (Some ("Bearer " ++ token)) t s
             = (Response 200
                  (msg ("Usuário logado: " ++ string_of_Z (User.id u))), s))
    /\ (forall t, now + 3600 < t -> decode_token key token t = ExpiredToken).
Proof.
  intros Hc Hu Hpw Hrt.
  destruct (missing2_present d uname pw Hc) as (Hm & Gu & Gp).
  exists (create_access_token key (User.id u) one_hour now).
  repeat split.
  - unfold login. rewrite Hm. cbn [fbind]. rewrite Gu. cbn [eval fbind].
    rewrite Hu. cbn [eval fbind]. rewrite Gp. cbn [eval fbind].
    rewrite Hpw. reflexivity.
  - exact Hrt.
  - now apply (decode_created_token (User.id u) now t Hrt).
  - unfold protected, jwt_required. rewrite bearer_header.
    now rewrite (proj1 (decode_created_token (User.id u) now t Hrt)).
  - intros t Ht. apply (decode_created_token (User.id u) now t Hrt). lia.
Qed.

Lemma login_unknown_user (d : list (string * json)) (uname pw : json)
  (now : Z) (s : db) :
  has_credentials d uname pw ->
  find_user uname s = Ok None ->
  login key (JDict d) now s = (Response 401 (msg "Credenciais inválidas"), s).
Proof.
  intros Hc Hu. destruct (missing2_present d uname pw Hc) as (Hm & Gu & Gp).
  unfold login. rewrite Hm. cbn [fbind]. rewrite Gu. cbn [eval fbind].
  rewrite Hu. reflexivity.
Qed.

Lemma login_wrong_password (d : list (string * json)) (uname pw : json)
  (u : User.t) (now : Z) (s : db) :
  has_credentials d uname pw ->
  find_user uname s = Ok (Some u) ->
  check_password_hash (User.password_hash u) pw = Ok false ->
  login key (JDict d) now s = (Response 401 (msg "Credenciais inválidas"), s).
Proof.
  intros Hc Hu Hpw. destruct (missing2_present d uname pw Hc) as (Hm & Gu & Gp).
  unfold login. rewrite Hm. cbn [fbind]. rewrite Gu. cbn [eval fbind].
  rewrite Hu. cbn [eval fbind]. rewrite Gp. cbn [eval fbind].
  rewrite Hpw. reflexivity.
Qed.

End LoginProperties.

(** bob logs in at time 100. *)
Lemma login_token_expires_in_one_hour_witness :
  exists token,
    @login strict_dbapi plain_werkzeug toy_jwt "k"
      (JDict (credentials "bob" "segredo")) 100 store_bob
    = (Response 200 (JDict [("access_token", JStr token)]), store_bob)
    /\ @jwt_decode toy_jwt token "k" = Some (mkClaims 1 100 100 (100 + 3600))
    /\ (forall t, 100 <= t < 100 + 3600 ->
          @decode_token toy_jwt "k" token t = Identity 1
          /\ @protected toy_jwt "k" (Some ("Bearer " ++ token)) t store_bob
             = (Response 200 (msg ("Usuário logado: " ++ string_of_Z 1)), store_bob))
    /\ (forall t, 100 + 3600 < t -> @decode_token toy_jwt "k" token t = ExpiredToken).
Proof.
  apply (@login_token_expires_in_one_hour strict_dbapi plain_werkzeug toy_jwt "k"
           (credentials "bob" "segredo") (JStr "bob") (JStr "segredo") bob 100 store_bob).
  - repeat split.
  - reflexivity.
  - reflexivity.
  - reflexivity.
Defined.


(** ** The date-range report *)

Lemma strptime_valid (v : json) (d : date) : strptime v = Ok d -> valid_date d = true.
Proof.
  destruct v; try discriminate. unfold strptime, strptime_str.
  destruct (match_format s) as [[d' rest]|]; [|discriminate].
  destruct (negb (rest =? "")%string); [discriminate|].
  destruct (valid_date d') eqn:E.
  - intros H. injection H as <-. exact E.
  - destruct (year d' =? 0); discriminate.
Qed.

Lemma date_leb_refl (d : date) : date_leb d d = true.
Proof.
  unfold date_leb. rewrite !Z.eqb_refl, Z.leb_refl. simpl.
  now rewrite !orb_true_r.
Qed.

Lemma date_leb_yesterday (d : date) : date_leb d (yesterday d) = false.
Proof.
  unfold date_leb, yesterday.
  destruct (Z.ltb_spec 1 (day d)); [|destruct (Z.ltb_spec 1 (month d))]; simpl;
    repeat match goal with
           | |- context [?a <? ?b] => destruct (Z.ltb_spec a b); try lia
           | |- context [?a =? ?b] => destruct (Z.eqb_spec a b); try lia
           | |- context [?a <=? ?b] => destruct (Z.leb_spec a b); try lia
           end; reflexivity.
Qed.

Lemma date_leb_tomorrow (d : date) : date_leb (tomorrow d) d = false.
Proof.
  unfold date_leb, tomorrow.
  destruct (Z.ltb_spec (day d) (days_in_month (year d) (month d)));
    [|destruct (Z.ltb_spec (month d) 12)]; simpl;
    repeat match goal with
           | |- context [?a <? ?b] => destruct (Z.ltb_spec a b); try lia
           | |- context [?a =? ?b] => destruct (Z.eqb_spec a b); try lia
           | |- context [?a <=? ?b] => destruct (Z.leb_spec a b); try lia
           end; reflexivity.
Qed.

(** The order of the calendar is the order of the day numbers, and
    [tomorrow] and [yesterday] move by one day. *)
Lemma is_leap_spec (y : Z) :
  is_leap y = true <-> (y mod 4 = 0 /\ y mod 100 <> 0) \/ y mod 400 = 0.
Proof.
  unfold is_leap. rewrite orb_true_iff, andb_true_iff, negb_true_iff.
  rewrite !Z.eqb_eq, Z.eqb_neq. tauto.
Qed.

Lemma days_before_next_year (y : Z) :
  days_before_year (y + 1) = days_before_year y + 365 + leap_day y.
Proof.
  unfold days_before_year, leap_day.
  replace (y + 1 - 1) with y by lia.
  destruct (is_leap y) eqn:E.
  - apply is_leap_spec in E. Z.div_mod_to_equations. lia.
  - assert (N : ~ ((y mod 4 = 0 /\ y mod 100 <> 0) \/ y mod 400 = 0)).
    { intros H. apply is_leap_spec in H. congruence. }
    Z.div_mod_to_equations. lia.
Qed.

Lemma days_before_year_mono (p q : Z) :
  p <= q -> days_before_year p <= days_before_year q.
Proof.
  unfold days_before_year. intros H. Z.div_mod_to_equations. lia.
Qed.

Ltac months m :=
  let Hm := fresh "Hm" in
  assert (m = 1 \/ m = 2 \/ m = 3 \/ m = 4 \/ m = 5 \/ m = 6 \/ m = 7 \/ m = 8
          \/ m = 9 \/ m = 10 \/ m = 11 \/ m = 12) as Hm by lia;
  destruct Hm as [->|[->|[->|[->|[->|[->|[->|[->|[->|[->|[->| ->]]]]]]]]]]].

Lemma days_before_next_month (y m : Z) :
  1 <= m -> m <= 11 ->
  days_before_month y (m + 1) = days_before_month y m + days_in_month y m.
Proof.
  intros H1 H2. months m; try lia; unfold days_before_month, days_in_month; simpl;
    destruct (is_leap y); reflexivity.
Qed.

Lemma days_before_month_mono (y m n : Z) :
  1 <= m -> m <= n -> n <= 12 ->
  days_before_month y m <= days_before_month y n.
Proof.
  intros H1 H2 H3.
  months m; months n; try lia;
    unfold days_before_month; simpl; destruct (is_leap y); lia.
Qed.

Lemma year_length (y : Z) :
  days_before_month y 12 + days_in_month y 12 = 365 + leap_day y.
Proof.
  unfold days_before_month, days_in_month, leap_day. simpl.
  destruct (is_leap y); reflexivity.
Qed.

Lemma valid_date_bounds (d : date) :
  valid_date d = true ->
  1 <= year d <= 9999 /\ 1 <= month d <= 12
  /\ 1 <= day d <= days_in_month (year d) (month d).
Proof.
  unfold valid_date. rewrite !andb_true_iff, !Z.leb_le. lia.
Qed.

Lemma tomorrow_toordinal (d : date) :
  valid_date d = true -> toordinal (tomorrow d) = toordinal d + 1.
Proof.
  intros V. apply valid_date_bounds in V as (Hy & Hm & Hd).
  unfold tomorrow, toordinal.
  destruct (Z.ltb_spec (day d) (days_in_month (year d) (month d))); simpl; [lia|].
  destruct (Z.ltb_spec (month d) 12); simpl.
  - rewrite days_before_next_month by lia. lia.
  - assert (E : month d = 12) by lia. rewrite E in *.
    rewrite days_before_next_year. pose proof (year_length (year d)).
    unfold days_before_month at 1. simpl. lia.
Qed.

Lemma yesterday_toordinal (d : date) :
  valid_date d = true -> toordinal (yesterday d) = toordinal d - 1.
Proof.
  intros V. apply valid_date_bounds in V as (Hy & Hm & Hd).
  unfold yesterday, toordinal.
  destruct (Z.ltb_spec 1 (day d)); simpl; [lia|].
  destruct (Z.ltb_spec 1 (month d)); simpl.
  - pose proof (days_before_next_month (year d) (month d - 1)
                  ltac:(lia) ltac:(lia)) as S.
    replace (month d - 1 + 1) with (month d) in S by lia. lia.
  - assert (E : month d = 1) by lia. rewrite E.
    pose proof (days_before_next_year (year d - 1)) as S.
    replace (year d - 1 + 1) with (year d) in S by lia.
    pose proof (year_length (year d - 1)) as Y.
    change (days_in_month (year d - 1) 12) with 31 in Y.
    change (days_before_month (year d) 1) with 0. lia.
Qed.

Lemma month_bounds (y m dd : Z) :
  1 <= m <= 12 -> 1 <= dd <= days_in_month y m ->
  1 <= days_before_month y m + dd <= 365 + leap_day y.
Proof.
  intros Hm Hd.
  pose proof (days_before_month_mono y 1 m ltac:(lia) ltac:(lia) ltac:(lia)) as L.
  unfold days_before_month at 1 in L. simpl in L.
  split; [lia|].
  destruct (Z.eq_dec m 12) as [->|N].
  - rewrite <- year_length. lia.
  - pose proof (days_before_next_month y m ltac:(lia) ltac:(lia)) as S.
    pose proof (days_before_month_mono y (m + 1) 12 ltac:(lia) ltac:(lia) ltac:(lia)) as M.
    pose proof (year_length y) as Y.
    assert (0 <= days_in_month y 12).
    { unfold days_in_month. simpl. lia. }
    lia.
Qed.

Lemma date_leb_toordinal (a b : date) :
  valid_date a = true -> valid_date b = true ->
  date_leb a b = (toordinal a <=? toordinal b).
Proof.
  intros Va Vb.
  apply valid_date_bounds in Va as (Hya & Hma & Hda).
  apply valid_date_bounds in Vb as (Hyb & Hmb & Hdb).
  pose proof (month_bounds (year a) (month a) (day a) Hma Hda) as Ba.
  pose proof (month_bounds (year b) (month b) (day b) Hmb Hdb) as Bb.
  unfold date_leb, toordinal.
  destruct (Z.ltb_spec (year a) (year b)) as [Hlt|Hge]; simpl.
  - symmetry. apply Z.leb_le.
    pose proof (days_before_year_mono (year a + 1) (year b) ltac:(lia)).
    rewrite days_before_next_year in H. lia.
  - destruct (Z.eqb_spec (year a) (year b)) as [E|N]; simpl.
    + rewrite E in *.
      destruct (Z.ltb_spec (month a) (month b)) as [Mlt|Mge]; simpl.
      * symmetry. apply Z.leb_le.
        pose proof (days_before_next_month (year b) (month a) ltac:(lia) ltac:(lia)).
        pose proof (days_before_month_mono (year b) (month a + 1) (month b)
                      ltac:(lia) ltac:(lia) ltac:(lia)).
        lia.
      * destruct (Z.eqb_spec (month a) (month b)) as [E'|N']; simpl.
        -- rewrite E'. destruct (Z.leb_spec (day a) (day b));
             symmetry; [apply Z.leb_le | apply Z.leb_gt]; lia.
        -- symmetry. apply Z.leb_gt.
           pose proof (days_before_next_month (year b) (month b) ltac:(lia) ltac:(lia)).
           pose proof (days_before_month_mono (year b) (month b + 1) (month a)
                         ltac:(lia) ltac:(lia) ltac:(lia)).
           lia.
    + symmetry. apply Z.leb_gt.
      pose proof (days_before_year_mono (year b + 1) (year a) ltac:(lia)).
      rewrite days_before_next_year in H. lia.
Qed.

Example toordinal_runs :
  toordinal (mkDate 1 1 1) = 1 /\ toordinal (mkDate 2024 2 29) = 738945
  /\ toordinal (mkDate 2024 3 1) = 738946 /\ toordinal (mkDate 9999 12 31) = 3652059.
Proof. repeat split. Qed.



(** ** Presence against non-emptiness of required fields *)

Lemma missing2_empty (d : list (string * json)) (a b : string) :
  assoc a d = Some (JStr "") \/ assoc b d = Some (JStr "") ->
  missing2 (JDict d) a b = Go true.
Proof.
  intros H. unfold missing2, py_get, py_get_default.
  destruct (negb (truthy (JDict d))); [reflexivity|]. cbn [eval fbind].
  destruct H as [H|H].
  - rewrite H. reflexivity.
  - destruct (negb (truthy _)); [reflexivity|]. cbn [eval fbind].
    rewrite H. reflexivity.
Qed.

Section RequiredFields.
Context {D : Dbapi} {W : Werkzeug}.

Lemma register_rejects_empty (d : list (string * json)) (now : Z) (s : db) :
  assoc "username" d = Some (JStr "") \/ assoc "password" d = Some (JStr "") ->
  register (JDict d) now s
  = (Response 400 (msg "Username e password são obrigatórios"), s).
Proof. intros H. unfold register. now rewrite (missing2_empty d _ _ H). Qed.

Lemma criar_classe_rejects_empty (d : list (string * json)) (now : Z) (s : db) :
  assoc "nome" d = Some (JStr "") \/ assoc "professor" d = Some (JStr "") ->
  criar_classe (JDict d) now s
  = (Response 400 (msg ("Campos " ++ dq ++ "nome" ++ dq ++ " e " ++ dq
                        ++ "professor" ++ dq ++ " são obrigatórios")), s).
Proof. intros H. unfold criar_classe. now rewrite (missing2_empty d _ _ H). Qed.

End RequiredFields.


(** ** Partial updates *)


Lemma committed_200 {A} (f : A -> json) (w : result A * db) (o : outcome) (s' : db) :
  committed 200 f w = (o, s') -> status_code o = 200 ->
  exists r, w = (Ok r, s') /\ o = Response 200 (f r).
Proof.
  destruct w as [[r|e] s1]; simpl; intros H; injection H as <- <-; simpl.
  - intros _. now exists r.
  - discriminate.
Qed.

Lemma upd_changed {A} (eq : json -> A -> bool) (col : json -> result A)
  (p : option json) (old c : A) :
  upd col (changed eq p old) old = Ok c -> field_frame eq col p old c.
Proof.
  unfold field_frame. destruct p as [v|]; simpl.
  - destruct (eq v old) eqn:E; simpl; intros H; split; try discriminate;
      intros v' [= <-]; [left | right]; congruence.
  - intros [= <-]. split; [reflexivity | discriminate].
Qed.

Lemma unchanged_frame {A} (eq : json -> A -> bool) (col : json -> result A)
  (p : option json) (old : A) :
  is_some (changed eq p old) = false -> field_frame eq col p old old.
Proof.
  unfold field_frame. destruct p as [v|]; simpl.
  - destruct (eq v old) eqn:E; [|discriminate]. intros _.
    split; [reflexivity|]. intros v' [= <-]. now left.
  - intros _. split; [reflexivity | discriminate].
Qed.

Lemma upd_always_frame {A} (col : json -> result A) (p : option json) (old c : A) :
  upd col p old = Ok c -> field_frame (fun _ _ => false) col p old c.
Proof.
  unfold field_frame. destruct p as [v|]; simpl.
  - intros H. split; [discriminate|]. intros v' [= <-]. now right.
  - intros [= <-]. split; [reflexivity | discriminate].
Qed.

(** The flush that found nothing to write: every conjunct of a frame holds
    with the row as it was. *)
Ltac frame_of_clean_flush :=
  repeat match goal with
         | |- _ /\ _ => split
         | |- field_frame _ _ _ _ _ => apply unchanged_frame; assumption
         | |- date_frame _ _ _ => reflexivity
         | |- refreshed _ _ _ => left; reflexivity
         | |- _ = _ => reflexivity
         end.

(** The flush that wrote the row: every conjunct follows from the equation
    of its column. *)
Ltac frame_of_write :=
  repeat match goal with
         | |- _ /\ _ => split
         | |- field_frame (fun _ _ => false) _ _ _ _ =>
             apply upd_always_frame; assumption
         | |- field_frame _ _ _ _ _ => apply upd_changed; assumption
         | |- date_frame _ _ _ => reflexivity
         | |- refreshed _ _ _ => right; reflexivity
         | |- _ = _ => reflexivity
         end.

Ltac split_dirty H :=
  apply negb_true_iff in H;
  repeat (apply orb_false_iff in H as [H ?]).

Ltac run_columns :=
  repeat match goal with
         | |- context [rbind (upd ?col ?p ?old) _] =>
             let E := fresh "E" in
             destruct (upd col p old) eqn:E; cbn [rbind]; [|intros [=]]
         end.

Section PartialUpdate.
Context {D : Dbapi}.

Lemma atualizar_classe_dict (classe_id : Z) (d : list (string * json))
  (now : Z) (s : db) (row : Classe.t) :
  find_classe classe_id s = Some row ->
  atualizar_classe classe_id (JDict d) now s
  = committed 200 Classe.to_dict (update_classe (classe_after row d) now s).
Proof.
  unfold find_classe, atualizar_classe, get_or_404, classe_after. intros ->.
  unfold assign_if_present. simpl.
  destruct (assoc "nome" d), (assoc "professor" d); reflexivity.
Qed.

Lemma atualizar_aluno_dict (aluno_id : Z) (d : list (string * json))
  (now : Z) (s : db) (row : Aluno.t) :
  find_aluno aluno_id s = Some row ->
  atualizar_aluno aluno_id (JDict d) now s
  = match assoc "data_nascimento" d with
    | None =>
        committed 200 Aluno.to_dict (update_aluno (aluno_after row d None) now s)
    | Some v =>
        match strptime v with
        | Ok nasc =>
            committed 200 Aluno.to_dict
              (update_aluno (aluno_after row d (Some nasc)) now s)
        | Raise e =>
            (Response 400 (JDict [("msg", JStr "Formato de data inválido");
                                  ("error", JStr (str_exn e))]), s)
        end
    end.
Proof.
  unfold find_aluno, atualizar_aluno, get_or_404, aluno_after. intros ->.
  unfold assign_if_present, assign_date_if_present. simpl.
  destruct (assoc "nome" d); simpl;
    (destruct (assoc "data_nascimento" d) as [v|]; simpl;
     [destruct (strptime v); simpl; [|reflexivity]|]);
    destruct (assoc "classe_id" d), (assoc "status" d); reflexivity.
Qed.

Lemma atualizar_frequencia_dict (frequencia_id : Z) (d : list (string * json))
  (now : Z) (s : db) (row : Frequencia.t) :
  find_frequencia frequencia_id s = Some row ->
  atualizar_frequencia frequencia_id (JDict d) now s
  = match assoc "data" d with
    | None =>
        committed 200 frequencia_json
          (update_frequencia (frequencia_after row d None) now s)
    | Some v =>
        match strptime v with
        | Ok dia =>
            committed 200 frequencia_json
              (update_frequencia (frequencia_after row d (Some dia)) now s)
        | Raise e =>
            (Response 400 (JDict [("msg", JStr "Formato de data inválido");
                                  ("error", JStr (str_exn e))]), s)
        end
    end.
Proof.
  unfold find_frequencia, atualizar_frequencia, get_or_404, frequencia_after.
  intros ->. unfold assign_if_present, assign_date_if_present. simpl.
  destruct (assoc "classe_id" d); simpl;
    (destruct (assoc "data" d) as [v|]; simpl;
     [destruct (strptime v); simpl; [|reflexivity]|]);
    destruct (assoc "total_biblia" d), (assoc "total_present" d),
      (assoc "total_absent" d), (assoc "total_visitors" d),
      (assoc "total_general" d), (assoc "presencas" d); reflexivity.
Qed.

(** What a successful flush leaves: the frame of the entity, and a database
    that is the old one or the old one with that row replaced. *)
Lemma update_classe_frame (o : Classe.obj) (now : Z) (s s' : db) (r' : Classe.t) :
  update_classe o now s = (Ok r', s') ->
  classe_frame o now r'
  /\ (s' = s /\ r' = Classe.row o
      \/ s' = with_classes s
                (update_row Classe.id (Classe.id (Classe.row o)) r' (classes s))
                (classes_seq s)).
Proof.
  unfold update_classe, classe_frame, changed_str.
  destruct o as [row nn np]. cbn [Classe.row Classe.new_nome Classe.new_professor].
  destruct (negb _) eqn:Hdirty.
  - intros [= <- <-]. split_dirty Hdirty.
    split; [frame_of_clean_flush | left; split; reflexivity].
  - run_columns. destruct (_ && _); [intros [=]|]. intros [= <- <-].
    cbn [Classe.id Classe.nome Classe.professor Classe.created_at Classe.updated_at].
    split; [frame_of_write | right; reflexivity].
Qed.

Lemma update_aluno_frame (o : Aluno.obj) (now : Z) (s s' : db) (r' : Aluno.t) :
  update_aluno o now s = (Ok r', s') ->
  aluno_frame o now r'
  /\ (s' = s /\ r' = Aluno.row o
      \/ s' = with_alunos s
                (update_row Aluno.id (Aluno.id (Aluno.row o)) r' (alunos s))
                (alunos_seq s)).
Proof.
  unfold update_aluno, aluno_frame, changed_str, changed_int, changed_status.
  destruct o as [row nn nd nc ns].
  cbn [Aluno.row Aluno.new_nome Aluno.new_data_nascimento Aluno.new_classe_id
       Aluno.new_status].
  destruct (negb _) eqn:Hdirty.
  - intros [= <- <-]. split_dirty Hdirty.
    destruct nd; [discriminate|].
    split; [frame_of_clean_flush | left; split; reflexivity].
  - run_columns. destruct (_ && _); [intros [=]|]. intros [= <- <-].
    cbn [Aluno.id Aluno.nome Aluno.data_nascimento Aluno.status Aluno.classe_id
         Aluno.created_at Aluno.updated_at].
    split; [frame_of_write | right; reflexivity].
Qed.

Lemma update_frequencia_frame (o : Frequencia.obj) (now : Z) (s s' : db)
  (r' : Frequencia.t) :
  update_frequencia o now s = (Ok r', s') ->
  frequencia_frame o now r'
  /\ (s' = s /\ r' = Frequencia.row o
      \/ s' = with_frequencias s
                (update_row Frequencia.id (Frequencia.id (Frequencia.row o)) r'
                   (frequencias s))
                (frequencias_seq s)).
Proof.
  unfold update_frequencia, frequencia_frame, changed_int, changed_opt_int.
  destruct o as [row nc nd ntb ntp nta ntv ntg nps].
  cbn [Frequencia.row Frequencia.new_classe_id Frequencia.new_data
       Frequencia.new_total_biblia Frequencia.new_total_present
       Frequencia.new_total_absent Frequencia.new_total_visitors
       Frequencia.new_total_general Frequencia.new_presencas].
  destruct (negb _) eqn:Hdirty.
  - intros [= <- <-]. split_dirty Hdirty.
    destruct nd; [discriminate|]. destruct nps; [discriminate|].
    split; [frame_of_clean_flush | left; split; reflexivity].
  - run_columns. destruct (_ && _); [intros [=]|]. intros [= <- <-].
    cbn [Frequencia.id Frequencia.created_at Frequencia.classe_id Frequencia.data
         Frequencia.total_biblia Frequencia.total_present Frequencia.total_absent
         Frequencia.total_visitors Frequencia.total_general Frequencia.presencas
         Frequencia.updated_at].
    split; [frame_of_write | right; reflexivity].
Qed.

Lemma atualizar_classe_frame (classe_id : Z) (d : list (string * json))
  (now : Z) (s s' : db) (row : Classe.t) (o : outcome) :
  find_classe classe_id s = Some row ->
  atualizar_classe classe_id (JDict d) now s = (o, s') ->
  status_code o = 200 ->
  exists row',
    o = Response 200 (Classe.to_dict row')
    /\ classe_frame (classe_after row d) now row'
    /\ (s' = s /\ row' = row
        \/ s' = with_classes s
                  (update_row Classe.id (Classe.id row) row' (classes s))
                  (classes_seq s)).
Proof.
  intros Hrow H H200. rewrite (atualizar_classe_dict classe_id d now s row Hrow) in H.
  apply committed_200 in H as (r & Hw & ->); [|exact H200].
  apply update_classe_frame in Hw as [F G].
  exists r. split; [reflexivity|]. split; assumption.
Qed.

Lemma atualizar_aluno_frame (aluno_id : Z) (d : list (string * json))
  (now : Z) (s s' : db) (row : Aluno.t) (o : outcome) :
  find_aluno aluno_id s = Some row ->
  atualizar_aluno aluno_id (JDict d) now s = (o, s') ->
  status_code o = 200 ->
  exists row' nasc,
    o = Response 200 (Aluno.to_dict row')
    /\ parsed_date "data_nascimento" d nasc
    /\ aluno_frame (aluno_after row d nasc) now row'
    /\ (s' = s /\ row' = row
        \/ s' = with_alunos s
                  (update_row Aluno.id (Aluno.id row) row' (alunos s))
                  (alunos_seq s)).
Proof.
  intros Hrow H H200.
  rewrite (atualizar_aluno_dict aluno_id d now s row Hrow) in H.
  unfold parsed_date.
  destruct (assoc "data_nascimento" d) as [v|].
  - destruct (strptime v) as [nasc|e].
    + apply committed_200 in H as (r & Hw & ->); [|exact H200].
      apply update_aluno_frame in Hw as [F G].
      exists r, (Some nasc).
      split; [reflexivity|]. split; [now exists nasc|]. split; assumption.
    + injection H as <- <-. discriminate H200.
  - apply committed_200 in H as (r & Hw & ->); [|exact H200].
    apply update_aluno_frame in Hw as [F G].
    exists r, None.
    split; [reflexivity|]. split; [reflexivity|]. split; assumption.
Qed.

Lemma atualizar_frequencia_frame (frequencia_id : Z) (d : list (string * json))
  (now : Z) (s s' : db) (row : Frequencia.t) (o : outcome) :
  find_frequencia frequencia_id s = Some row ->
  atualizar_frequencia frequencia_id (JDict d) now s = (o, s') ->
  status_code o = 200 ->
  exists row' dia,
    o = Response 200 (frequencia_json row')
    /\ parsed_date "data" d dia
    /\ frequencia_frame (frequencia_after row d dia) now row'
    /\ (s' = s /\ row' = row
        \/ s' = with_frequencias s
                  (update_row Frequencia.id (Frequencia.id row) row' (frequencias s))
                  (frequencias_seq s)).
Proof.
  intros Hrow H H200.
  rewrite (atualizar_frequencia_dict frequencia_id d now s row Hrow) in H.
  unfold parsed_date.
  destruct (assoc "data" d) as [v|].
  - destruct (strptime v) as [dia|e].
    + apply committed_200 in H as (r & Hw & ->); [|exact H200].
      apply update_frequencia_frame in Hw as [F G].
      exists r, (Some dia).
      split; [reflexivity|]. split; [now exists dia|]. split; assumption.
    + injection H as <- <-. discriminate H200.
  - apply committed_200 in H as (r & Hw & ->); [|exact H200].
    apply update_frequencia_frame in Hw as [F G].
    exists r, None.
    split; [reflexivity|]. split; [reflexivity|]. split; assumption.
Qed.

(** With the empty mapping nothing is assigned, the flush writes nothing and
    the answer is the entity as it was. *)
Lemma atualizar_classe_empty (classe_id : Z) (now : Z) (s : db) (row : Classe.t) :
  find_classe classe_id s = Some row ->
  atualizar_classe classe_id (JDict []) now s
  = (Response 200 (Classe.to_dict row), s).
Proof.
  intros Hrow. now rewrite (atualizar_classe_dict classe_id [] now s row Hrow).
Qed.

Lemma atualizar_aluno_empty (aluno_id : Z) (now : Z) (s : db) (row : Aluno.t) :
  find_aluno aluno_id s = Some row ->
  atualizar_aluno aluno_id (JDict []) now s
  = (Response 200 (Aluno.to_dict row), s).
Proof.
  intros Hrow. now rewrite (atualizar_aluno_dict aluno_id [] now s row Hrow).
Qed.

Lemma atualizar_frequencia_empty (frequencia_id : Z) (now : Z) (s : db)
  (row : Frequencia.t) :
  find_frequencia frequencia_id s = Some row ->
  atualizar_frequencia frequencia_id (JDict []) now s
  = (Response 200 (frequencia_json row), s).
Proof.
  intros Hrow.
  now rewrite (atualizar_frequencia_dict frequencia_id [] now s row Hrow).
Qed.

End PartialUpdate.


(** ** The status of a student *)

(** A label that is not in the Enum is refused at the commit: the request
    ends as a fault and the stored status stays. *)
Lemma atualizar_aluno_unknown_status {D : Dbapi} (now : Z) :
  atualizar_aluno 1 (JDict [("status", JStr "FORMADO")]) now Sample.store
  = (Unhandled (DataError "invalid input value for enum status_aluno"),
     Sample.store).
Proof. reflexivity. Qed.

(** A student created by POST /alunos has the default status. *)
Lemma insert_aluno_status {D : Dbapi} (n : json) (d : date) (c : json)
  (now : Z) (s s' : db) (r : Aluno.t) :
  insert_aluno n d c now s = (Ok r, s') -> Aluno.status r = Some MATRICULADO.
Proof.
  unfold insert_aluno.
  destruct (rbind _ _) as [[n' c']|e]; [|discriminate].
  destruct (existsb _ _); [discriminate|].
  destruct (negb _); [discriminate|].
  intros H. injection H as <- _. reflexivity.
Qed.

(** Whatever the store, [null] replaces a status that was set. *)
Lemma atualizar_aluno_null_status {D : Dbapi} (aluno_id now : Z) (s : db)
  (row : Aluno.t) (st : status_aluno) :
  find_aluno aluno_id s = Some row ->
  Aluno.status row = Some st ->
  exists row',
    atualizar_aluno aluno_id (JDict [("status", JNull)]) now s
    = (Response 200 (Aluno.to_dict row'),
       with_alunos s (update_row Aluno.id (Aluno.id row) row' (alunos s))
         (alunos_seq s))
    /\ Aluno.status row' = None.
Proof.
  intros Hrow Hst.
  rewrite (atualizar_aluno_dict aluno_id [("status", JNull)] now s row Hrow).
  cbn [assoc String.eqb Ascii.eqb Bool.eqb]. unfold update_aluno, aluno_after.
  cbn [assoc String.eqb Ascii.eqb Bool.eqb Aluno.row Aluno.new_nome
       Aluno.new_data_nascimento Aluno.new_classe_id Aluno.new_status].
  rewrite Hst. cbn.
  eexists. split; reflexivity.
Qed.

(** C4. PUT /alunos/1 with the body {"status": null} on a store whose
    student 1 is MATRICULADO: the request succeeds (200) and the stored
    status of the student is NULL afterwards, which is neither of the two
    values of the enumeration. *)
Theorem atualizar_aluno_status_null {D : Dbapi} (now : Z) :
  let r := atualizar_aluno 1 (JDict [("status", JNull)]) now Sample.store in
  fst r = Response 200
            (JDict [("id", JInt 1); ("nome", JStr "Ana");
                    ("data_nascimento", JStr "2015-03-15");
                    ("status", JNull); ("classe_id", JInt 1)])
  /\ map Aluno.status (alunos Sample.store) = [Some MATRICULADO]
  /\ map Aluno.status (alunos (snd r)) = [None].
Proof. repeat split. Qed.

(** * Further properties of the handlers *)

(** ** Routes that only read *)

Lemma no_commit_unchanged {A} (m : flow A) (s : db) (k : A -> outcome * db) :
  (forall a, snd (k a) = s) -> snd (no_commit m s k) = s.
Proof. intros Hk. destruct m; simpl; auto. Qed.

Lemma jwt_required_unchanged {J : Jwt} (key : string) (authorization : option string)
  (now : Z) (f : Z -> view) (s : db) :
  (forall who, snd (f who s) = s) ->
  snd (jwt_required key authorization now f s) = s.
Proof.
  intros Hf. unfold jwt_required.
  destruct authorization as [h|]; [|reflexivity].
  destruct (bearer h) as [t|]; [|reflexivity].
  destruct (decode_token key t now); auto.
Qed.

Lemma login_unchanged {D : Dbapi} {W : Werkzeug} {J : Jwt} (key : string)
  (data : json) (now : Z) (s : db) :
  snd (login key data now s) = s.
Proof.
  unfold login.
  destruct (missing2 data "username" "password") as [m| | |]; try reflexivity.
  cbn [fbind]. destruct m; [reflexivity|].
  destruct (py_getitem data "username") as [u|]; [|reflexivity].
  cbn [eval fbind].
  destruct (find_user u s) as [[r|]|]; try reflexivity.
  cbn [eval fbind].
  destruct (py_getitem data "password") as [pw|]; [|reflexivity].
  cbn [eval fbind].
  destruct (check_password_hash (User.password_hash r) pw) as [[|]|]; reflexivity.
Qed.

Lemma relatorio_semanal_unchanged (args : list (string * string)) (s : db) :
  snd (relatorio_semanal args s) = s.
Proof.
  unfold relatorio_semanal. apply no_commit_unchanged. now intros [a b].
Qed.

Lemma relatorio_mensal_unchanged (args : list (string * string)) (s : db) :
  snd (relatorio_mensal args s) = s.
Proof.
  unfold relatorio_mensal. apply no_commit_unchanged. now intros [a b].
Qed.

Lemma historico_frequencia_unchanged (aluno_id : Z) (s : db) :
  snd (historico_frequencia aluno_id s) = s.
Proof.
  unfold historico_frequencia.
  destruct (scan_frequencias (frequencias s) aluno_id []); reflexivity.
Qed.

(** X1. No GET route and no login writes: whatever the header, the body and
    the query, the database after the request is the database before it. *)
Theorem reads_never_write {D : Dbapi} {W : Werkzeug} {J : Jwt} (key : string)
  (authorization : option string) (now : Z) (hoje : date) (e : endpoint) (s : db) :
  reads_only e = true ->
  snd (route key authorization now hoje e s) = s.
Proof.
  destruct e; try discriminate; intros _; cbn [route].
  - apply login_unchanged.
  - unfold protected. now apply jwt_required_unchanged.
  - now apply jwt_required_unchanged.
  - now apply jwt_required_unchanged.
  - now apply jwt_required_unchanged.
  - apply jwt_required_unchanged. intros _. apply relatorio_semanal_unchanged.
  - apply jwt_required_unchanged. intros _. apply relatorio_mensal_unchanged.
  - now apply jwt_required_unchanged.
  - apply jwt_required_unchanged. intros _. apply historico_frequencia_unchanged.
Qed.

(** A login with bob's credentials on the store that holds bob. *)
Lemma reads_never_write_witness :
  snd (@route strict_dbapi plain_werkzeug toy_jwt "k" None 100 (mkDate 2024 1 7)
         (EpLogin (JDict (credentials "bob" "segredo"))) store_bob) = store_bob.
Proof.
  apply (@reads_never_write strict_dbapi plain_werkzeug toy_jwt "k" None 100
           (mkDate 2024 1 7) (EpLogin (JDict (credentials "bob" "segredo")))
           store_bob).
  reflexivity.
Defined.

(** ** Unknown ids *)



(** ** The reports *)




(** X5. GET /aniversariantes lists exactly the students whose month and day
    of birth are today's, whatever the year; so a student born on a 29th of
    February is listed on no day of a year that is not a leap year. *)
Theorem listar_aniversariantes_month_and_day (hoje : date) (s : db) :
  valid_date hoje = true ->
  exists listed,
    listar_aniversariantes hoje s
    = (Response 200 (JList (map Aluno.to_dict listed)), s)
    /\ (forall a, In a listed <->
                  In a (alunos s)
                  /\ month (Aluno.data_nascimento a) = month hoje
                  /\ day (Aluno.data_nascimento a) = day hoje)
    /\ (is_leap (year hoje) = false ->
        forall a, In a listed ->
             ~ (month (Aluno.data_nascimento a) = 2
                /\ day (Aluno.data_nascimento a) = 29)).
Proof.
  intros V. eexists. split; [reflexivity|]. split.
  - intros a. rewrite filter_In, andb_true_iff, !Z.eqb_eq. tauto.
  - intros L a Ha [Hm Hd]. apply filter_In in Ha as [_ Hb].
    apply andb_prop in Hb as [Em Ed]. apply Z.eqb_eq in Em, Ed.
    apply valid_date_bounds in V as (_ & _ & Vd).
    unfold days_in_month in Vd. rewrite <- Em, Hm, L in Vd. simpl in Vd. lia.
Qed.

(** The 15th of March of another year, for the student born 2015-03-15. *)
Lemma listar_aniversariantes_month_and_day_witness :
  exists listed,
    listar_aniversariantes (mkDate 2031 3 15) Sample.store
    = (Response 200 (JList (map Aluno.to_dict listed)), Sample.store)
    /\ In Sample.ana listed.
Proof.
  destruct (listar_aniversariantes_month_and_day (mkDate 2031 3 15) Sample.store
              eq_refl) as (listed & H & HIn & _).
  exists listed. split; [exact H|].
  apply HIn. repeat split. now left.
Defined.

(** ** Bodies that are not mappings *)

(** X6. A JSON body that is [null], a boolean or a number makes POST /alunos,
    POST /frequencias and every PUT on an existing id raise the [TypeError]
    of [field in data], which no handler catches: the request ends as a
    fault and writes nothing. *)
Theorem scalar_body_is_unhandled {D : Dbapi} (data : json) (now : Z) (s : db) :
  is_scalar data = true ->
  let e := TypeError ("argument of type '" ++ type_name data ++ "' is not iterable") in
  criar_aluno data now s = (Unhandled e, s)
  /\ registrar_frequencia data now s = (Unhandled e, s)
  /\ (forall i row, find_classe i s = Some row ->
        atualizar_classe i data now s = (Unhandled e, s))
  /\ (forall i row, find_aluno i s = Some row ->
        atualizar_aluno i data now s = (Unhandled e, s))
  /\ (forall i row, find_frequencia i s = Some row ->
        atualizar_frequencia i data now s = (Unhandled e, s)).
Proof.
  intros Hs. cbv zeta.
  unfold find_classe, find_aluno, find_frequencia,
    criar_aluno, registrar_frequencia, atualizar_classe, atualizar_aluno,
    atualizar_frequencia, get_or_404.
  destruct data; try discriminate Hs;
    (split; [reflexivity|]; split; [reflexivity|];
     split; [|split]; intros i row Hrow; rewrite Hrow; reflexivity).
Qed.

(** The body [null] on POST /alunos. *)
Lemma scalar_body_is_unhandled_witness :
  @criar_aluno strict_dbapi JNull 5 Sample.store
  = (Unhandled (TypeError "argument of type 'NoneType' is not iterable"),
     Sample.store).
Proof.
  apply (@scalar_body_is_unhandled strict_dbapi JNull 5 Sample.store). reflexivity.
Defined.

(** ** The guard of the protected routes *)


(** The same guard in front of a handler: it runs only for a token that
    verifies. *)
Lemma jwt_required_runs (J : Jwt) (key : string) (authorization : option string)
  (now : Z) (f : Z -> view) (s : db) :
  (exists who, jwt_required key authorization now f s = f who s)
  \/ (exists st body, jwt_required key authorization now f s = (Response st body, s)
                      /\ (st = 401 \/ st = 422)).
Proof.
  unfold jwt_required.
  destruct authorization as [h|]; [|right; eexists _, _; split; [reflexivity|auto]].
  destruct (bearer h) as [t|]; [|right; eexists _, _; split; [reflexivity|auto]].
  destruct (decode_token key t now) as [who| | |];
    [left; now exists who | | |]; right; eexists _, _; split; try reflexivity; auto.
Qed.

(** ** Creating, then reading *)

Lemma missing2_cases (data : json) (a b : string) :
  (exists x, missing2 data a b = Go x) \/ (exists e, missing2 data a b = Throw e).
Proof.
  unfold missing2. destruct (negb (truthy data)); [left; now eexists|].
  destruct (py_get data a) as [x|e]; cbn [eval fbind]; [|right; now eexists].
  destruct (negb (truthy x)); [left; now eexists|].
  destruct (py_get data b) as [y|e]; cbn [eval fbind];
    [left | right]; now eexists.
Qed.

(** A row appended under an id that the table did not hold is the row found
    under that id, and the other ids find what they found. *)
Lemma find_appended {A} (idf : A -> Z) (rows : list A) (r : A) (i : Z) :
  existsb (fun x => idf x =? i) rows = false ->
  idf r = i ->
  find (fun x => idf x =? i) rows = None
  /\ find (fun x => idf x =? i) (rows ++ [r]) = Some r
  /\ (forall j, j <> i ->
        find (fun x => idf x =? j) (rows ++ [r]) = find (fun x => idf x =? j) rows).
Proof.
  intros Hn Hr. induction rows as [|x rows IH]; simpl in *.
  - rewrite Hr, Z.eqb_refl. repeat split. intros j Hj.
    destruct (Z.eqb_spec i j); [congruence | reflexivity].
  - apply orb_false_iff in Hn as [Hx Hn]. rewrite Hx.
    destruct (IH Hn) as (I1 & I2 & I3). repeat split; auto.
    intros j Hj. destruct (idf x =? j); [reflexivity | now apply I3].
Qed.

Lemma existsb_or_false {A} (f g : A -> bool) (l : list A) :
  existsb (fun x => f x || g x) l = false ->
  existsb f l = false /\ existsb g l = false.
Proof.
  induction l as [|x l IH]; simpl; [auto|].
  intros H. apply orb_false_iff in H as [H1 H2].
  apply orb_false_iff in H1 as [Hf Hg]. destruct (IH H2) as [I1 I2].
  now rewrite Hf, Hg, I1, I2.
Qed.

Section Creation.
Context {D : Dbapi}.

Lemma insert_classe_ok (n p : json) (now : Z) (s s' : db) (r : Classe.t) :
  insert_classe n p now s = (Ok r, s') ->
  exists n' p',
    col_varchar 255 n = Ok n' /\ col_varchar 255 p = Ok p'
    /\ r = Classe.mk (classes_seq s + 1) n' p' now now
    /\ s' = with_classes s (classes s ++ [r]) (classes_seq s + 1)
    /\ existsb (fun x => Classe.id x =? classes_seq s + 1) (classes s) = false
    /\ existsb (fun x => String.eqb (Classe.nome x) n') (classes s) = false.
Proof.
  unfold insert_classe.
  destruct (col_varchar 255 n) as [n'|]; [|intros [=]].
  destruct (col_varchar 255 p) as [p'|]; [|intros [=]].
  cbn [rbind]. destruct (existsb _ _) eqn:E; [intros [=]|].
  intros [= <- <-]. apply existsb_or_false in E as [E1 E2].
  exists n', p'. repeat split; assumption.
Qed.

(** X8. A POST /classes that answers 201 stores one new class under the next
    id of the sequence, created and updated at the time of the request: the
    body is that class, its 'nome' and 'professor' are the ones of the
    request as the columns store them, GET /classes lists it after the
    classes that were there, a lookup of its id finds it and every other id
    finds what it found before. *)
Theorem criar_classe_then_read (data : json) (now : Z) (s s' : db) (body : json) :
  criar_classe data now s = (Response 201 body, s') ->
  exists r n p,
    body = Classe.to_dict r
    /\ py_getitem data "nome" = Ok n /\ col_varchar 255 n = Ok (Classe.nome r)
    /\ py_getitem data "professor" = Ok p
    /\ col_varchar 255 p = Ok (Classe.professor r)
    /\ Classe.id r = classes_seq s + 1
    /\ Classe.created_at r = now /\ Classe.updated_at r = now
    /\ s' = with_classes s (classes s ++ [r]) (classes_seq s + 1)
    /\ find_classe (Classe.id r) s = None
    /\ find_classe (Classe.id r) s' = Some r
    /\ (forall j, j <> Classe.id r -> find_classe j s' = find_classe j s)
    /\ listar_classes s'
       = (Response 200 (JList (map Classe.to_dict (classes s) ++ [body])), s').
Proof.
  unfold criar_classe.
  destruct (missing2_cases data "nome" "professor") as [[x Hx]|[e He]].
  2:{ rewrite He. discriminate. }
  rewrite Hx. cbn [fbind]. destruct x; [discriminate|].
  destruct (py_getitem data "nome") as [n|]; [|discriminate]. cbn [eval fbind].
  destruct (py_getitem data "professor") as [p|]; [|discriminate].
  cbn [eval fbind no_commit].
  destruct (insert_classe n p now s) as [[r|e] s1] eqn:I; [|discriminate].
  simpl. intros [= <- <-].
  apply insert_classe_ok in I as (n' & p' & Hn & Hp & -> & -> & Eid & Enome).
  destruct (find_appended Classe.id (classes s)
              (Classe.mk (classes_seq s + 1) n' p' now now) (classes_seq s + 1)
              Eid eq_refl) as (F1 & F2 & F3).
  exists (Classe.mk (classes_seq s + 1) n' p' now now), n, p.
  cbn [Classe.id Classe.nome Classe.professor Classe.created_at Classe.updated_at].
  repeat split; try assumption.
  unfold listar_classes. cbn [classes with_classes]. now rewrite map_app.
Qed.
End Creation.

(** The example of the specification: {"nome": "Kids B", "professor":
    "Maria"} on the sample store. *)
Lemma criar_classe_then_read_witness :
  exists r,
    fst (@criar_classe strict_dbapi
           (JDict [("nome", JStr "Kids B"); ("professor", JStr "Maria")]) 9
           Sample.store)
    = Response 201 (Classe.to_dict r)
    /\ Classe.id r = 2 /\ Classe.nome r = "Kids B".
Proof.
  destruct (@criar_classe_then_read strict_dbapi
              (JDict [("nome", JStr "Kids B"); ("professor", JStr "Maria")]) 9
              Sample.store _ _ eq_refl)
    as (r & n & p & Hb & Hn & Hcn & _ & _ & Hid & _).
  exists r. split; [now rewrite <- Hb|]. split; [exact Hid|].
  injection Hn as <-. now injection Hcn.
Defined.

Section CreationOfStudentsAndRecords.
Context {D : Dbapi}.

Lemma insert_aluno_ok (n : json) (nasc : date) (c : json) (now : Z) (s s' : db)
  (r : Aluno.t) :
  insert_aluno n nasc c now s = (Ok r, s') ->
  exists n' c',
    col_varchar 255 n = Ok n' /\ col_integer c = Ok c'
    /\ r = Aluno.mk (alunos_seq s + 1) n' nasc (Some MATRICULADO) c' now now
    /\ s' = with_alunos s (alunos s ++ [r]) (alunos_seq s + 1)
    /\ existsb (fun x => Aluno.id x =? alunos_seq s + 1) (alunos s) = false
    /\ class_exists s c' = true.
Proof.
  unfold insert_aluno.
  destruct (col_varchar 255 n) as [n'|]; [|intros [=]].
  destruct (col_integer c) as [c'|]; [|intros [=]].
  cbn [rbind]. destruct (existsb _ _) eqn:E; [intros [=]|].
  destruct (class_exists s c') eqn:C; [|intros [=]].
  simpl. intros [= <- <-]. exists n', c'. repeat split; assumption.
Qed.

(** X9. A POST /alunos that answers 201 stores one new student under the
    next id: the name and the class are the ones of the request as the
    columns store them, the class is one of the table, the date of birth is
    the parsed 'data_nascimento', the status is MATRICULADO whatever the
    request says about it, GET /alunos lists the student last, and the
    lookups of the other ids are unchanged. *)
Theorem criar_aluno_then_read (data : json) (now : Z) (s s' : db) (body : json) :
  criar_aluno data now s = (Response 201 body, s') ->
  exists r n c,
    body = Aluno.to_dict r
    /\ py_getitem data "nome" = Ok n /\ col_varchar 255 n = Ok (Aluno.nome r)
    /\ py_getitem data "classe_id" = Ok c /\ col_integer c = Ok (Aluno.classe_id r)
    /\ class_exists s (Aluno.classe_id r) = true
    /\ rbind (py_getitem data "data_nascimento") strptime
       = Ok (Aluno.data_nascimento r)
    /\ Aluno.status r = Some MATRICULADO
    /\ Aluno.id r = alunos_seq s + 1
    /\ s' = with_alunos s (alunos s ++ [r]) (alunos_seq s + 1)
    /\ find_aluno (Aluno.id r) s' = Some r
    /\ (forall j, j <> Aluno.id r -> find_aluno j s' = find_aluno j s)
    /\ listar_alunos s'
       = (Response 200 (JList (map Aluno.to_dict (alunos s) ++ [body])), s').
Proof.
  unfold criar_aluno.
  destruct (all_in ["nome"; "data_nascimento"; "classe_id"] data) as [ok|];
    [|discriminate].
  cbn [eval fbind]. destruct ok; [|discriminate]. cbn [negb].
  destruct (py_getitem data "nome") as [n|]; [|discriminate]. cbn [rbind].
  destruct (rbind (py_getitem data "data_nascimento") strptime) as [nasc|] eqn:En;
    [|discriminate].
  cbn [rbind].
  destruct (py_getitem data "classe_id") as [c|]; [|discriminate].
  cbn [rbind try_formato no_commit].
  destruct (insert_aluno n nasc c now s) as [[r|e] s1] eqn:I; [|discriminate].
  simpl. intros [= <- <-].
  apply insert_aluno_ok in I as (n' & c' & Hn & Hc & -> & -> & Eid & Hfk).
  destruct (find_appended Aluno.id (alunos s)
              (Aluno.mk (alunos_seq s + 1) n' nasc (Some MATRICULADO) c' now now)
              (alunos_seq s + 1) Eid eq_refl) as (F1 & F2 & F3).
  exists (Aluno.mk (alunos_seq s + 1) n' nasc (Some MATRICULADO) c' now now), n, c.
  cbn [Aluno.id Aluno.nome Aluno.classe_id Aluno.data_nascimento Aluno.status].
  repeat split; try assumption.
  unfold listar_alunos. cbn [alunos with_alunos]. now rewrite map_app.
Qed.

Lemma insert_frequencia_ok (c : json) (dia : date) (tb tp ta tv tg ps : json)
  (now : Z) (s s' : db) (r : Frequencia.t) :
  insert_frequencia c dia tb tp ta tv tg ps now s = (Ok r, s') ->
  exists c' tb' tp' ta' tv' tg' ps',
    col_integer c = Ok c'
    /\ col_default0 tb = Ok tb' /\ col_default0 tp = Ok tp'
    /\ col_default0 ta = Ok ta' /\ col_default0 tv = Ok tv'
    /\ col_default0 tg = Ok tg' /\ col_json ps = Ok ps'
    /\ r = Frequencia.mk (frequencias_seq s + 1) c' dia tb' tp' ta' tv' tg' ps' now now
    /\ s' = with_frequencias s (frequencias s ++ [r]) (frequencias_seq s + 1)
    /\ existsb (fun x => Frequencia.id x =? frequencias_seq s + 1) (frequencias s)
       = false
    /\ class_exists s c' = true.
Proof.
  unfold insert_frequencia.
  destruct (col_integer c) as [c'|]; [|intros [=]].
  destruct (col_default0 tb) as [tb'|]; [|intros [=]].
  destruct (col_default0 tp) as [tp'|]; [|intros [=]].
  destruct (col_default0 ta) as [ta'|]; [|intros [=]].
  destruct (col_default0 tv) as [tv'|]; [|intros [=]].
  destruct (col_default0 tg) as [tg'|]; [|intros [=]].
  destruct (col_json ps) as [ps'|]; [|intros [=]].
  cbn [rbind]. destruct (existsb _ _) eqn:E; [intros [=]|].
  cbn [Frequencia.classe_id].
  destruct (class_exists s c') eqn:C; [|intros [=]].
  simpl. intros [= <- <-].
  exists c', tb', tp', ta', tv', tg', ps'. repeat split; assumption.
Qed.

(** X10. A POST /frequencias that answers 201 stores one new record under
    the next id, for a class of the table and the parsed 'data'; GET
    /frequencias lists it last and the lookups of the other ids are
    unchanged.  Where the body is a mapping without 'presencas' the stored
    log is what the driver makes of the empty list, and without a count
    (here 'total_present') the stored count is what it makes of 0. *)
Theorem registrar_frequencia_then_read (data : json) (now : Z) (s s' : db)
  (body : json) :
  registrar_frequencia data now s = (Response 201 body, s') ->
  exists r c,
    body = frequencia_json r
    /\ py_getitem data "classe_id" = Ok c
    /\ col_integer c = Ok (Frequencia.classe_id r)
    /\ class_exists s (Frequencia.classe_id r) = true
    /\ rbind (py_getitem data "data") strptime = Ok (Frequencia.data r)
    /\ Frequencia.id r = frequencias_seq s + 1
    /\ s' = with_frequencias s (frequencias s ++ [r]) (frequencias_seq s + 1)
    /\ find_frequencia (Frequencia.id r) s' = Some r
    /\ (forall j, j <> Frequencia.id r -> find_frequencia j s' = find_frequencia j s)
    /\ listar_frequencias s'
       = (Response 200 (JList (map frequencia_json (frequencias s) ++ [body])), s')
    /\ (forall d, data = JDict d -> assoc "presencas" d = None ->
          col_json (JList []) = Ok (Frequencia.presencas r))
    /\ (forall d, data = JDict d -> assoc "total_present" d = None ->
          col_default0 (JInt 0) = Ok (Frequencia.total_present r)).
Proof.
  unfold registrar_frequencia.
  destruct (all_in ["classe_id"; "data"] data) as [ok|]; [|discriminate].
  cbn [eval fbind]. destruct ok; [|discriminate]. cbn [negb].
  destruct (py_getitem data "classe_id") as [c|]; [|discriminate]. cbn [rbind].
  destruct (rbind (py_getitem data "data") strptime) as [dia|] eqn:En;
    [|discriminate].
  cbn [rbind].
  destruct (py_get_default data "total_biblia" (JInt 0)) as [tb|] eqn:Gtb;
    [|discriminate]. cbn [rbind].
  destruct (py_get_default data "total_present" (JInt 0)) as [tp|] eqn:Gtp;
    [|discriminate]. cbn [rbind].
  destruct (py_get_default data "total_absent" (JInt 0)) as [ta|];
    [|discriminate]. cbn [rbind].
  destruct (py_get_default data "total_visitors" (JInt 0)) as [tv|];
    [|discriminate]. cbn [rbind].
  destruct (py_get_default data "total_general" (JInt 0)) as [tg|];
    [|discriminate]. cbn [rbind].
  destruct (py_get_default data "presencas" (JList [])) as [ps|] eqn:Gps;
    [|discriminate].
  cbn [rbind try_formato no_commit].
  destruct (insert_frequencia c dia tb tp ta tv tg ps now s) as [[r|e] s1] eqn:I;
    [|discriminate].
  simpl. intros [= <- <-].
  apply insert_frequencia_ok in I
    as (c' & tb' & tp' & ta' & tv' & tg' & ps' & Hc & Htb & Htp & Hta & Htv & Htg
        & Hps & -> & -> & Eid & Hfk).
  destruct (find_appended Frequencia.id (frequencias s)
              (Frequencia.mk (frequencias_seq s + 1) c' dia tb' tp' ta' tv' tg' ps'
                 now now)
              (frequencias_seq s + 1) Eid eq_refl) as (F1 & F2 & F3).
  exists (Frequencia.mk (frequencias_seq s + 1) c' dia tb' tp' ta' tv' tg' ps' now now), c.
  cbn [Frequencia.id Frequencia.classe_id Frequencia.data Frequencia.presencas
       Frequencia.total_present].
  repeat split; try assumption.
  - unfold listar_frequencias. cbn [frequencias with_frequencias].
    now rewrite map_app.
  - intros d -> Hd. simpl in Gps. rewrite Hd in Gps. now injection Gps as <-.
  - intros d -> Hd. simpl in Gtp. rewrite Hd in Gtp. now injection Gtp as <-.
Qed.
End CreationOfStudentsAndRecords.

(** A student for class 1 of the sample store, with a status in the body
    that the handler does not read. *)
Lemma criar_aluno_then_read_witness :
  exists r,
    fst (@criar_aluno strict_dbapi
           (JDict [("nome", JStr "Rui"); ("data_nascimento", JStr "2014-12-31");
                   ("classe_id", JInt 1); ("status", JStr "DESMATRICULADO")]) 9
           Sample.store)
    = Response 201 (Aluno.to_dict r)
    /\ Aluno.status r = Some MATRICULADO
    /\ Aluno.data_nascimento r = mkDate 2014 12 31.
Proof.
  destruct (@criar_aluno_then_read strict_dbapi
              (JDict [("nome", JStr "Rui"); ("data_nascimento", JStr "2014-12-31");
                      ("classe_id", JInt 1); ("status", JStr "DESMATRICULADO")]) 9
              Sample.store _ _ eq_refl)
    as (r & n & c & Hb & _ & _ & _ & _ & _ & Hd & Hst & _).
  exists r. split; [now rewrite <- Hb|]. split; [exact Hst|].
  now injection Hd.
Defined.

(** A record with the two required fields only. *)
Lemma registrar_frequencia_then_read_witness :
  exists r,
    fst (@registrar_frequencia strict_dbapi
           (JDict [("classe_id", JInt 1); ("data", JStr "2024-02-04")]) 9
           Sample.store)
    = Response 201 (frequencia_json r)
    /\ Frequencia.presencas r = JList []
    /\ Frequencia.total_present r = Some 0.
Proof.
  destruct (@registrar_frequencia_then_read strict_dbapi
              (JDict [("classe_id", JInt 1); ("data", JStr "2024-02-04")]) 9
              Sample.store _ _ eq_refl)
    as (r & c & Hb & _ & _ & _ & _ & _ & _ & _ & _ & _ & Hps & Htp).
  exists r. split; [now rewrite <- Hb|]. split.
  - specialize (Hps _ eq_refl eq_refl). now injection Hps.
  - specialize (Htp _ eq_refl eq_refl). now injection Htp.
Defined.

(** ** Deleting *)

Lemma find_filter_out {A} (idf : A -> Z) (rows : list A) (i j : Z) :
  find (fun x => idf x =? j) (filter (fun x => negb (idf x =? i)) rows)
  = if j =? i then None else find (fun x => idf x =? j) rows.
Proof.
  induction rows as [|x rows IH]; simpl; [now destruct (j =? i)|].
  destruct (idf x =? i) eqn:E; simpl.
  - rewrite IH. apply Z.eqb_eq in E.
    destruct (Z.eqb_spec j i) as [Ej|Nj]; [reflexivity|].
    destruct (Z.eqb_spec (idf x) j); [congruence | reflexivity].
  - apply Z.eqb_neq in E.
    destruct (Z.eqb_spec (idf x) j) as [Ej|Nj].
    + destruct (Z.eqb_spec j i); [congruence | reflexivity].
    + apply IH.
Qed.

Lemma find_some_id {A} (idf : A -> Z) (rows : list A) (i : Z) (r : A) :
  find (fun x => idf x =? i) rows = Some r -> In r rows /\ idf r = i.
Proof.
  intros H. apply find_some in H as [H1 H2]. apply Z.eqb_eq in H2. auto.
Qed.



(** X12. DELETE /classes/{id} on a class of the table that no student and no
    attendance record belongs to answers 200 and removes that class and no
    other: the id is found no more (a second DELETE is answered 404), every
    other id finds what it found, and GET /classes lists the classes without
    it. *)
Theorem deletar_classe_then_gone (i : Z) (s : db) (row : Classe.t) :
  find_classe i s = Some row ->
  existsb (fun a => Aluno.classe_id a =? i) (alunos s) = false ->
  existsb (fun f => Frequencia.classe_id f =? i) (frequencias s) = false ->
  exists s',
    deletar_classe i s = (Response 200 (msg "Classe deletada"), s')
    /\ find_classe i s' = None
    /\ (forall j, j <> i -> find_classe j s' = find_classe j s)
    /\ listar_classes s'
       = (Response 200
            (JList (map Classe.to_dict
                      (filter (fun c => negb (Classe.id c =? i)) (classes s)))), s')
    /\ deletar_classe i s' = (Abort 404, s').
Proof.
  intros Hrow Ha Hf.
  pose proof (find_some_id Classe.id (classes s) i row Hrow) as [_ Hid].
  unfold find_classe in *.
  eexists. split.
  { unfold deletar_classe, get_or_404. rewrite Hrow. cbn [no_commit].
    rewrite Hid, Ha, Hf. reflexivity. }
  assert (G : find (fun r => Classe.id r =? i)
                (filter (fun c => negb (Classe.id c =? i)) (classes s)) = None).
  { rewrite find_filter_out. now rewrite Z.eqb_refl. }
  cbn [classes with_classes]. split; [exact G|]. split.
  { intros j Hj. rewrite find_filter_out.
    destruct (Z.eqb_spec j i); [contradiction | reflexivity]. }
  split; [reflexivity|].
  unfold deletar_classe, get_or_404. cbn [classes with_classes]. now rewrite G.
Qed.

(** A second class that nobody belongs to, beside the one of the sample
    store. *)
Lemma deletar_classe_then_gone_witness :
  exists s',
    deletar_classe 2
      (with_classes Sample.store
         [Sample.kids; Classe.mk 2 "Kids B" "Maria" 9 9] 2)
    = (Response 200 (msg "Classe deletada"), s')
    /\ classes s' = [Sample.kids].
Proof.
  destruct (deletar_classe_then_gone 2
              (with_classes Sample.store
                 [Sample.kids; Classe.mk 2 "Kids B" "Maria" 9 9] 2)
              (Classe.mk 2 "Kids B" "Maria" 9 9) eq_refl eq_refl eq_refl)
    as (s' & H & _).
  exists s'. split; [exact H|]. now injection H as <-.
Defined.

Lemma filter_out_appended {A} (idf : A -> Z) (rows : list A) (r : A) (i : Z) :
  existsb (fun x => idf x =? i) rows = false -> idf r = i ->
  filter (fun x => negb (idf x =? i)) (rows ++ [r]) = rows.
Proof.
  intros Hn Hr. induction rows as [|x rows IH]; simpl in *.
  - now rewrite Hr, Z.eqb_refl.
  - apply orb_false_iff in Hn as [Hx Hn]. rewrite Hx. simpl. now rewrite IH.
Qed.

Lemma no_reference_to_fresh (s : db) (i : Z) :
  refs_ok s ->
  class_exists s i = false ->
  existsb (fun a => Aluno.classe_id a =? i) (alunos s) = false
  /\ existsb (fun f => Frequencia.classe_id f =? i) (frequencias s) = false.
Proof.
  intros [Ra Rf] Hi. split.
  - induction Ra as [|a l Ha _ IH]; [reflexivity|]. simpl. rewrite IH.
    destruct (Z.eqb_spec (Aluno.classe_id a) i) as [E|N]; [|reflexivity].
    rewrite E in Ha. congruence.
  - induction Rf as [|f l Hf _ IH]; [reflexivity|]. simpl. rewrite IH.
    destruct (Z.eqb_spec (Frequencia.classe_id f) i) as [E|N]; [|reflexivity].
    rewrite E in Hf. congruence.
Qed.

(** X13. Creating a class and deleting it again gives the tables back: in a
    database whose students and records all belong to classes of the table,
    after a POST /classes that answers 201 the DELETE of the new id answers
    200 and leaves the rows of every table as they were before the POST; the
    sequence alone remembers, so the id is not given again. *)
Theorem criar_then_deletar_classe {D : Dbapi} (data : json) (now : Z)
  (s s1 : db) (body : json) :
  refs_ok s ->
  criar_classe data now s = (Response 201 body, s1) ->
  exists s2,
    deletar_classe (classes_seq s + 1) s1 = (Response 200 (msg "Classe deletada"), s2)
    /\ same_rows s s2
    /\ classes_seq s2 = classes_seq s + 1
    /\ fst (listar_classes s2) = fst (listar_classes s).
Proof.
  intros R. unfold criar_classe.
  destruct (missing2_cases data "nome" "professor") as [[x Hx]|[e He]].
  2:{ rewrite He. discriminate. }
  rewrite Hx. cbn [fbind]. destruct x; [discriminate|].
  destruct (py_getitem data "nome") as [n|]; [|discriminate]. cbn [eval fbind].
  destruct (py_getitem data "professor") as [p|]; [|discriminate].
  cbn [eval fbind no_commit].
  destruct (insert_classe n p now s) as [[r|e] s'] eqn:I; [|discriminate].
  simpl. intros [= _ <-].
  apply insert_classe_ok in I as (n' & p' & _ & _ & -> & -> & Eid & _).
  destruct (no_reference_to_fresh s (classes_seq s + 1) R Eid) as [Na Nf].
  destruct (find_appended Classe.id (classes s)
              (Classe.mk (classes_seq s + 1) n' p' now now) (classes_seq s + 1)
              Eid eq_refl) as (_ & F2 & _).
  eexists. split.
  { unfold deletar_classe, get_or_404. cbn [classes with_classes].
    rewrite F2. cbn [no_commit Classe.id alunos frequencias with_classes].
    rewrite Na, Nf. reflexivity. }
  cbn [classes with_classes Classe.id classes_seq].
  rewrite (filter_out_appended Classe.id (classes s)
             (Classe.mk (classes_seq s + 1) n' p' now now) (classes_seq s + 1)
             Eid eq_refl).
  unfold same_rows, listar_classes. cbn. repeat split.
Qed.

(** A class for the sample store, created and deleted. *)
Lemma criar_then_deletar_classe_witness :
  exists s2,
    deletar_classe 2
      (snd (@criar_classe strict_dbapi
              (JDict [("nome", JStr "Kids B"); ("professor", JStr "Maria")]) 9
              Sample.store))
    = (Response 200 (msg "Classe deletada"), s2)
    /\ same_rows Sample.store s2.
Proof.
  destruct (@criar_then_deletar_classe strict_dbapi
              (JDict [("nome", JStr "Kids B"); ("professor", JStr "Maria")]) 9
              Sample.store _ _
              ltac:(split; repeat constructor) eq_refl)
    as (s2 & H & R & _).
  exists s2. split; [exact H | exact R].
Defined.

(** ** Sending the current values *)

(** X14. A PUT /classes/{id} whose body names no field, or names 'nome' and
    'professor' with the strings that are stored, writes nothing: the answer
    is 200 with the class as it is, and the database, the update time of the
    class included, is the one before.  The representation that GET /classes
    gives of a class is such a body. *)
Theorem atualizar_classe_same_values {D : Dbapi} (i : Z) (d : list (string * json))
  (now : Z) (s : db) (row : Classe.t) :
  find_classe i s = Some row ->
  (forall v, assoc "nome" d = Some v -> v = JStr (Classe.nome row)) ->
  (forall v, assoc "professor" d = Some v -> v = JStr (Classe.professor row)) ->
  atualizar_classe i (JDict d) now s = (Response 200 (Classe.to_dict row), s)
  /\ atualizar_classe i (Classe.to_dict row) now s
     = (Response 200 (Classe.to_dict row), s).
Proof.
  intros Hrow Hn Hp.
  assert (G : forall d', (forall v, assoc "nome" d' = Some v -> v = JStr (Classe.nome row)) ->
                         (forall v, assoc "professor" d' = Some v ->
                                    v = JStr (Classe.professor row)) ->
                         atualizar_classe i (JDict d') now s
                         = (Response 200 (Classe.to_dict row), s)).
  { intros d' Hn' Hp'.
    rewrite (atualizar_classe_dict i d' now s row Hrow).
    unfold update_classe, classe_after, changed_str, changed.
    cbn [Classe.row Classe.new_nome Classe.new_professor].
    destruct (assoc "nome" d') as [v|].
    - rewrite (Hn' v eq_refl). cbn [py_eq_str]. rewrite String.eqb_refl.
      destruct (assoc "professor" d') as [w|]; [|reflexivity].
      rewrite (Hp' w eq_refl). cbn [py_eq_str]. now rewrite String.eqb_refl.
    - destruct (assoc "professor" d') as [w|]; [|reflexivity].
      rewrite (Hp' w eq_refl). cbn [py_eq_str]. now rewrite String.eqb_refl. }
  split; [now apply G|].
  unfold Classe.to_dict. apply G; cbn; intros v [= <-]; reflexivity.
Qed.

(** The class of the sample store, sent back as GET gave it. *)
Lemma atualizar_classe_same_values_witness :
  @atualizar_classe strict_dbapi 1 (Classe.to_dict Sample.kids) 77 Sample.store
  = (Response 200 (Classe.to_dict Sample.kids), Sample.store).
Proof.
  apply (@atualizar_classe_same_values strict_dbapi 1 [] 77 Sample.store Sample.kids);
    [reflexivity | discriminate | discriminate].
Defined.

(** ** All or nothing *)

Lemma same_rows_refl (s : db) : same_rows s s.
Proof. repeat split. Qed.

Section AllOrNothing.
Context {D : Dbapi} {W : Werkzeug} {J : Jwt}.
Variable key : string.

(** A flush that raises has written no row. *)
Lemma update_classe_raise (o : Classe.obj) (now : Z) (s s' : db) (e : exn) :
  update_classe o now s = (Raise e, s') -> s' = s.
Proof.
  unfold update_classe.
  destruct (negb _); [intros [=]|].
  destruct (rbind _ _) as [[n p]|]; [|now intros [= _ <-]].
  destruct (_ && _); intros [=]; subst; reflexivity.
Qed.

Lemma update_aluno_raise (o : Aluno.obj) (now : Z) (s s' : db) (e : exn) :
  update_aluno o now s = (Raise e, s') -> s' = s.
Proof.
  unfold update_aluno.
  destruct (negb _); [intros [=]|].
  destruct (rbind _ _) as [[[n c] st]|]; [|now intros [= _ <-]].
  destruct (_ && _); intros [=]; subst; reflexivity.
Qed.

Lemma update_frequencia_raise (o : Frequencia.obj) (now : Z) (s s' : db) (e : exn) :
  update_frequencia o now s = (Raise e, s') -> s' = s.
Proof.
  unfold update_frequencia.
  destruct (negb _); [intros [=]|].
  destruct (rbind _ _) as [r|]; [|now intros [= _ <-]].
  destruct (_ && _); intros [=]; subst; reflexivity.
Qed.

Lemma insert_user_raise (u : json) (h : string) (now : Z) (s s' : db) (e : exn) :
  insert_user u h now s = (Raise e, s') -> same_rows s s'.
Proof.
  unfold insert_user.
  destruct (rbind _ _) as [[a b]|]; [|intros [= _ <-]; apply same_rows_refl].
  destruct (existsb _ _); intros [=]; subst. repeat split.
Qed.

Lemma insert_classe_raise (n p : json) (now : Z) (s s' : db) (e : exn) :
  insert_classe n p now s = (Raise e, s') -> same_rows s s'.
Proof.
  unfold insert_classe.
  destruct (rbind _ _) as [[a b]|]; [|intros [= _ <-]; apply same_rows_refl].
  destruct (existsb _ _); intros [=]; subst. repeat split.
Qed.

Lemma insert_aluno_raise (n : json) (d : date) (c : json) (now : Z) (s s' : db)
  (e : exn) :
  insert_aluno n d c now s = (Raise e, s') -> same_rows s s'.
Proof.
  unfold insert_aluno.
  destruct (rbind _ _) as [[a b]|]; [|intros [= _ <-]; apply same_rows_refl].
  destruct (existsb _ _); [intros [=]; subst; repeat split|].
  destruct (negb _); intros [=]; subst. repeat split.
Qed.

Lemma insert_frequencia_raise (c : json) (d : date) (tb tp ta tv tg ps : json)
  (now : Z) (s s' : db) (e : exn) :
  insert_frequencia c d tb tp ta tv tg ps now s = (Raise e, s') -> same_rows s s'.
Proof.
  unfold insert_frequencia.
  destruct (rbind _ _) as [r|]; [|intros [= _ <-]; apply same_rows_refl].
  destruct (existsb _ _); [intros [=]; subst; repeat split|].
  destruct (negb _); intros [=]; subst. repeat split.
Qed.

(** The two ways a handler ends: before its commit, with the database as it
    was, or in what its commit made. *)
Lemma no_commit_cases {A} (m : flow A) (s : db) (k : A -> outcome * db) :
  snd (no_commit m s k) = s \/ exists a, m = Go a /\ no_commit m s k = k a.
Proof. destruct m; simpl; auto. right. now exists a. Qed.

Lemma committed_cases {A} (st : Z) (f : A -> json) (w : result A * db) :
  (exists r, fst w = Ok r /\ status_code (fst (committed st f w)) = st)
  \/ (exists e, fst w = Raise e).
Proof. destruct w as [[r|e] s1]; simpl; [left | right]; now eexists. Qed.

Lemma atualizar_classe_or_nothing (i : Z) (data : json) (now : Z) (s : db) :
  status_code (fst (atualizar_classe i data now s)) <> 200 ->
  snd (atualizar_classe i data now s) = s.
Proof.
  unfold atualizar_classe. intros H.
  destruct (no_commit_cases
              (row <- get_or_404 Classe.id (classes s) i ;;
               classe <- assign_if_present "nome" data Classe.set_nome (Classe.load row) ;;
               assign_if_present "professor" data Classe.set_professor classe)
              s (fun classe => committed 200 Classe.to_dict (update_classe classe now s)))
    as [E|(o & _ & E)]; [exact E|].
  rewrite E in *. destruct (update_classe o now s) as [[r|e] s1] eqn:U; simpl in *.
  - congruence.
  - now apply update_classe_raise in U.
Qed.

Lemma atualizar_aluno_or_nothing (i : Z) (data : json) (now : Z) (s : db) :
  status_code (fst (atualizar_aluno i data now s)) <> 200 ->
  snd (atualizar_aluno i data now s) = s.
Proof.
  unfold atualizar_aluno. intros H.
  match goal with
  | |- snd (no_commit ?m s ?k) = s =>
      destruct (no_commit_cases m s k) as [E|(o & _ & E)]; [exact E|]
  end.
  rewrite E in *. destruct (update_aluno o now s) as [[r|e] s1] eqn:U; simpl in *.
  - congruence.
  - now apply update_aluno_raise in U.
Qed.

Lemma atualizar_frequencia_or_nothing (i : Z) (data : json) (now : Z) (s : db) :
  status_code (fst (atualizar_frequencia i data now s)) <> 200 ->
  snd (atualizar_frequencia i data now s) = s.
Proof.
  unfold atualizar_frequencia. intros H.
  match goal with
  | |- snd (no_commit ?m s ?k) = s =>
      destruct (no_commit_cases m s k) as [E|(o & _ & E)]; [exact E|]
  end.
  rewrite E in *. destruct (update_frequencia o now s) as [[r|e] s1] eqn:U; simpl in *.
  - congruence.
  - now apply update_frequencia_raise in U.
Qed.

Lemma deletar_or_nothing (i : Z) (s : db) :
  (status_code (fst (deletar_classe i s)) <> 200 -> snd (deletar_classe i s) = s)
  /\ (status_code (fst (deletar_aluno i s)) <> 200 -> snd (deletar_aluno i s) = s)
  /\ (status_code (fst (deletar_frequencia i s)) <> 200 ->
      snd (deletar_frequencia i s) = s).
Proof.
  unfold deletar_classe, deletar_aluno, deletar_frequencia, get_or_404.
  split; [|split].
  - destruct (find _ (classes s)); simpl; [|reflexivity].
    destruct (_ || _); simpl; [reflexivity | congruence].
  - destruct (find _ (alunos s)); simpl; [congruence | reflexivity].
  - destruct (find _ (frequencias s)); simpl; [congruence | reflexivity].
Qed.

Lemma register_or_nothing (data : json) (now : Z) (s : db) :
  status_code (fst (register data now s)) <> 201 ->
  same_rows s (snd (register data now s)).
Proof.
  unfold register. intros H.
  match goal with
  | |- same_rows s (snd (no_commit ?m s ?k)) =>
      destruct (no_commit_cases m s k) as [E|([u h] & _ & E)];
        [rewrite E; apply same_rows_refl|]
  end.
  rewrite E in *. destruct (insert_user u h now s) as [[r|e] s1] eqn:I; simpl in *.
  - congruence.
  - now apply insert_user_raise in I.
Qed.

Lemma criar_classe_or_nothing (data : json) (now : Z) (s : db) :
  status_code (fst (criar_classe data now s)) <> 201 ->
  same_rows s (snd (criar_classe data now s)).
Proof.
  unfold criar_classe. intros H.
  match goal with
  | |- same_rows s (snd (no_commit ?m s ?k)) =>
      destruct (no_commit_cases m s k) as [E|([n p] & _ & E)];
        [rewrite E; apply same_rows_refl|]
  end.
  rewrite E in *. destruct (insert_classe n p now s) as [[r|e] s1] eqn:I; simpl in *.
  - congruence.
  - now apply insert_classe_raise in I.
Qed.

Lemma criar_aluno_or_nothing (data : json) (now : Z) (s : db) :
  status_code (fst (criar_aluno data now s)) <> 201 ->
  same_rows s (snd (criar_aluno data now s)).
Proof.
  unfold criar_aluno. intros H.
  match goal with
  | |- same_rows s (snd (no_commit ?m s ?k)) =>
      destruct (no_commit_cases m s k) as [E|([[n d] c] & _ & E)];
        [rewrite E; apply same_rows_refl|]
  end.
  rewrite E in *. destruct (insert_aluno n d c now s) as [[r|e] s1] eqn:I; simpl in *.
  - congruence.
  - now apply insert_aluno_raise in I.
Qed.

Lemma registrar_frequencia_or_nothing (data : json) (now : Z) (s : db) :
  status_code (fst (registrar_frequencia data now s)) <> 201 ->
  same_rows s (snd (registrar_frequencia data now s)).
Proof.
  unfold registrar_frequencia.
  destruct (all_in ["classe_id"; "data"] data) as [ok|];
    [|intros _; apply same_rows_refl].
  cbn [eval fbind]. destruct ok; [|intros _; apply same_rows_refl]. cbn [negb].
  repeat match goal with
         | |- context [rbind ?x _] =>
             destruct x; cbn [rbind]; [|intros _; apply same_rows_refl]
         end.
  cbn [try_formato no_commit].
  match goal with
  | |- context [insert_frequencia ?c ?d ?tb ?tp ?ta ?tv ?tg ?ps now s] =>
      destruct (insert_frequencia c d tb tp ta tv tg ps now s) as [[r|e] s1] eqn:I
  end; simpl.
  - congruence.
  - intros _. now apply insert_frequencia_raise in I.
Qed.

(** X15. Every write is all or nothing on the rows: a PUT or DELETE that is
    not answered 200 (a 400, a 401, a 404, a fault at the commit) leaves the
    database as it was, and a POST that is not answered 201 leaves the rows
    of every table as they were (a refused INSERT may still have taken a
    value of the id sequence). *)
Theorem writes_all_or_nothing (authorization : option string) (now : Z)
  (hoje : date) (e : endpoint) (s : db) :
  (is_update e || is_delete e = true ->
   status_code (fst (route key authorization now hoje e s)) <> 200 ->
   snd (route key authorization now hoje e s) = s)
  /\ (is_create e = true ->
      status_code (fst (route key authorization now hoje e s)) <> 201 ->
      same_rows s (snd (route key authorization now hoje e s))).
Proof.
  pose proof (deletar_or_nothing) as Del.
  split; intros He; destruct e; try discriminate He; cbn [route];
    try (apply register_or_nothing);
    match goal with
    | |- context [jwt_required key authorization now ?f s] =>
        destruct (jwt_required_runs J key authorization now f s)
          as [[who ->]|(st & b & -> & _)];
          [|intros _; first [reflexivity | apply same_rows_refl]]
    | _ => idtac
    end.
  - apply atualizar_classe_or_nothing.
  - apply (Del classe_id s).
  - apply atualizar_aluno_or_nothing.
  - apply (Del aluno_id s).
  - apply atualizar_frequencia_or_nothing.
  - apply (Del frequencia_id s).
  - apply criar_classe_or_nothing.
  - apply criar_aluno_or_nothing.
  - apply registrar_frequencia_or_nothing.
Qed.
End AllOrNothing.

(** A new class under the name of the class that exists: the unique index
    refuses the INSERT, the request ends as a fault, the rows stay. *)
Lemma writes_all_or_nothing_witness :
  same_rows Sample.store
    (snd (@route strict_dbapi plain_werkzeug toy_jwt "k"
            (Some "Bearer k.1.0.0.1000") 100 (mkDate 2024 1 7)
            (EpCriarClasse (JDict [("nome", JStr "Kids A"); ("professor", JStr "Ana")]))
            Sample.store)).
Proof.
  apply (proj2 (@writes_all_or_nothing strict_dbapi plain_werkzeug toy_jwt "k"
                  (Some "Bearer k.1.0.0.1000") 100 (mkDate 2024 1 7)
                  (EpCriarClasse (JDict [("nome", JStr "Kids A");
                                         ("professor", JStr "Ana")]))
                  Sample.store)).
  - reflexivity.
  - vm_compute. discriminate.
Defined.

(** ** Registering *)

Lemma find_app_last {A} (p : A -> bool) (l : list A) (r : A) :
  existsb p l = false -> p r = true -> find p (l ++ [r]) = Some r.
Proof.
  intros Hn Hr. induction l as [|x l IH]; simpl in *.
  - now rewrite Hr.
  - apply orb_false_iff in Hn as [Hx Hn]. rewrite Hx. now apply IH.
Qed.

Section Registering.
Context {D : Dbapi} {W : Werkzeug} {J : Jwt}.
Variable key : string.

Lemma col_varchar_bound (n : Z) (v : json) (u : string) :
  col_varchar n v = Ok u -> v <> JNull /\ bind_varchar n v = Some u.
Proof.
  unfold col_varchar. destruct v; try discriminate;
    (destruct (bind_varchar n _) as [x|]; [|discriminate]);
    intros [= <-]; split; congruence.
Qed.

Lemma insert_user_ok (uname : json) (h : string) (now : Z) (s s' : db) (r : User.t) :
  insert_user uname h now s = (Ok r, s') ->
  exists u h',
    col_varchar 80 uname = Ok u /\ col_varchar 128 (JStr h) = Ok h'
    /\ r = User.mk (users_seq s + 1) u h' now
    /\ s' = with_users s (users s ++ [r]) (users_seq s + 1)
    /\ existsb (fun x => String.eqb (User.username x) u) (users s) = false.
Proof.
  unfold insert_user.
  destruct (col_varchar 80 uname) as [u|]; [|intros [=]].
  destruct (col_varchar 128 (JStr h)) as [h'|]; [|intros [=]].
  cbn [rbind]. destruct (existsb _ _) eqn:E; [intros [=]|].
  intros [= <- <-]. apply existsb_or_false in E as [_ E2].
  exists u, h'. repeat split; assumption.
Qed.

(** What a registration that answers 201 went through. *)
Lemma register_201 (data : json) (now : Z) (s s' : db) (body : json) :
  register data now s = (Response 201 body, s') ->
  exists uname pw h r,
    missing2 data "username" "password" = Go false
    /\ py_getitem data "username" = Ok uname
    /\ py_getitem data "password" = Ok pw
    /\ generate_password_hash pw = Ok h
    /\ insert_user uname h now s = (Ok r, s')
    /\ body = User.to_dict r.
Proof.
  unfold register.
  destruct (missing2_cases data "username" "password") as [[x Hx]|[e He]].
  2:{ rewrite He. discriminate. }
  rewrite Hx. cbn [fbind]. destruct x; [discriminate|].
  destruct (py_getitem data "username") as [uname|]; [|discriminate].
  cbn [eval fbind].
  destruct (find_user uname s) as [found|]; [|discriminate]. cbn [eval fbind].
  destruct (is_some found); [discriminate|].
  destruct (py_getitem data "password") as [pw|]; [|discriminate].
  cbn [eval fbind].
  destruct (generate_password_hash pw) as [h|] eqn:G; [|discriminate].
  cbn [eval fbind no_commit].
  destruct (insert_user uname h now s) as [[r|e] s1] eqn:I; [|discriminate].
  simpl. intros [= <- <-]. now exists uname, pw, h, r.
Qed.

(** X16. After a registration that answers 201, a registration under the
    same username, with whatever password, at whatever later time, is
    answered 400 'Username já existe' and writes nothing (for a driver that
    compares a value with the text it stores for it). *)
Theorem register_twice (data data2 : json) (now now2 : Z) (s s' : db) (body : json) :
  text_coherent D ->
  register data now s = (Response 201 body, s') ->
  missing2 data2 "username" "password" = Go false ->
  py_getitem data2 "username" = py_getitem data "username" ->
  register data2 now2 s' = (Response 400 (msg "Username já existe"), s').
Proof.
  intros [Coh _] H M2 U2.
  apply register_201 in H as (uname & pw & h & r & _ & Gu & _ & _ & I & _).
  apply insert_user_ok in I as (u & h' & Hu & _ & -> & -> & _).
  apply col_varchar_bound in Hu as [Hnn Hb]. apply Coh in Hb.
  unfold register. rewrite M2. cbn [fbind]. rewrite U2, Gu. cbn [eval fbind].
  assert (F : exists x, find_user uname
                          (with_users s (users s ++ [User.mk (users_seq s + 1) u h' now])
                             (users_seq s + 1)) = Ok (Some x)).
  { unfold find_user. rewrite Hb. cbn [users with_users].
    destruct (find _ _) as [x|] eqn:E.
    - exists x. now destruct uname.
    - exfalso.
      pose proof (find_none _ _ E (User.mk (users_seq s + 1) u h' now)
                    ltac:(apply in_or_app; right; now left)) as N.
      cbn in N. now rewrite String.eqb_refl in N. }
  destruct F as [x ->]. reflexivity.
Qed.

(** X17. A registration that answers 201 makes the login work: the same body
    sent to /login, at whatever time, is answered 200 with a token for the id
    that the registration returned (for a driver that stores text as it is
    and a hash that verifies the password it was made from). *)
Theorem register_then_login (data : json) (now now2 : Z) (s s' : db) (body : json) :
  text_coherent D ->
  hash_verifies W ->
  register data now s = (Response 201 body, s') ->
  exists r,
    body = User.to_dict r
    /\ User.id r = users_seq s + 1
    /\ login key data now2 s'
       = (Response 200
            (JDict [("access_token",
                     JStr (create_access_token key (User.id r) one_hour now2))]),
          s').
Proof.
  intros [Coh Txt] Hash H.
  apply register_201 in H as (uname & pw & h & r & M & Gu & Gp & Gh & I & ->).
  apply insert_user_ok in I as (u & h' & Hu & Hh & -> & -> & Fresh).
  apply col_varchar_bound in Hu as [Hnn Hb]. apply Coh in Hb.
  apply col_varchar_bound in Hh as [_ Hh]. apply Txt in Hh. subst h'.
  exists (User.mk (users_seq s + 1) u h now). split; [reflexivity|].
  split; [reflexivity|].
  unfold login. rewrite M. cbn [fbind]. rewrite Gu. cbn [eval fbind].
  assert (F : find_user uname
                (with_users s (users s ++ [User.mk (users_seq s + 1) u h now])
                   (users_seq s + 1))
              = Ok (Some (User.mk (users_seq s + 1) u h now))).
  { unfold find_user. rewrite Hb. cbn [users with_users].
    rewrite (find_app_last _ (users s) (User.mk (users_seq s + 1) u h now) Fresh).
    - now destruct uname.
    - cbn. apply String.eqb_refl. }
  rewrite F. cbn [eval fbind]. rewrite Gp. cbn [eval fbind User.password_hash].
  rewrite (Hash pw h Gh). reflexivity.
Qed.
End Registering.

Lemma strict_dbapi_coherent : text_coherent strict_dbapi.
Proof.
  split.
  - intros n v u. destruct v; simpl; try discriminate.
    destruct (_ <=? _); [now intros [= <-] | discriminate].
  - intros n t u. simpl. destruct (_ <=? _); [now intros [= <-] | discriminate].
Qed.

Lemma plain_werkzeug_verifies : hash_verifies plain_werkzeug.
Proof.
  intros pw h. destruct pw; simpl; try discriminate.
  intros [= <-]. now rewrite String.eqb_refl.
Qed.

(** eve registers on the store that holds bob; eve again is refused. *)
Lemma register_twice_witness :
  @register strict_dbapi plain_werkzeug (JDict (credentials "eve" "outra")) 8
    (snd (@register strict_dbapi plain_werkzeug (JDict (credentials "eve" "x")) 5
            store_bob))
  = (Response 400 (msg "Username já existe"),
     snd (@register strict_dbapi plain_werkzeug (JDict (credentials "eve" "x")) 5
            store_bob)).
Proof.
  apply (@register_twice strict_dbapi plain_werkzeug
           (JDict (credentials "eve" "x")) (JDict (credentials "eve" "outra")) 5 8
           store_bob _ (User.to_dict (User.mk 2 "eve" "x" 5))
           strict_dbapi_coherent);
    reflexivity.
Defined.

(** eve registers, then logs in. *)
Lemma register_then_login_witness :
  exists r,
    User.id r = 2
    /\ fst (@login strict_dbapi plain_werkzeug toy_jwt "k"
              (JDict (credentials "eve" "x")) 60
              (snd (@register strict_dbapi plain_werkzeug
                      (JDict (credentials "eve" "x")) 5 store_bob)))
       = Response 200 (JDict [("access_token", JStr "k.2.60.60.3660")]).
Proof.
  destruct (@register_then_login strict_dbapi plain_werkzeug toy_jwt "k"
              (JDict (credentials "eve" "x")) 5 60 store_bob _ _
              strict_dbapi_coherent plain_werkzeug_verifies eq_refl)
    as (r & _ & Hid & Hl).
  exists r. split; [exact Hid|]. reflexivity.
Defined.

(** ** What the tables keep *)

Lemma map_id_update_row {A} (idf : A -> Z) (i : Z) (r' : A) (rows : list A) :
  idf r' = i -> map idf (update_row idf i r' rows) = map idf rows.
Proof.
  intros H. unfold update_row. rewrite map_map. apply map_ext_in.
  intros x _. destruct (Z.eqb_spec (idf x) i); congruence.
Qed.

Lemma update_row_absent {A} (idf : A -> Z) (i : Z) (r' : A) (rows : list A) :
  ~ In i (map idf rows) -> update_row idf i r' rows = rows.
Proof.
  induction rows as [|x rows IH]; simpl; intros H; [reflexivity|].
  destruct (Z.eqb_spec (idf x) i) as [E|N]; [exfalso; auto|].
  rewrite IH; auto.
Qed.

Lemma in_update_row {A} (idf : A -> Z) (i : Z) (r' : A) (rows : list A) (y : A) :
  In y (update_row idf i r' rows) -> y = r' \/ (In y rows /\ idf y <> i).
Proof.
  unfold update_row. rewrite in_map_iff. intros (x & Hx & Hin).
  destruct (Z.eqb_spec (idf x) i); subst; auto.
Qed.

Lemma nodup_update_row {A B} (idf : A -> Z) (f : A -> B) (i : Z) (r' : A)
  (rows : list A) :
  NoDup (map f rows) -> NoDup (map idf rows) -> idf r' = i ->
  (forall x, In x rows -> idf x <> i -> f x <> f r') ->
  NoDup (map f (update_row idf i r' rows)).
Proof.
  intros Hf Hid Hr Hfresh. induction rows as [|x rows IH]; simpl; [constructor|].
  inversion Hf as [|? ? Hfx Hf']; subst. inversion Hid as [|? ? Hix Hid']; subst.
  destruct (Z.eqb_spec (idf x) (idf r')) as [E|N].
  - rewrite update_row_absent by (now rewrite <- E).
    constructor; [|assumption].
    rewrite in_map_iff. intros (y & Hy & Hin).
    apply (Hfresh y); [now right | | assumption].
    intros Ey. apply Hix. rewrite E, <- Ey. now apply in_map.
  - constructor.
    + rewrite in_map_iff. intros (y & Hy & Hin).
      apply in_update_row in Hin as [->|[Hin _]].
      * apply (Hfresh x); [now left | assumption | now symmetry].
      * apply Hfx. rewrite <- Hy. now apply in_map.
    + apply IH; auto. intros y Hy. apply Hfresh. now right.
Qed.

Lemma nodup_map_filter {A B} (f : A -> B) (p : A -> bool) (rows : list A) :
  NoDup (map f rows) -> NoDup (map f (filter p rows)).
Proof.
  induction rows as [|x rows IH]; simpl; intros H; [constructor|].
  inversion H as [|? ? Hx H']; subst.
  destruct (p x); simpl; [|auto]. constructor; [|auto].
  rewrite in_map_iff. intros (y & Hy & Hin). apply filter_In in Hin as [Hin _].
  apply Hx. rewrite <- Hy. now apply in_map.
Qed.

Lemma nodup_map_append {A B} (f : A -> B) (rows : list A) (r : A) :
  NoDup (map f rows) -> ~ In (f r) (map f rows) -> NoDup (map f (rows ++ [r])).
Proof.
  intros H Hn. rewrite map_app. simpl.
  apply NoDup_app; [assumption | repeat constructor; auto |].
  intros b Hb [<-|[]]. contradiction.
Qed.

Lemma nodup_map_injective {A B} (f : A -> B) (rows : list A) (x y : A) :
  NoDup (map f rows) -> In x rows -> In y rows -> f x = f y -> x = y.
Proof.
  induction rows as [|z rows IH]; simpl; intros H Hx Hy E; [contradiction|].
  inversion H as [|? ? Hz H']; subst.
  destruct Hx as [->|Hx], Hy as [->|Hy]; auto.
  - exfalso. apply Hz. rewrite E. now apply in_map.
  - exfalso. apply Hz. rewrite <- E. now apply in_map.
Qed.

Lemma table_ok_bump {A} (idf : A -> Z) (rows : list A) (seq : Z) :
  table_ok idf rows seq -> table_ok idf rows (seq + 1).
Proof.
  intros [H1 H2]. split; [assumption|].
  eapply Forall_impl; [|exact H2]. simpl. intros; lia.
Qed.

Lemma table_ok_append {A} (idf : A -> Z) (rows : list A) (seq : Z) (r : A) :
  table_ok idf rows seq -> idf r = seq + 1 -> table_ok idf (rows ++ [r]) (seq + 1).
Proof.
  intros [H1 H2] Hr. split.
  - apply nodup_map_append; [assumption|].
    rewrite in_map_iff. intros (x & Hx & Hin).
    rewrite Forall_forall in H2. specialize (H2 x Hin). lia.
  - apply Forall_app. split.
    + eapply Forall_impl; [|exact H2]. simpl. intros; lia.
    + repeat constructor. lia.
Qed.

Lemma table_ok_update_row {A} (idf : A -> Z) (rows : list A) (seq i : Z) (r' : A) :
  table_ok idf rows seq -> idf r' = i -> In i (map idf rows) ->
  table_ok idf (update_row idf i r' rows) seq.
Proof.
  intros [H1 H2] Hr Hin. split.
  - now rewrite map_id_update_row.
  - rewrite Forall_forall in *. intros y Hy.
    apply in_update_row in Hy as [->|[Hy _]]; [|auto].
    apply in_map_iff in Hin as (x & Hx & Hxin). rewrite Hr, <- Hx. auto.
Qed.

Lemma table_ok_filter {A} (idf : A -> Z) (p : A -> bool) (rows : list A) (seq : Z) :
  table_ok idf rows seq -> table_ok idf (filter p rows) seq.
Proof.
  intros [H1 H2]. split; [now apply nodup_map_filter|].
  rewrite Forall_forall in *. intros y Hy. apply filter_In in Hy as [Hy _]. auto.
Qed.

Lemma existsb_false_not_in {A B} (f : A -> B) (eqb : B -> B -> bool) (v : B)
  (rows : list A) :
  (forall a b, eqb a b = true <-> a = b) ->
  existsb (fun x => eqb (f x) v) rows = false -> ~ In v (map f rows).
Proof.
  intros Heq H Hin. apply in_map_iff in Hin as (x & Hx & Hin).
  assert (E : existsb (fun x => eqb (f x) v) rows = true).
  { apply existsb_exists. exists x. split; [assumption|]. now apply Heq. }
  congruence.
Qed.

Lemma fbind_go {A B} (m : flow A) (k : A -> flow B) (b : B) :
  fbind m k = Go b -> exists a, m = Go a /\ k a = Go b.
Proof. destruct m; simpl; try discriminate. intros H. now exists a. Qed.

Lemma get_or_404_go {A} (idf : A -> Z) (rows : list A) (i : Z) (r : A) :
  get_or_404 idf rows i = Go r -> In r rows /\ idf r = i.
Proof.
  unfold get_or_404. destruct (find _ rows) as [x|] eqn:E; [|discriminate].
  intros [= <-]. now apply find_some_id in E.
Qed.

(** An assignment touches an attribute of the session object, never the row
    it was loaded from. *)
Lemma assign_if_present_row {O R} (rowf : O -> R) (k : string) (data : json)
  (set : json -> O -> O) (o o' : O) :
  (forall v x, rowf (set v x) = rowf x) ->
  assign_if_present k data set o = Go o' -> rowf o' = rowf o.
Proof.
  intros Hset. unfold assign_if_present.
  destruct (py_in k data) as [b|]; [|discriminate]. cbn [eval fbind].
  destruct b; [|now intros [= <-]].
  destruct (py_getitem data k) as [v|]; [|discriminate]. cbn [eval fbind].
  intros [= <-]. apply Hset.
Qed.

Lemma assign_date_if_present_row {O R} (rowf : O -> R) (k : string) (data : json)
  (set : date -> O -> O) (o o' : O) :
  (forall v x, rowf (set v x) = rowf x) ->
  assign_date_if_present k data set o = Go o' -> rowf o' = rowf o.
Proof.
  intros Hset. unfold assign_date_if_present.
  destruct (py_in k data) as [b|]; [|discriminate]. cbn [eval fbind].
  destruct b; [|now intros [= <-]].
  destruct (rbind (py_getitem data k) strptime) as [v|]; [|discriminate].
  cbn [try_formato fbind]. intros [= <-]. apply Hset.
Qed.

Ltac follow_assignments :=
  repeat match goal with
         | H : fbind _ _ = Go _ |- _ =>
             let a := fresh "o" in
             let H1 := fresh "Hstep" in
             let H2 := fresh "Hrest" in
             apply fbind_go in H as (a & H1 & H2)
         | H : assign_if_present _ _ _ _ = Go _ |- _ =>
             apply (assign_if_present_row Classe.row) in H; [|reflexivity]
         | H : assign_if_present _ _ _ _ = Go _ |- _ =>
             apply (assign_if_present_row Aluno.row) in H; [|reflexivity]
         | H : assign_if_present _ _ _ _ = Go _ |- _ =>
             apply (assign_if_present_row Frequencia.row) in H; [|reflexivity]
         | H : assign_date_if_present _ _ _ _ = Go _ |- _ =>
             apply (assign_date_if_present_row Aluno.row) in H; [|reflexivity]
         | H : assign_date_if_present _ _ _ _ = Go _ |- _ =>
             apply (assign_date_if_present_row Frequencia.row) in H; [|reflexivity]
         end.

(** The object that reaches the commit of a PUT was loaded from the table
    under the id of the request. *)
Lemma atualizar_classe_loaded (i : Z) (data : json) (s : db) (o : Classe.obj) :
  (row <- get_or_404 Classe.id (classes s) i ;;
   classe <- assign_if_present "nome" data Classe.set_nome (Classe.load row) ;;
   assign_if_present "professor" data Classe.set_professor classe) = Go o ->
  In (Classe.row o) (classes s) /\ Classe.id (Classe.row o) = i.
Proof.
  intros H. follow_assignments.
  apply get_or_404_go in Hstep. cbn in *. congruence.
Qed.

Lemma atualizar_aluno_loaded (i : Z) (data : json) (s : db) (o : Aluno.obj) :
  (row <- get_or_404 Aluno.id (alunos s) i ;;
   aluno <- assign_if_present "nome" data Aluno.set_nome (Aluno.load row) ;;
   aluno <- assign_date_if_present "data_nascimento" data
              Aluno.set_data_nascimento aluno ;;
   aluno <- assign_if_present "classe_id" data Aluno.set_classe_id aluno ;;
   assign_if_present "status" data Aluno.set_status aluno) = Go o ->
  In (Aluno.row o) (alunos s) /\ Aluno.id (Aluno.row o) = i.
Proof.
  intros H. follow_assignments.
  apply get_or_404_go in Hstep. cbn in *. congruence.
Qed.

Lemma atualizar_frequencia_loaded (i : Z) (data : json) (s : db) (o : Frequencia.obj) :
  (row <- get_or_404 Frequencia.id (frequencias s) i ;;
   f <- assign_if_present "classe_id" data Frequencia.set_classe_id
          (Frequencia.load row) ;;
   f <- assign_date_if_present "data" data Frequencia.set_data f ;;
   f <- assign_if_present "total_biblia" data Frequencia.set_total_biblia f ;;
   f <- assign_if_present "total_present" data Frequencia.set_total_present f ;;
   f <- assign_if_present "total_absent" data Frequencia.set_total_absent f ;;
   f <- assign_if_present "total_visitors" data Frequencia.set_total_visitors f ;;
   f <- assign_if_present "total_general" data Frequencia.set_total_general f ;;
   assign_if_present "presencas" data Frequencia.set_presencas f) = Go o ->
  In (Frequencia.row o) (frequencias s) /\ Frequencia.id (Frequencia.row o) = i.
Proof.
  intros H. follow_assignments.
  apply get_or_404_go in Hstep. cbn in *. congruence.
Qed.

Ltac keys_components :=
  unfold keys_ok;
  cbn [users classes alunos frequencias users_seq classes_seq alunos_seq
       frequencias_seq with_users with_classes with_alunos with_frequencias];
  repeat match goal with
         | |- _ /\ _ => split
         | |- table_ok _ (_ ++ [_]) _ => apply table_ok_append; [assumption|reflexivity]
         | |- table_ok _ _ (_ + 1) => apply table_ok_bump; assumption
         | |- _ => assumption
         end.

Section Keys.
Context {D : Dbapi} {W : Werkzeug} {J : Jwt}.
Variable key : string.

Lemma insert_user_keys (u : json) (h : string) (now : Z) (s : db) :
  keys_ok s -> keys_ok (snd (insert_user u h now s)).
Proof.
  intros K. destruct (insert_user u h now s) as [[r|e] s'] eqn:I; cbn [snd].
  - apply insert_user_ok in I as (a & b & _ & _ & -> & -> & E).
    destruct K as (U & Un & C & Cn & A & F). keys_components.
    apply nodup_map_append; [assumption|].
    apply (existsb_false_not_in User.username String.eqb a (users s));
      [apply String.eqb_eq | exact E].
  - unfold insert_user in I.
    destruct (rbind _ _) as [[a b]|]; [|now injection I as _ <-].
    destruct (existsb _ _); [|discriminate I]. injection I as _ <-.
    destruct K as (U & Un & C & Cn & A & F). keys_components.
Qed.

Lemma insert_classe_keys (n p : json) (now : Z) (s : db) :
  keys_ok s -> keys_ok (snd (insert_classe n p now s)).
Proof.
  intros K. destruct (insert_classe n p now s) as [[r|e] s'] eqn:I; cbn [snd].
  - apply insert_classe_ok in I as (a & b & _ & _ & -> & -> & _ & E).
    destruct K as (U & Un & C & Cn & A & F). keys_components.
    apply nodup_map_append; [assumption|].
    apply (existsb_false_not_in Classe.nome String.eqb a (classes s));
      [apply String.eqb_eq | exact E].
  - unfold insert_classe in I.
    destruct (rbind _ _) as [[a b]|]; [|now injection I as _ <-].
    destruct (existsb _ _); [|discriminate I]. injection I as _ <-.
    destruct K as (U & Un & C & Cn & A & F). keys_components.
Qed.

Lemma insert_aluno_keys (n : json) (d : date) (c : json) (now : Z) (s : db) :
  keys_ok s -> keys_ok (snd (insert_aluno n d c now s)).
Proof.
  intros K. destruct (insert_aluno n d c now s) as [[r|e] s'] eqn:I; cbn [snd].
  - apply insert_aluno_ok in I as (a & b & _ & _ & -> & -> & _ & _).
    destruct K as (U & Un & C & Cn & A & F). keys_components.
  - unfold insert_aluno in I.
    destruct (rbind _ _) as [[a b]|]; [|now injection I as _ <-].
    destruct K as (U & Un & C & Cn & A & F).
    destruct (existsb _ _); [injection I as _ <-; keys_components|].
    destruct (negb _); [|discriminate I]. injection I as _ <-. keys_components.
Qed.

Lemma insert_frequencia_keys (c : json) (d : date) (tb tp ta tv tg ps : json)
  (now : Z) (s : db) :
  keys_ok s -> keys_ok (snd (insert_frequencia c d tb tp ta tv tg ps now s)).
Proof.
  intros K.
  destruct (insert_frequencia c d tb tp ta tv tg ps now s) as [[r|e] s'] eqn:I;
    cbn [snd].
  - apply insert_frequencia_ok in I
      as (c' & tb' & tp' & ta' & tv' & tg' & ps' & _ & _ & _ & _ & _ & _ & _
          & -> & -> & _ & _).
    destruct K as (U & Un & C & Cn & A & F). keys_components.
  - unfold insert_frequencia in I.
    destruct (rbind _ _) as [r|]; [|now injection I as _ <-].
    destruct K as (U & Un & C & Cn & A & F).
    destruct (existsb _ _); [injection I as _ <-; keys_components|].
    destruct (negb _); [|discriminate I]. injection I as _ <-. keys_components.
Qed.

Lemma update_classe_keys (o : Classe.obj) (now : Z) (s : db) :
  keys_ok s -> In (Classe.row o) (classes s) ->
  keys_ok (snd (update_classe o now s)).
Proof.
  intros K Hin. unfold update_classe.
  destruct (negb _) eqn:Dirty; [exact K|].
  destruct (upd (col_varchar 255)
              (changed_str (Classe.new_nome o) (Classe.nome (Classe.row o)))
              (Classe.nome (Classe.row o))) as [n|] eqn:En; [|exact K].
  destruct (upd (col_varchar 255)
              (changed_str (Classe.new_professor o) (Classe.professor (Classe.row o)))
              (Classe.professor (Classe.row o))) as [p|] eqn:Ep; [|exact K].
  cbn [rbind]. destruct (_ && _) eqn:Chk; [exact K|]. cbn [snd].
  destruct K as (U & Un & C & Cn & A & F). keys_components.
  - apply table_ok_update_row; [assumption | reflexivity | now apply in_map].
  - destruct C as [Cid _].
    apply (nodup_update_row Classe.id Classe.nome); try assumption; [reflexivity|].
    cbn [Classe.nome]. intros x Hx Nid Heq.
    destruct (changed_str (Classe.new_nome o) (Classe.nome (Classe.row o)))
      as [v|] eqn:P; cbn [is_some andb] in Chk.
    + assert (E : existsb (fun y => negb (Classe.id y =? Classe.id (Classe.row o))
                                    && String.eqb (Classe.nome y) n) (classes s) = true).
      { apply existsb_exists. exists x. split; [assumption|].
        apply andb_true_intro. split.
        - apply negb_true_iff. now apply Z.eqb_neq.
        - now apply String.eqb_eq. }
      congruence.
    + cbn [upd] in En. injection En as <-.
      apply Nid. f_equal.
      now apply (nodup_map_injective Classe.nome (classes s)).
Qed.

Lemma update_aluno_keys (o : Aluno.obj) (now : Z) (s : db) :
  keys_ok s -> In (Aluno.row o) (alunos s) ->
  keys_ok (snd (update_aluno o now s)).
Proof.
  intros K Hin. unfold update_aluno.
  destruct (negb _); [exact K|].
  destruct (rbind _ _) as [[[n c] st]|]; [|exact K].
  destruct (_ && _); [exact K|]. cbn [snd].
  destruct K as (U & Un & C & Cn & A & F). keys_components.
  apply table_ok_update_row; [assumption | reflexivity | now apply in_map].
Qed.

Lemma update_frequencia_keys (o : Frequencia.obj) (now : Z) (s : db) :
  keys_ok s -> In (Frequencia.row o) (frequencias s) ->
  keys_ok (snd (update_frequencia o now s)).
Proof.
  intros K Hin.
  destruct (update_frequencia o now s) as [[r'|e] s'] eqn:U0; cbn [snd].
  - apply update_frequencia_frame in U0 as [Fr Wr]. destruct Fr as (Hid & _).
    destruct Wr as [[E1 _]|E1]; rewrite E1; [exact K|].
    destruct K as (U & Un & C & Cn & A & F). keys_components.
    apply table_ok_update_row; [assumption | exact Hid | now apply in_map].
  - now rewrite (update_frequencia_raise o now s s' e U0).
Qed.
End Keys.

Lemma snd_committed {A} (st : Z) (f : A -> json) (w : result A * db) :
  snd (committed st f w) = snd w.
Proof. now destruct w as [[r|e] s1]. Qed.

Lemma keys_ok_empty : keys_ok empty_db.
Proof. repeat split; constructor. Qed.

Section KeysOfRoutes.
Context {D : Dbapi} {W : Werkzeug} {J : Jwt}.
Variable key : string.

Lemma body_keys (now : Z) (s : db) :
  keys_ok s ->
  (forall data, keys_ok (snd (register data now s)))
  /\ (forall data, keys_ok (snd (criar_classe data now s)))
  /\ (forall data, keys_ok (snd (criar_aluno data now s)))
  /\ (forall data, keys_ok (snd (registrar_frequencia data now s)))
  /\ (forall i data, keys_ok (snd (atualizar_classe i data now s)))
  /\ (forall i data, keys_ok (snd (atualizar_aluno i data now s)))
  /\ (forall i data, keys_ok (snd (atualizar_frequencia i data now s)))
  /\ (forall i, keys_ok (snd (deletar_classe i s)))
  /\ (forall i, keys_ok (snd (deletar_aluno i s)))
  /\ (forall i, keys_ok (snd (deletar_frequencia i s))).
Proof.
  intros K.
  repeat match goal with |- _ /\ _ => split end; intros.
  - unfold register.
    match goal with
    | |- keys_ok (snd (no_commit ?m s ?k)) =>
        destruct (no_commit_cases m s k) as [E|([u h] & _ & E)]; rewrite E;
          [exact K|]
    end.
    rewrite snd_committed. now apply insert_user_keys.
  - unfold criar_classe.
    match goal with
    | |- keys_ok (snd (no_commit ?m s ?k)) =>
        destruct (no_commit_cases m s k) as [E|([n p] & _ & E)]; rewrite E;
          [exact K|]
    end.
    rewrite snd_committed. now apply insert_classe_keys.
  - unfold criar_aluno.
    match goal with
    | |- keys_ok (snd (no_commit ?m s ?k)) =>
        destruct (no_commit_cases m s k) as [E|([[n d] c] & _ & E)]; rewrite E;
          [exact K|]
    end.
    rewrite snd_committed. now apply insert_aluno_keys.
  - unfold registrar_frequencia.
    destruct (all_in ["classe_id"; "data"] data) as [ok|]; [|exact K].
    cbn [eval fbind]. destruct ok; [|exact K]. cbn [negb].
    repeat match goal with
           | |- context [rbind ?x _] => destruct x; cbn [rbind]; [|exact K]
           end.
    cbn [try_formato no_commit]. rewrite snd_committed.
    now apply insert_frequencia_keys.
  - unfold atualizar_classe.
    match goal with
    | |- keys_ok (snd (no_commit ?m s ?k)) =>
        destruct (no_commit_cases m s k) as [E|(o & Ho & E)]; rewrite E; [exact K|]
    end.
    rewrite snd_committed. apply atualizar_classe_loaded in Ho as [Hin _].
    now apply update_classe_keys.
  - unfold atualizar_aluno.
    match goal with
    | |- keys_ok (snd (no_commit ?m s ?k)) =>
        destruct (no_commit_cases m s k) as [E|(o & Ho & E)]; rewrite E; [exact K|]
    end.
    rewrite snd_committed. apply atualizar_aluno_loaded in Ho as [Hin _].
    now apply update_aluno_keys.
  - unfold atualizar_frequencia.
    match goal with
    | |- keys_ok (snd (no_commit ?m s ?k)) =>
        destruct (no_commit_cases m s k) as [E|(o & Ho & E)]; rewrite E; [exact K|]
    end.
    rewrite snd_committed. apply atualizar_frequencia_loaded in Ho as [Hin _].
    now apply update_frequencia_keys.
  - unfold deletar_classe, get_or_404.
    destruct (find _ (classes s)); cbn [no_commit snd]; [|exact K].
    destruct (_ || _); cbn [snd]; [exact K|].
    destruct K as (U & Un & C & Cn & A & F). keys_components.
    + now apply table_ok_filter.
    + now apply nodup_map_filter.
  - unfold deletar_aluno, get_or_404.
    destruct (find _ (alunos s)); cbn [no_commit snd]; [|exact K].
    destruct K as (U & Un & C & Cn & A & F). keys_components.
    now apply table_ok_filter.
  - unfold deletar_frequencia, get_or_404.
    destruct (find _ (frequencias s)); cbn [no_commit snd]; [|exact K].
    destruct K as (U & Un & C & Cn & A & F). keys_components.
    now apply table_ok_filter.
Qed.

Lemma route_keys (authorization : option string) (now : Z) (hoje : date)
  (e : endpoint) (s : db) :
  keys_ok s -> keys_ok (snd (route key authorization now hoje e s)).
Proof.
  intros K.
  destruct (body_keys now s K)
    as (B1 & B2 & B3 & B4 & B5 & B6 & B7 & B8 & B9 & B10).
  destruct e; cbn [route];
    try apply B1;
    try (rewrite login_unchanged; exact K);
    try (unfold protected; rewrite jwt_required_unchanged; [exact K | reflexivity]);
    match goal with
    | |- context [jwt_required key authorization now ?f s] =>
        destruct (jwt_required_runs J key authorization now f s)
          as [[who ->]|(st & b & -> & _)]; [|exact K]
    | _ => idtac
    end;
    auto;
    first [ rewrite relatorio_semanal_unchanged
          | rewrite relatorio_mensal_unchanged
          | rewrite historico_frequencia_unchanged
          | idtac ];
    exact K.
Qed.

(** X18. Primary keys and unique columns hold in every state the application
    can reach: whatever requests are served from the empty database, and in
    whatever order, no table holds an id twice or an id beyond its sequence,
    no two users have the same username and no two classes the same name;
    and every single request keeps these facts. *)
Theorem keys_always_hold :
  (forall requests, keys_ok (after key requests empty_db))
  /\ (forall authorization now hoje e s,
        keys_ok s -> keys_ok (snd (route key authorization now hoje e s))).
Proof.
  split; [|intros; now apply route_keys].
  intros requests. unfold after.
  generalize keys_ok_empty. generalize empty_db.
  induction requests as [|r rs IH]; intros s K; simpl; [exact K|].
  apply IH. now apply route_keys.
Qed.
End KeysOfRoutes.

(** ** Foreign keys *)

Lemma forall_update_row {A} (P : A -> Prop) (idf : A -> Z) (i : Z) (r' : A)
  (rows : list A) :
  Forall P rows -> P r' -> Forall P (update_row idf i r' rows).
Proof.
  intros H Hr. rewrite Forall_forall in *. intros y Hy.
  apply in_update_row in Hy as [->|[Hy _]]; auto.
Qed.

Lemma forall_filter {A} (P : A -> Prop) (p : A -> bool) (rows : list A) :
  Forall P rows -> Forall P (filter p rows).
Proof.
  intros H. rewrite Forall_forall in *. intros y Hy.
  apply filter_In in Hy as [Hy _]. auto.
Qed.

Lemma class_exists_ids (s s' : db) (i : Z) :
  map Classe.id (classes s') = map Classe.id (classes s) ->
  class_exists s' i = class_exists s i.
Proof.
  unfold class_exists. intros H.
  assert (G : forall l, existsb (fun c => Classe.id c =? i) l
                        = existsb (fun j => j =? i) (map Classe.id l)).
  { induction l as [|x l IH]; simpl; [reflexivity | now rewrite IH]. }
  now rewrite !G, H.
Qed.

Lemma class_exists_grows (s : db) (r : Classe.t) (q i : Z) :
  class_exists s i = true ->
  class_exists (with_classes s (classes s ++ [r]) q) i = true.
Proof.
  unfold class_exists. cbn [classes with_classes]. intros H.
  rewrite existsb_app, H. reflexivity.
Qed.

Lemma class_exists_after_delete (s : db) (q i j : Z) :
  j <> i -> class_exists s j = true ->
  class_exists
    (with_classes s (filter (fun c => negb (Classe.id c =? i)) (classes s)) q) j
  = true.
Proof.
  unfold class_exists. cbn [classes with_classes]. intros Hj H.
  apply existsb_exists in H as (c & Hc & Ec). apply existsb_exists.
  exists c. split; [|assumption]. apply filter_In. split; [assumption|].
  apply negb_true_iff, Z.eqb_neq. apply Z.eqb_eq in Ec. congruence.
Qed.

Ltac refs_components :=
  unfold refs_ok;
  cbn [users classes alunos frequencias with_users with_classes with_alunos
       with_frequencias];
  repeat match goal with
         | |- _ /\ _ => split
         | |- _ => assumption
         end.

(** Run the columns of an UPDATE, leaving the goal to [R] where one is
    refused. *)
Ltac columns_or R :=
  repeat match goal with
         | |- context [rbind (upd ?col ?p ?old) _] =>
             let E := fresh "E" in
             destruct (upd col p old) eqn:E; cbn [rbind]; [|exact R]
         end.

Section Refs.
Context {D : Dbapi} {W : Werkzeug} {J : Jwt}.
Variable key : string.

Lemma insert_user_refs (u : json) (h : string) (now : Z) (s : db) :
  refs_ok s -> refs_ok (snd (insert_user u h now s)).
Proof.
  intros R. unfold insert_user.
  destruct (rbind _ _) as [[a b]|]; [|exact R].
  destruct (existsb _ _); exact R.
Qed.

Lemma insert_classe_refs (n p : json) (now : Z) (s : db) :
  refs_ok s -> refs_ok (snd (insert_classe n p now s)).
Proof.
  intros R. unfold insert_classe.
  destruct (rbind _ _) as [[a b]|]; [|exact R].
  destruct (existsb _ _); cbn [snd]; [exact R|].
  destruct R as [Ra Rf]. split; cbn [alunos frequencias with_classes].
  - eapply Forall_impl; [|exact Ra]. intros x. apply class_exists_grows.
  - eapply Forall_impl; [|exact Rf]. intros x. apply class_exists_grows.
Qed.

Lemma insert_aluno_refs (n : json) (d : date) (c : json) (now : Z) (s : db) :
  refs_ok s -> refs_ok (snd (insert_aluno n d c now s)).
Proof.
  intros R. unfold insert_aluno.
  destruct (rbind _ _) as [[a b]|]; [|exact R].
  destruct (existsb _ _); [exact R|].
  destruct (class_exists s b) eqn:C; cbn [negb snd]; [|exact R].
  destruct R as [Ra Rf]. split; cbn [alunos frequencias with_alunos]; [|exact Rf].
  apply Forall_app. split; [exact Ra|]. repeat constructor. exact C.
Qed.

Lemma insert_frequencia_refs (c : json) (d : date) (tb tp ta tv tg ps : json)
  (now : Z) (s : db) :
  refs_ok s -> refs_ok (snd (insert_frequencia c d tb tp ta tv tg ps now s)).
Proof.
  intros R. unfold insert_frequencia.
  destruct (rbind _ _) as [r|]; [|exact R].
  destruct (existsb _ _); [exact R|].
  destruct (class_exists s (Frequencia.classe_id r)) eqn:C; cbn [negb snd];
    [|exact R].
  destruct R as [Ra Rf]. split; cbn [alunos frequencias with_frequencias];
    [exact Ra|].
  apply Forall_app. split; [exact Rf|]. repeat constructor. exact C.
Qed.

Lemma update_classe_refs (o : Classe.obj) (now : Z) (s : db) :
  refs_ok s -> refs_ok (snd (update_classe o now s)).
Proof.
  intros R. unfold update_classe.
  destruct (negb _); [exact R|].
  destruct (rbind _ _) as [[n p]|]; [|exact R].
  destruct (_ && _); [exact R|]. cbn [snd].
  destruct R as [Ra Rf].
  assert (G : forall i,
             class_exists
               (with_classes s
                  (update_row Classe.id (Classe.id (Classe.row o))
                     (Classe.mk (Classe.id (Classe.row o)) n p
                        (Classe.created_at (Classe.row o)) now) (classes s))
                  (classes_seq s)) i
             = class_exists s i).
  { intros i. apply class_exists_ids. cbn [classes with_classes].
    now apply map_id_update_row. }
  split; cbn [alunos frequencias with_classes].
  - eapply Forall_impl; [|exact Ra]. intros x Hx. now rewrite G.
  - eapply Forall_impl; [|exact Rf]. intros x Hx. now rewrite G.
Qed.

Lemma update_aluno_refs (o : Aluno.obj) (now : Z) (s : db) :
  refs_ok s -> In (Aluno.row o) (alunos s) ->
  refs_ok (snd (update_aluno o now s)).
Proof.
  intros R Hin. unfold update_aluno.
  destruct (negb _); [exact R|].
  columns_or R.
  match goal with |- context [is_some ?p && _] => destruct p as [v|] eqn:P end;
    cbn [is_some andb].
  - match goal with |- context [class_exists s ?c] =>
      destruct (class_exists s c) eqn:C end; cbn [negb snd]; [|exact R].
    destruct R as [Ra Rf]. split; cbn [alunos frequencias with_alunos]; [|exact Rf].
    apply forall_update_row; [exact Ra | exact C].
  - cbn [snd]. destruct R as [Ra Rf].
    split; cbn [alunos frequencias with_alunos]; [|exact Rf].
    apply forall_update_row; [exact Ra|]. cbn [Aluno.classe_id].
    match goal with E : upd col_integer None _ = Ok _ |- _ =>
      cbn [upd] in E; injection E as <- end.
    rewrite Forall_forall in Ra. now apply Ra.
Qed.

Lemma update_frequencia_refs (o : Frequencia.obj) (now : Z) (s : db) :
  refs_ok s -> In (Frequencia.row o) (frequencias s) ->
  refs_ok (snd (update_frequencia o now s)).
Proof.
  intros R Hin. unfold update_frequencia.
  destruct (negb _); [exact R|].
  columns_or R.
  cbn [Frequencia.classe_id Frequencia.id].
  match goal with |- context [is_some ?p && _] => destruct p as [v|] eqn:P end;
    cbn [is_some andb].
  - match goal with |- context [class_exists s ?c] =>
      destruct (class_exists s c) eqn:C end; cbn [negb snd]; [|exact R].
    destruct R as [Ra Rf].
    split; cbn [alunos frequencias with_frequencias]; [exact Ra|].
    apply forall_update_row; [exact Rf | exact C].
  - cbn [snd]. destruct R as [Ra Rf].
    split; cbn [alunos frequencias with_frequencias]; [exact Ra|].
    apply forall_update_row; [exact Rf|]. cbn [Frequencia.classe_id].
    match goal with E : upd col_integer None _ = Ok _ |- _ =>
      cbn [upd] in E; injection E as <- end.
    rewrite Forall_forall in Rf. now apply Rf.
Qed.
End Refs.

Lemma refs_ok_empty : refs_ok empty_db.
Proof. split; constructor. Qed.

Section RefsOfRoutes.
Context {D : Dbapi} {W : Werkzeug} {J : Jwt}.
Variable key : string.

Lemma deletar_classe_refs (i : Z) (s : db) :
  refs_ok s -> refs_ok (snd (deletar_classe i s)).
Proof.
  intros R. unfold deletar_classe, get_or_404.
  destruct (find _ (classes s)) as [c|] eqn:F; cbn [no_commit snd]; [|exact R].
  destruct (existsb (fun a => Aluno.classe_id a =? Classe.id c) (alunos s)) eqn:Ea;
    [exact R|].
  destruct (existsb (fun f => Frequencia.classe_id f =? Classe.id c) (frequencias s))
    eqn:Ef; [exact R|].
  cbn [orb snd]. destruct R as [Ra Rf].
  split; cbn [alunos frequencias with_classes]; rewrite Forall_forall in *.
  - intros a Ha. apply class_exists_after_delete; [|now apply Ra].
    intros E.
    assert (T : existsb (fun a => Aluno.classe_id a =? Classe.id c) (alunos s) = true).
    { apply existsb_exists. exists a. split; [assumption | now apply Z.eqb_eq]. }
    congruence.
  - intros f Hf. apply class_exists_after_delete; [|now apply Rf].
    intros E.
    assert (T : existsb (fun f => Frequencia.classe_id f =? Classe.id c)
                  (frequencias s) = true).
    { apply existsb_exists. exists f. split; [assumption | now apply Z.eqb_eq]. }
    congruence.
Qed.

Lemma body_refs (now : Z) (s : db) :
  refs_ok s ->
  (forall data, refs_ok (snd (register data now s)))
  /\ (forall data, refs_ok (snd (criar_classe data now s)))
  /\ (forall data, refs_ok (snd (criar_aluno data now s)))
  /\ (forall data, refs_ok (snd (registrar_frequencia data now s)))
  /\ (forall i data, refs_ok (snd (atualizar_classe i data now s)))
  /\ (forall i data, refs_ok (snd (atualizar_aluno i data now s)))
  /\ (forall i data, refs_ok (snd (atualizar_frequencia i data now s)))
  /\ (forall i, refs_ok (snd (deletar_classe i s)))
  /\ (forall i, refs_ok (snd (deletar_aluno i s)))
  /\ (forall i, refs_ok (snd (deletar_frequencia i s))).
Proof.
  intros R.
  repeat match goal with |- _ /\ _ => split end; intros.
  - unfold register.
    match goal with
    | |- refs_ok (snd (no_commit ?m s ?k)) =>
        destruct (no_commit_cases m s k) as [E|([u h] & _ & E)]; rewrite E;
          [exact R|]
    end.
    rewrite snd_committed. now apply insert_user_refs.
  - unfold criar_classe.
    match goal with
    | |- refs_ok (snd (no_commit ?m s ?k)) =>
        destruct (no_commit_cases m s k) as [E|([n p] & _ & E)]; rewrite E;
          [exact R|]
    end.
    rewrite snd_committed. now apply insert_classe_refs.
  - unfold criar_aluno.
    match goal with
    | |- refs_ok (snd (no_commit ?m s ?k)) =>
        destruct (no_commit_cases m s k) as [E|([[n d] c] & _ & E)]; rewrite E;
          [exact R|]
    end.
    rewrite snd_committed. now apply insert_aluno_refs.
  - unfold registrar_frequencia.
    destruct (all_in ["classe_id"; "data"] data) as [ok|]; [|exact R].
    cbn [eval fbind]. destruct ok; [|exact R]. cbn [negb].
    repeat match goal with
           | |- context [rbind ?x _] => destruct x; cbn [rbind]; [|exact R]
           end.
    cbn [try_formato no_commit]. rewrite snd_committed.
    now apply insert_frequencia_refs.
  - unfold atualizar_classe.
    match goal with
    | |- refs_ok (snd (no_commit ?m s ?k)) =>
        destruct (no_commit_cases m s k) as [E|(o & Ho & E)]; rewrite E; [exact R|]
    end.
    rewrite snd_committed. now apply update_classe_refs.
  - unfold atualizar_aluno.
    match goal with
    | |- refs_ok (snd (no_commit ?m s ?k)) =>
        destruct (no_commit_cases m s k) as [E|(o & Ho & E)]; rewrite E; [exact R|]
    end.
    rewrite snd_committed. apply atualizar_aluno_loaded in Ho as [Hin _].
    now apply update_aluno_refs.
  - unfold atualizar_frequencia.
    match goal with
    | |- refs_ok (snd (no_commit ?m s ?k)) =>
        destruct (no_commit_cases m s k) as [E|(o & Ho & E)]; rewrite E; [exact R|]
    end.
    rewrite snd_committed. apply atualizar_frequencia_loaded in Ho as [Hin _].
    now apply update_frequencia_refs.
  - now apply deletar_classe_refs.
  - unfold deletar_aluno, get_or_404.
    destruct (find _ (alunos s)); cbn [no_commit snd]; [|exact R].
    destruct R as [Ra Rf]. split; cbn [alunos frequencias with_alunos]; [|exact Rf].
    now apply forall_filter.
  - unfold deletar_frequencia, get_or_404.
    destruct (find _ (frequencias s)); cbn [no_commit snd]; [|exact R].
    destruct R as [Ra Rf].
    split; cbn [alunos frequencias with_frequencias]; [exact Ra|].
    now apply forall_filter.
Qed.

Lemma route_refs (authorization : option string) (now : Z) (hoje : date)
  (e : endpoint) (s : db) :
  refs_ok s -> refs_ok (snd (route key authorization now hoje e s)).
Proof.
  intros K.
  destruct (body_refs now s K)
    as (B1 & B2 & B3 & B4 & B5 & B6 & B7 & B8 & B9 & B10).
  destruct e; cbn [route];
    try apply B1;
    try (rewrite login_unchanged; exact K);
    try (unfold protected; rewrite jwt_required_unchanged; [exact K | reflexivity]);
    match goal with
    | |- context [jwt_required key authorization now ?f s] =>
        destruct (jwt_required_runs J key authorization now f s)
          as [[who ->]|(st & b & -> & _)]; [|exact K]
    | _ => idtac
    end;
    auto;
    first [ rewrite relatorio_semanal_unchanged
          | rewrite relatorio_mensal_unchanged
          | rewrite historico_frequencia_unchanged
          | idtac ];
    exact K.
Qed.

(** X19. The two foreign keys hold in every state the application can reach:
    whatever requests are served from the empty database, every student and
    every attendance record belongs to a class that is in the table (a
    DELETE of a class that still has students or records is refused at the
    commit); and every single request keeps this. *)
Theorem refs_always_hold :
  (forall requests, refs_ok (after key requests empty_db))
  /\ (forall authorization now hoje e s,
        refs_ok s -> refs_ok (snd (route key authorization now hoje e s))).
Proof.
  split; [|intros; now apply route_refs].
  intros requests. unfold after.
  generalize refs_ok_empty. generalize empty_db.
  induction requests as [|r rs IH]; intros s K; simpl; [exact K|].
  apply IH. now apply route_refs.
Qed.
End RefsOfRoutes.

(** ** Dates written by [to_dict] and read by [strptime] *)

Lemma reads_back_all :
  forallb reads_back (years_from (Z.to_nat 1000) (Z.to_nat 9000)) = true.
Proof. vm_compute. reflexivity. Qed.

Lemma year_reads_back (y : Z) : 1000 <= y <= 9999 -> reads_back y = true.
Proof.
  intros H. pose proof reads_back_all as A. rewrite forallb_forall in A.
  apply A. unfold years_from. apply in_map_iff.
  exists (Z.to_nat y). split; [lia|]. apply in_seq. lia.
Qed.

Lemma days_in_month_le (y m : Z) : days_in_month y m <= 31.
Proof.
  unfold days_in_month.
  destruct (m =? 2); [destruct (is_leap y); lia|].
  destruct ((m =? 4) || (m =? 6) || (m =? 9) || (m =? 11)); lia.
Qed.

Lemma month_and_day_read_back (y m d : Z) :
  1 <= m <= 12 -> 1 <= d <= 31 ->
  first_match alts_m (pad2 m ++ "-" ++ pad2 d)
    (fun m' s3 =>
       match dash s3 with
       | Some s4 => first_match alts_d s4 (fun d' s5 => Some (mkDate y m' d', s5))
       | None => None
       end)
  = Some (mkDate y m d, "").
Proof.
  intros Hm Hd.
  assert (M : In m [1; 2; 3; 4; 5; 6; 7; 8; 9; 10; 11; 12]) by (simpl; lia).
  assert (N : In d [1; 2; 3; 4; 5; 6; 7; 8; 9; 10; 11; 12; 13; 14; 15; 16; 17;
                    18; 19; 20; 21; 22; 23; 24; 25; 26; 27; 28; 29; 30; 31])
    by (simpl; lia).
  clear Hm Hd. simpl in M, N.
  repeat (destruct M as [<-|M]; [|]); try contradiction;
    repeat (destruct N as [<-|N]; [|]); try contradiction; reflexivity.
Qed.

Lemma match_format_strftime (d : date) :
  valid_date d = true -> four_digit_year d = true ->
  match_format (strftime d) = Some (d, "").
Proof.
  intros V F. apply valid_date_bounds in V as (Hy & Hm & Hd).
  unfold four_digit_year in F. apply andb_true_iff in F as [F _].
  apply Z.leb_le in F.
  pose proof (days_in_month_le (year d) (month d)) as L.
  pose proof (year_reads_back (year d) (conj F (proj2 Hy))) as RB.
  destruct d as [y m dd]. cbn [year month day] in *.
  unfold reads_back in RB. unfold strftime. cbn [year month day].
  destruct (string_of_Z y) as [|a [|b [|c [|e [|]]]]]; try discriminate RB.
  rewrite !andb_true_iff in RB. destruct RB as [[[[Da Db] Dc] De] Ey].
  apply Z.eqb_eq in Ey.
  cbn [append]. unfold match_format, read_Y.
  rewrite Da, Db, Dc, De. cbn [andb]. rewrite Ey.
  cbn [dash Ascii.eqb Bool.eqb]. 
  apply month_and_day_read_back; lia.
Qed.

(** X20. A date that [to_dict] writes is read back as the same date by the
    parser of the POST and PUT routes: for every calendar date from the year
    1000 on, [strptime(d.strftime('%Y-%m-%d'), '%Y-%m-%d')] is [d]; so the
    'data' of a record and the 'data_nascimento' of a student, as the GET
    routes show them, are accepted by the routes that write them and mean
    the stored date. *)
Theorem strftime_then_strptime (d : date) :
  valid_date d = true -> four_digit_year d = true ->
  strptime (JStr (strftime d)) = Ok d
  /\ (forall a, Aluno.data_nascimento a = d ->
        rbind (py_getitem (Aluno.to_dict a) "data_nascimento") strptime = Ok d)
  /\ (forall f, Frequencia.data f = d ->
        rbind (py_getitem (JDict (Frequencia.to_dict f)) "data") strptime = Ok d).
Proof.
  intros V F.
  assert (R : strptime (JStr (strftime d)) = Ok d).
  { unfold strptime, strptime_str.
    rewrite (match_format_strftime d V F). cbn [String.eqb negb]. now rewrite V. }
  split; [exact R|]. split.
  - intros a <-. exact R.
  - intros f <-. exact R.
Qed.

Lemma strftime_then_strptime_witness :
  valid_date (mkDate 2024 2 29) = true
  /\ four_digit_year (mkDate 2024 2 29) = true
  /\ strptime (JStr (strftime (mkDate 2024 2 29))) = Ok (mkDate 2024 2 29).
Proof.
  split; [reflexivity|]. split; [reflexivity|].
  exact (proj1 (strftime_then_strptime (mkDate 2024 2 29) eq_refl eq_refl)).
Defined.

(** ** Requests without a verified token *)

Section Guard.
Context {D : Dbapi} {W : Werkzeug} {J : Jwt}.
Variable key : string.

Lemma jwt_required_refuses (authorization : option string) (now : Z)
  (f : Z -> view) (s : db) :
  (forall header token who,
     authorization = Some header -> bearer header = Some token ->
     decode_token key token now <> Identity who) ->
  exists st body,
    jwt_required key authorization now f s = (Response st body, s)
    /\ (st = 401 \/ st = 422).
Proof.
  intros N. unfold jwt_required.
  destruct authorization as [h|]; [|eexists _, _; split; [reflexivity|auto]].
  destruct (bearer h) as [t|] eqn:B; [|eexists _, _; split; [reflexivity|auto]].
  destruct (decode_token key t now) as [who| | |] eqn:V;
    [exfalso; exact (N h t who eq_refl B V) | | |];
    eexists _, _; split; try reflexivity; auto.
Qed.

End Guard.

